(** * Lesson-plan approval workflow: server endpoints and client guards

    A shallow embedding of the Express server ([server.js]) and of the
    approval logic of the React client (the [LessonPlanCard], [Dashboard],
    [AdminModal], [ApprovalStepper], [TeamOverviewModal] and [App]
    components), followed by the properties of the approval workflow that
    hold of them.

    Conventions of the embedding.
    - A JavaScript string is the list of its UTF-16 code units
      ([jsstring]); literals are written [js "..."], which decodes the
      UTF-8 bytes of the Rocq literal the way the engine decodes the source
      text.
    - Numbers that are identifiers or clock readings are in [Z]; an
      optional property ([teamId?: number]) is an [option].
    - The in-memory database [db] is passed explicitly: an endpoint maps
      the database and the request to the new database and the response.
      [writeDb] only serialises the database it is given and is left out.
    - Objects are values.  The one write the server makes into an object
      that other objects may hold as well is the role that assign-role
      writes into a user: a lesson plan may hold that very user object as
      its submitter, as the author of a history entry or of a comment, or
      as its final approver (the seed data does, and so does every plan,
      entry and comment the server creates).  Which of these places hold
      which element of [db.users] is the [Sharing] handed to that
      endpoint. *)

From stdpp Require Import gmap strings list.
From Stdlib Require Import ZArith NArith Lia.

Local Open Scope Z_scope.

(** ** JavaScript strings *)

Abbreviation jsstring := (list N).

(** Decoding of UTF-8 bytes (one to four byte sequences) into UTF-16 code
    units; a four byte sequence gives a surrogate pair. *)
Fixpoint utf16_of_utf8 (bs : list N) : list N :=
  match bs with
  | [] => []
  | b1 :: r1 =>
    if (b1 <? 128)%N then b1 :: utf16_of_utf8 r1 else
    match r1 with
    | [] => [b1]
    | b2 :: r2 =>
      if (b1 <? 224)%N then
        N.lor (N.shiftl (N.land b1 31) 6) (N.land b2 63) :: utf16_of_utf8 r2
      else
      match r2 with
      | [] => [b1; b2]
      | b3 :: r3 =>
        if (b1 <? 240)%N then
          N.lor (N.shiftl (N.land b1 15) 12)
                (N.lor (N.shiftl (N.land b2 63) 6) (N.land b3 63))
            :: utf16_of_utf8 r3
        else
        match r3 with
        | [] => [b1; b2; b3]
        | b4 :: r4 =>
          let cp := N.lor (N.shiftl (N.land b1 7) 18)
                   (N.lor (N.shiftl (N.land b2 63) 12)
                   (N.lor (N.shiftl (N.land b3 63) 6) (N.land b4 63))) in
          let v := (cp - 65536)%N in
          (55296 + N.shiftr v 10)%N :: (56320 + N.land v 1023)%N
            :: utf16_of_utf8 r4
        end
      end
    end
  end.

Definition js (s : string) : jsstring :=
  utf16_of_utf8 (List.map Ascii.N_of_ascii (String.list_ascii_of_string s)).
Arguments js : simpl never.

(** [!!s] for a string: only the empty string is falsy. *)
Definition truthy (s : jsstring) : bool := negb (bool_decide (s = [])).

(** [!!n] for a number coming from JSON (never NaN). *)
Definition truthyNum (n : Z) : bool := negb (bool_decide (n = 0)).

(** The WhiteSpace and LineTerminator code points of ECMAScript, which
    [String.prototype.trim] strips: TAB, LF, VT, FF, CR, SP, NBSP, the
    other space separators, LS, PS and the byte order mark. *)
Definition isWhiteSpace (c : N) : bool :=
  ((9 <=? c) && (c <=? 13) || (c =? 32) || (c =? 160) || (c =? 5760)
   || (8192 <=? c) && (c <=? 8202) || (c =? 8232) || (c =? 8233)
   || (c =? 8239) || (c =? 8287) || (c =? 12288) || (c =? 65279))%N.

Fixpoint dropWhile {A} (f : A -> bool) (l : list A) : list A :=
  match l with
  | [] => []
  | x :: r => if f x then dropWhile f r else l
  end.

Definition trimStart (s : jsstring) : jsstring := dropWhile isWhiteSpace s.
Definition trimEnd (s : jsstring) : jsstring :=
  rev (dropWhile isWhiteSpace (rev s)).
Definition trim (s : jsstring) : jsstring := trimEnd (trimStart s).

(** ** Section 2 of the client: types *)

Module Role.
Definition ADMIN : jsstring := js "Quản trị viên toàn cầu".
Definition TEACHER : jsstring := js "Giáo viên".
Definition DEPUTY_TEAM_LEADER : jsstring := js "Tổ phó Chuyên môn".
Definition TEAM_LEADER : jsstring := js "Tổ trưởng Chuyên môn".
Definition VICE_PRINCIPAL : jsstring := js "Phó Hiệu trưởng".
Definition PRINCIPAL : jsstring := js "Hiệu trưởng".
End Role.

Module Status.
Definition DRAFT : jsstring := js "Bản nháp".
Definition SUBMITTED : jsstring := js "Chờ Tổ trưởng duyệt".
Definition REJECTED_BY_TL : jsstring := js "Tổ trưởng từ chối".
Definition APPROVED_BY_TL : jsstring := js "Chờ Hiệu trưởng duyệt".
Definition APPROVED : jsstring := js "Đã phê duyệt".
Definition REJECTED_BY_VP : jsstring := js "Hiệu trưởng từ chối".
Definition ISSUED : jsstring := js "Đã ban hành".
End Status.

Record School := { s_id : jsstring; s_name : jsstring }.

Record User := {
  u_id : Z;
  u_name : jsstring;
  u_role : jsstring;
  u_email : jsstring;
  u_password : option jsstring;
  u_teamId : option Z;
  u_o365Email : option jsstring;
  u_oneDriveLink : option jsstring;
  u_zaloPhoneNumber : option jsstring;
  u_schoolId : option jsstring
}.

Record Team := {
  t_id : Z;
  t_name : jsstring;
  t_leaderId : option Z;
  t_deputyLeaderId : option Z;
  t_schoolId : option jsstring
}.

Record DelegationState := {
  principalToVp : bool;
  teamDelegation : gmap Z bool
}.

Record HistoryEntry := {
  h_action : jsstring;
  h_user : option User;
  h_timestamp : Z;
  h_reason : option jsstring
}.

Record CommentEntry := {
  c_id : Z;
  c_user : User;
  c_timestamp : Z;
  c_text : jsstring
}.

Record OneDriveFolder := {
  o_id : jsstring;
  o_name : jsstring;
  o_driveId : jsstring
}.

Record FileRef := {
  f_name : jsstring;
  f_url : jsstring;
  f_content : option (list N);
  f_isExternalLink : option bool
}.

Record LessonPlan := {
  p_id : Z;
  p_title : jsstring;
  p_submittedBy : User;
  p_submittedAt : Z;
  p_status : jsstring;
  p_history : list HistoryEntry;
  p_comments : option (list CommentEntry);
  p_file : FileRef;
  p_finalApprover : option User;
  p_finalApprovedAt : option Z;
  p_subject : option jsstring;
  p_grade : option jsstring;
  p_class : option jsstring;
  p_notes : option jsstring;
  p_oneDriveFolder : option OneDriveFolder;
  p_teamId : option Z;
  p_schoolId : option jsstring
}.

(** ** Section 2 of the server: the database *)

Record Db := {
  schools : list School;
  users : list User;
  teams : list Team;
  lessonPlans : list LessonPlan;
  delegation : DelegationState
}.

(** [arr.findIndex(pred)] together with the element found there, and
    [arr.find(pred)]; [None] stands for the index -1 and for [undefined]. *)
Definition findIndex {A} (P : A -> Prop) `{forall x, Decision (P x)}
    (l : list A) : option (nat * A) := list_find P l.
Definition find {A} (P : A -> Prop) `{forall x, Decision (P x)}
    (l : list A) : option A := snd <$> list_find P l.

(** What an endpoint sends back: [res.status(code).json(body)] or
    [res.status(code).json({ message })]. *)
Inductive Response (A : Type) : Type :=
  | Json (code : Z) (body : A)
  | Message (code : Z) (message : jsstring).
Arguments Json {A} code body.
Arguments Message {A} code message.

(** Property assignments [plan.status = ...], [plan.history.push(...)] and
    the like, on plans, teams, users and the database. *)
Definition set_status (s : jsstring) (p : LessonPlan) : LessonPlan :=
  {| p_id := p_id p; p_title := p_title p; p_submittedBy := p_submittedBy p;
     p_submittedAt := p_submittedAt p; p_status := s;
     p_history := p_history p; p_comments := p_comments p;
     p_file := p_file p; p_finalApprover := p_finalApprover p;
     p_finalApprovedAt := p_finalApprovedAt p; p_subject := p_subject p;
     p_grade := p_grade p; p_class := p_class p; p_notes := p_notes p;
     p_oneDriveFolder := p_oneDriveFolder p; p_teamId := p_teamId p;
     p_schoolId := p_schoolId p |}.

Definition set_final (approver : option User) (at_ : Z) (p : LessonPlan)
    : LessonPlan :=
  {| p_id := p_id p; p_title := p_title p; p_submittedBy := p_submittedBy p;
     p_submittedAt := p_submittedAt p; p_status := p_status p;
     p_history := p_history p; p_comments := p_comments p;
     p_file := p_file p; p_finalApprover := approver;
     p_finalApprovedAt := Some at_; p_subject := p_subject p;
     p_grade := p_grade p; p_class := p_class p; p_notes := p_notes p;
     p_oneDriveFolder := p_oneDriveFolder p; p_teamId := p_teamId p;
     p_schoolId := p_schoolId p |}.

Definition push_history (h : HistoryEntry) (p : LessonPlan) : LessonPlan :=
  {| p_id := p_id p; p_title := p_title p; p_submittedBy := p_submittedBy p;
     p_submittedAt := p_submittedAt p; p_status := p_status p;
     p_history := p_history p ++ [h]; p_comments := p_comments p;
     p_file := p_file p; p_finalApprover := p_finalApprover p;
     p_finalApprovedAt := p_finalApprovedAt p; p_subject := p_subject p;
     p_grade := p_grade p; p_class := p_class p; p_notes := p_notes p;
     p_oneDriveFolder := p_oneDriveFolder p; p_teamId := p_teamId p;
     p_schoolId := p_schoolId p |}.

Definition set_comments (cs : list CommentEntry) (p : LessonPlan)
    : LessonPlan :=
  {| p_id := p_id p; p_title := p_title p; p_submittedBy := p_submittedBy p;
     p_submittedAt := p_submittedAt p; p_status := p_status p;
     p_history := p_history p; p_comments := Some cs;
     p_file := p_file p; p_finalApprover := p_finalApprover p;
     p_finalApprovedAt := p_finalApprovedAt p; p_subject := p_subject p;
     p_grade := p_grade p; p_class := p_class p; p_notes := p_notes p;
     p_oneDriveFolder := p_oneDriveFolder p; p_teamId := p_teamId p;
     p_schoolId := p_schoolId p |}.

Definition set_role (r : jsstring) (u : User) : User :=
  {| u_id := u_id u; u_name := u_name u; u_role := r; u_email := u_email u;
     u_password := u_password u; u_teamId := u_teamId u;
     u_o365Email := u_o365Email u; u_oneDriveLink := u_oneDriveLink u;
     u_zaloPhoneNumber := u_zaloPhoneNumber u; u_schoolId := u_schoolId u |}.

Definition set_leaderId (l : option Z) (t : Team) : Team :=
  {| t_id := t_id t; t_name := t_name t; t_leaderId := l;
     t_deputyLeaderId := t_deputyLeaderId t; t_schoolId := t_schoolId t |}.

Definition set_deputyLeaderId (d : option Z) (t : Team) : Team :=
  {| t_id := t_id t; t_name := t_name t; t_leaderId := t_leaderId t;
     t_deputyLeaderId := d; t_schoolId := t_schoolId t |}.

Definition set_lessonPlans (ps : list LessonPlan) (db : Db) : Db :=
  {| schools := schools db; users := users db; teams := teams db;
     lessonPlans := ps; delegation := delegation db |}.

Definition set_delegation (d : DelegationState) (db : Db) : Db :=
  {| schools := schools db; users := users db; teams := teams db;
     lessonPlans := lessonPlans db; delegation := d |}.

(** ** Section 3 of the server: the endpoints

    The route parameter [:id] is compared with [==] to numeric ids and is
    taken as the number it denotes.  Each [new Date()] and [Date.now()] is
    a clock reading passed in by the caller. *)

(** [PUT /api/lesson-plans/:id/status]: the [switch] on [newStatus], which
    picks the history label and, for the issued status only, stamps the
    final approver. *)
Definition statusSwitch (newStatus : jsstring) (currentUser : option User)
    (tFinal : Z) (plan : LessonPlan) : jsstring * LessonPlan :=
  if bool_decide (newStatus = Status.SUBMITTED) then
    (js "Nộp lại Kế hoạch bài dạy", plan)
  else if bool_decide (newStatus = Status.REJECTED_BY_TL) then
    (js "Tổ trưởng từ chối", plan)
  else if bool_decide (newStatus = Status.APPROVED_BY_TL) then
    (js "Tổ trưởng đã duyệt", plan)
  else if bool_decide (newStatus = Status.APPROVED) then
    (js "Hiệu trưởng đã duyệt", plan)
  else if bool_decide (newStatus = Status.REJECTED_BY_VP) then
    (js "Hiệu trưởng từ chối", plan)
  else if bool_decide (newStatus = Status.ISSUED) then
    (js "Đã ban hành", set_final currentUser tFinal plan)
  else if bool_decide (newStatus = Status.DRAFT) then
    (js "Thu hồi để chỉnh sửa", plan)
  else (js "Cập nhật trạng thái", plan).

(** The mock of the authenticated user: [db.users.find(u => u.id === 4)]. *)
Definition mockCurrentUser (db : Db) : option User :=
  find (fun u => u_id u = 4) (users db).

(** [...(reason && { reason })]: the property is present only for a
    truthy reason. *)
Definition reasonProperty (reason : option jsstring) : option jsstring :=
  match reason with
  | Some r => if truthy r then Some r else None
  | None => None
  end.

Definition put_lesson_plan_status (db : Db) (id : Z) (newStatus : jsstring)
    (reason : option jsstring) (tFinal tHistory : Z)
    : Db * Response LessonPlan :=
  let currentUser := mockCurrentUser db in
  match findIndex (fun p => p_id p = id) (lessonPlans db) with
  | None => (db, Message 404 (js "Lesson plan not found"))
  | Some (planIndex, plan) =>
    let plan := set_status newStatus plan in
    let '(action, plan) := statusSwitch newStatus currentUser tFinal plan in
    let plan :=
      push_history {| h_action := action; h_user := currentUser;
                      h_timestamp := tHistory;
                      h_reason := reasonProperty reason |} plan in
    (set_lessonPlans (<[planIndex := plan]> (lessonPlans db)) db,
     Json 200 plan)
  end.

(** [POST /api/lesson-plans/:id/comments].  [text] is [None] when the body
    has no [text] or one that is not a string. *)
Definition post_lesson_plan_comment (db : Db) (id : Z)
    (text : option jsstring) (now tComment : Z) : Db * Response LessonPlan :=
  match mockCurrentUser db with
  | None => (db, Message 401 (js "Unauthorized"))
  | Some currentUser =>
    match text with
    | None => (db, Message 400 (js "Comment text cannot be empty"))
    | Some text =>
      if negb (truthy text) || bool_decide (trim text = []) then
        (db, Message 400 (js "Comment text cannot be empty"))
      else
        match findIndex (fun p => p_id p = id) (lessonPlans db) with
        | None => (db, Message 404 (js "Lesson plan not found"))
        | Some (planIndex, plan) =>
          let newComment :=
            {| c_id := now; c_user := currentUser;
               c_timestamp := tComment; c_text := trim text |} in
          let plan :=
            set_comments (default [] (p_comments plan) ++ [newComment]) plan in
          (set_lessonPlans (<[planIndex := plan]> (lessonPlans db)) db,
           Json 200 plan)
        end
    end
  end.

(** [POST /api/lesson-plans].  [PlanDetails] is the parsed [details] field
    of the form: an [UploadDetails] object to which the client adds
    [schoolId], and which may carry any other property of a lesson plan. *)
Record PlanDetails := {
  d_id : option Z;
  d_title : jsstring;
  d_submittedBy : option User;
  d_submittedAt : option Z;
  d_status : option jsstring;
  d_history : option (list HistoryEntry);
  d_comments : option (list CommentEntry);
  d_file : option FileRef;
  d_finalApprover : option User;
  d_finalApprovedAt : option Z;
  d_subject : option jsstring;
  d_grade : option jsstring;
  d_class : option jsstring;
  d_notes : option jsstring;
  d_oneDriveFolder : option OneDriveFolder;
  d_teamId : option Z;
  d_schoolId : option jsstring
}.

(** The file that multer stored: [req.file]. *)
Record UploadedFile := { originalname : jsstring; filename : jsstring }.

(** The object literal [{ id: Date.now(), ...planDetails, submittedBy, teamId,
    submittedAt, status, file, history, comments }]: a property of the
    details wins over [id], which precedes the spread, and loses to the
    properties that follow it. *)
Definition post_lesson_plan (db : Db) (planDetails : PlanDetails)
    (isDraft : jsstring) (file : option UploadedFile)
    (now tSubmitted tHistory : Z) : Db * Response LessonPlan :=
  match file with
  | None => (db, Message 400 (js "File is required."))
  | Some file =>
    match find (fun u => u_id u = 6) (users db) with
    | None => (db, Message 404 (js "Submitter user not found."))
    | Some submitter =>
      let draft := bool_decide (isDraft = js "true") in
      let newPlan :=
        {| p_id := default now (d_id planDetails);
           p_title := d_title planDetails;
           p_submittedBy := submitter;
           p_submittedAt := tSubmitted;
           p_status := if draft then Status.DRAFT else Status.SUBMITTED;
           p_history :=
             [ {| h_action := if draft then js "Tạo bản nháp"
                              else js "Nộp Kế hoạch bài dạy";
                  h_user := Some submitter;
                  h_timestamp := tHistory;
                  h_reason := None |} ];
           p_comments := Some [];
           p_file := {| f_name := originalname file;
                        f_url := js "/uploads/" ++ filename file;
                        f_content := None;
                        f_isExternalLink := Some false |};
           p_finalApprover := d_finalApprover planDetails;
           p_finalApprovedAt := d_finalApprovedAt planDetails;
           p_subject := d_subject planDetails;
           p_grade := d_grade planDetails;
           p_class := d_class planDetails;
           p_notes := d_notes planDetails;
           p_oneDriveFolder := d_oneDriveFolder planDetails;
           p_teamId := u_teamId submitter;
           p_schoolId := d_schoolId planDetails |} in
      (set_lessonPlans (lessonPlans db ++ [newPlan]) db, Json 201 newPlan)
    end
  end.

(** The places of a lesson plan that hold a user object, and the sharing
    in force: [sharing k slot = Some i] says that the object in that place
    of [db.lessonPlans[k]] is the very object [db.users[i]], [None] that
    it is an object of its own (as after [JSON.parse] of [db.json]). *)
Inductive UserSlot :=
  | slot_submittedBy
  | slot_history (i : nat)
  | slot_comment (i : nat)
  | slot_finalApprover.

Definition Sharing := nat -> UserSlot -> option nat.

Definition no_sharing : Sharing := fun _ _ => None.

(** What a place shows once [db.users] has been written in place: the
    element it shares, or the object of its own. *)
Definition shown (users : list User) (link : option nat) (u : User) : User :=
  match link with
  | Some i => default u (users !! i)
  | None => u
  end.

Definition shown_plan (users : list User) (link : UserSlot -> option nat)
    (p : LessonPlan) : LessonPlan :=
  {| p_id := p_id p; p_title := p_title p;
     p_submittedBy := shown users (link slot_submittedBy) (p_submittedBy p);
     p_submittedAt := p_submittedAt p; p_status := p_status p;
     p_history :=
       imap (fun i h =>
               {| h_action := h_action h;
                  h_user := shown users (link (slot_history i)) <$> h_user h;
                  h_timestamp := h_timestamp h; h_reason := h_reason h |})
            (p_history p);
     p_comments :=
       imap (fun i c =>
               {| c_id := c_id c;
                  c_user := shown users (link (slot_comment i)) (c_user c);
                  c_timestamp := c_timestamp c; c_text := c_text c |})
         <$> p_comments p;
     p_file := p_file p;
     p_finalApprover :=
       shown users (link slot_finalApprover) <$> p_finalApprover p;
     p_finalApprovedAt := p_finalApprovedAt p; p_subject := p_subject p;
     p_grade := p_grade p; p_class := p_class p; p_notes := p_notes p;
     p_oneDriveFolder := p_oneDriveFolder p; p_teamId := p_teamId p;
     p_schoolId := p_schoolId p |}.

(** [POST /api/teams/:id/assign-role].  [userId] is a number or [null];
    [userId || undefined] leaves the slot empty for [null] and for 0.
    The roles are written into the user objects in place
    ([db.users[i].role = ...]): [updatedUsers] holds those objects, so the
    response shows them as they are at the end, and so does every place
    of a lesson plan that shares one of them. *)
Definition orUndefined (userId : option Z) : option Z :=
  match userId with
  | Some n => if truthyNum n then Some n else None
  | None => None
  end.

Definition post_team_assign_role (sharing : Sharing) (db : Db) (id : Z)
    (roleType : jsstring) (userId : option Z)
    : Db * Response (Team * list User) :=
  match findIndex (fun t => t_id t = id) (teams db) with
  | None => (db, Message 404 (js "Team not found"))
  | Some (teamIndex, team) =>
    let leader := bool_decide (roleType = js "leader") in
    let userToDemoteId :=
      if leader then t_leaderId team else t_deputyLeaderId team in
    let team :=
      if leader then set_leaderId (orUndefined userId) team
      else set_deputyLeaderId (orUndefined userId) team in
    let '(users1, updated1) :=
      match userToDemoteId with
      | Some d =>
        if truthyNum d && negb (bool_decide (Some d = userId)) then
          match findIndex (fun u => u_id u = d) (users db) with
          | Some (oldLeaderIndex, u) =>
            (<[oldLeaderIndex := set_role Role.TEACHER u]> (users db),
             [oldLeaderIndex])
          | None => (users db, [])
          end
        else (users db, [])
      | None => (users db, [])
      end in
    let '(users2, updated2) :=
      match orUndefined userId with
      | Some n =>
        match findIndex (fun u => u_id u = n) users1 with
        | Some (newLeaderIndex, u) =>
          (<[newLeaderIndex :=
               set_role (if leader then Role.TEAM_LEADER
                         else Role.DEPUTY_TEAM_LEADER) u]> users1,
           updated1 ++ [newLeaderIndex])
        | None => (users1, updated1)
        end
      | None => (users1, updated1)
      end in
    ({| schools := schools db; users := users2;
        teams := <[teamIndex := team]> (teams db);
        lessonPlans :=
          imap (fun k => shown_plan users2 (sharing k)) (lessonPlans db);
        delegation := delegation db |},
     Json 200 (team, omap (fun i => users2 !! i) updated2))
  end.

(** [PUT /api/delegation]: the body replaces the delegation state. *)
Definition put_delegation (db : Db) (newDelegation : DelegationState)
    : Db * Response DelegationState :=
  (set_delegation newDelegation db, Json 200 newDelegation).

(** ** Section 5 of the client: the approval guard of [LessonPlanCard] *)

Inductive ActionType := approve | reject | cancel.

#[global] Instance ActionType_eq_dec : EqDecision ActionType.
Proof. solve_decision. Defined.

(** [arr.includes(x)] on strings. *)
Definition includes (l : list jsstring) (x : jsstring) : bool :=
  existsb (fun y => bool_decide (y = x)) l.

(** [!!delegation.teamDelegation[plan.teamId!]]; a plan without a team
    looks up a key that names no team. *)
Definition teamDelegated (delegation : DelegationState) (teamId : option Z)
    : bool :=
  match teamId with
  | Some t => default false (teamDelegation delegation !! t)
  | None => false
  end.

Definition canApproveTeam (currentUser : User) (plan : LessonPlan)
    (delegation : DelegationState) : bool :=
  (bool_decide (u_role currentUser = Role.TEAM_LEADER)
   && bool_decide (u_teamId currentUser = p_teamId plan))
  || (bool_decide (u_role currentUser = Role.DEPUTY_TEAM_LEADER)
      && bool_decide (u_teamId currentUser = p_teamId plan)
      && teamDelegated delegation (p_teamId plan)).

Definition canApprovePrincipal (currentUser : User)
    (delegation : DelegationState) : bool :=
  bool_decide (u_role currentUser = Role.PRINCIPAL)
  || (bool_decide (u_role currentUser = Role.VICE_PRINCIPAL)
      && principalToVp delegation).

(** The buttons that [renderApprovalActions] renders, each named by the
    action type it hands to [handleActionClick]; [null] is the empty list. *)
Definition renderApprovalActions (currentUser : User) (plan : LessonPlan)
    (delegation : DelegationState) : list ActionType :=
  if bool_decide (u_role currentUser = Role.TEACHER) then [] else
  let team := canApproveTeam currentUser plan delegation in
  let principal := canApprovePrincipal currentUser delegation in
  if team && bool_decide (p_status plan = Status.SUBMITTED) then
    [approve; reject]
  else if team && bool_decide (p_status plan = Status.APPROVED_BY_TL) then
    [cancel]
  else if principal && bool_decide (p_status plan = Status.APPROVED_BY_TL) then
    [approve; reject]
  else if principal && bool_decide (p_status plan = Status.APPROVED) then
    [cancel]
  else [].

(** What [handleConfirmAction] does with the reason typed in the modal:
    it raises the missing-reason notification and keeps the modal, or it
    closes the modal without a request, or it calls
    [onAction(plan.id, newStatus, reason)] and closes the modal. *)
Inductive ConfirmOutcome :=
  | NotifyMissingReason
  | CloseOnly
  | OnAction (planId : Z) (newStatus : jsstring) (reason : option jsstring).

(** [!reason?.trim()] *)
Definition reasonBlank (reason : option jsstring) : bool :=
  match reason with
  | Some r => negb (truthy (trim r))
  | None => true
  end.

Definition handleConfirmAction (actionType : ActionType) (plan : LessonPlan)
    (currentUser : User) (reason : option jsstring) : ConfirmOutcome :=
  match actionType with
  | reject =>
    if reasonBlank reason then NotifyMissingReason
    else if includes [Role.TEAM_LEADER; Role.DEPUTY_TEAM_LEADER]
                     (u_role currentUser)
    then OnAction (p_id plan) Status.REJECTED_BY_TL reason
    else if includes [Role.PRINCIPAL; Role.VICE_PRINCIPAL]
                     (u_role currentUser)
    then OnAction (p_id plan) Status.REJECTED_BY_VP reason
    else CloseOnly
  | approve =>
    if bool_decide (p_status plan = Status.SUBMITTED) then
      OnAction (p_id plan) Status.APPROVED_BY_TL reason
    else if bool_decide (p_status plan = Status.APPROVED_BY_TL) then
      OnAction (p_id plan) Status.APPROVED reason
    else CloseOnly
  | cancel =>
    if bool_decide (p_status plan = Status.APPROVED_BY_TL) then
      OnAction (p_id plan) Status.SUBMITTED reason
    else if bool_decide (p_status plan = Status.APPROVED) then
      OnAction (p_id plan) Status.APPROVED_BY_TL reason
    else CloseOnly
  end.

(** [handleLessonPlanAction], the [onAction] of the card: the request
    [PUT /lesson-plans/:id/status] with the body [{ newStatus, reason }],
    sent only when a user is logged in. *)
Definition handleLessonPlanAction (currentUser : option User) (db : Db)
    (planId : Z) (newStatus : jsstring) (reason : option jsstring)
    (tFinal tHistory : Z) : Db * option (Response LessonPlan) :=
  match currentUser with
  | None => (db, None)
  | Some _ =>
    let '(db, response) :=
      put_lesson_plan_status db planId newStatus reason tFinal tHistory in
    (db, Some response)
  end.

(** ** The visibility filter of [Dashboard] and the tenant filter of [App] *)

Definition baseVisiblePlans (currentUser : User)
    (lessonPlans : list LessonPlan) : list LessonPlan :=
  if bool_decide (u_role currentUser = Role.TEACHER) then
    filter (fun p => u_id (p_submittedBy p) = u_id currentUser) lessonPlans
  else if bool_decide (u_role currentUser = Role.DEPUTY_TEAM_LEADER) then
    filter (fun p => p_teamId p = u_teamId currentUser) lessonPlans
  else if bool_decide (u_role currentUser = Role.TEAM_LEADER) then
    filter (fun p => p_teamId p = u_teamId currentUser) lessonPlans
  else if bool_decide (u_role currentUser = Role.VICE_PRINCIPAL) then
    filter (fun p => includes [Status.APPROVED_BY_TL; Status.REJECTED_BY_VP;
                               Status.APPROVED; Status.ISSUED]
                              (p_status p) = true) lessonPlans
  else if bool_decide (u_role currentUser = Role.PRINCIPAL) then lessonPlans
  else [].

(** [schoolData.lessonPlans]: the plans of the selected school, which is
    what the dashboard of every user but the global admin receives. *)
Definition schoolLessonPlans (selectedSchool : option School)
    (lessonPlans : list LessonPlan) : list LessonPlan :=
  match selectedSchool with
  | None => []
  | Some school => filter (fun p => p_schoolId p = Some (s_id school)) lessonPlans
  end.

Definition dashboardLessonPlans (currentUser : User)
    (selectedSchool : option School) (lessonPlans : list LessonPlan)
    : list LessonPlan :=
  if bool_decide (u_role currentUser = Role.ADMIN) then lessonPlans
  else schoolLessonPlans selectedSchool lessonPlans.

(** [handleDelegationChange] of [AdminModal]: the toggled delegation state
    handed to [onSetDelegation]. *)
Inductive DelegationKind := kind_vp | kind_team.

Definition handleDelegationChange (delegation : DelegationState)
    (type : DelegationKind) (teamId : option Z) : DelegationState :=
  match type with
  | kind_vp => {| principalToVp := negb (principalToVp delegation);
             teamDelegation := teamDelegation delegation |}
  | kind_team =>
    match teamId with
    | Some t =>
      if truthyNum t then
        {| principalToVp := principalToVp delegation;
           teamDelegation :=
             <[t := negb (default false (teamDelegation delegation !! t))]>
               (teamDelegation delegation) |}
      else delegation
    | None => delegation
    end
  end.

(** ** Further endpoints of the server *)

(** [Object.assign(plan, planDetails)]: every property the details carry
    replaces the plan's. *)
Definition assignDetails (d : PlanDetails) (p : LessonPlan) : LessonPlan :=
  let keep {A} (new old : option A) : option A :=
    match new with Some v => Some v | None => old end in
  {| p_id := default (p_id p) (d_id d);
     p_title := d_title d;
     p_submittedBy := default (p_submittedBy p) (d_submittedBy d);
     p_submittedAt := default (p_submittedAt p) (d_submittedAt d);
     p_status := default (p_status p) (d_status d);
     p_history := default (p_history p) (d_history d);
     p_comments := keep (d_comments d) (p_comments p);
     p_file := default (p_file p) (d_file d);
     p_finalApprover := keep (d_finalApprover d) (p_finalApprover p);
     p_finalApprovedAt := keep (d_finalApprovedAt d) (p_finalApprovedAt p);
     p_subject := keep (d_subject d) (p_subject p);
     p_grade := keep (d_grade d) (p_grade p);
     p_class := keep (d_class d) (p_class p);
     p_notes := keep (d_notes d) (p_notes p);
     p_oneDriveFolder := keep (d_oneDriveFolder d) (p_oneDriveFolder p);
     p_teamId := keep (d_teamId d) (p_teamId p);
     p_schoolId := keep (d_schoolId d) (p_schoolId p) |}.

Definition set_file (f : FileRef) (p : LessonPlan) : LessonPlan :=
  {| p_id := p_id p; p_title := p_title p; p_submittedBy := p_submittedBy p;
     p_submittedAt := p_submittedAt p; p_status := p_status p;
     p_history := p_history p; p_comments := p_comments p;
     p_file := f; p_finalApprover := p_finalApprover p;
     p_finalApprovedAt := p_finalApprovedAt p; p_subject := p_subject p;
     p_grade := p_grade p; p_class := p_class p; p_notes := p_notes p;
     p_oneDriveFolder := p_oneDriveFolder p; p_teamId := p_teamId p;
     p_schoolId := p_schoolId p |}.

Definition set_submittedAt (t : Z) (p : LessonPlan) : LessonPlan :=
  {| p_id := p_id p; p_title := p_title p; p_submittedBy := p_submittedBy p;
     p_submittedAt := t; p_status := p_status p;
     p_history := p_history p; p_comments := p_comments p;
     p_file := p_file p; p_finalApprover := p_finalApprover p;
     p_finalApprovedAt := p_finalApprovedAt p; p_subject := p_subject p;
     p_grade := p_grade p; p_class := p_class p; p_notes := p_notes p;
     p_oneDriveFolder := p_oneDriveFolder p; p_teamId := p_teamId p;
     p_schoolId := p_schoolId p |}.

(** [PUT /api/lesson-plans/:id].  The updater is looked up from the
    submitter the plan has before the details are merged; the old status
    is read after the merge. *)
Definition put_lesson_plan (db : Db) (id : Z) (planDetails : PlanDetails)
    (isDraft : jsstring) (file : option UploadedFile)
    (tSubmitted tHistory : Z) : Db * Response LessonPlan :=
  match findIndex (fun p => p_id p = id) (lessonPlans db) with
  | None => (db, Message 404 (js "Lesson plan not found"))
  | Some (planIndex, plan) =>
    match find (fun u => u_id u = u_id (p_submittedBy plan)) (users db) with
    | None => (db, Message 404 (js "Updater user not found"))
    | Some updater =>
      let plan := assignDetails planDetails plan in
      let plan :=
        match file with
        | Some f =>
          set_file {| f_name := originalname f;
                      f_url := js "/uploads/" ++ filename f;
                      f_content := None; f_isExternalLink := None |} plan
        | None => plan
        end in
      let oldStatus := p_status plan in
      let newStatus :=
        if bool_decide (isDraft = js "true") then Status.DRAFT
        else Status.SUBMITTED in
      let plan :=
        if negb (bool_decide (oldStatus = newStatus))
           || bool_decide (is_Some file)
        then
          let action :=
            if bool_decide (oldStatus = Status.DRAFT)
            then js "Nộp Kế hoạch bài dạy"
            else js "Nộp lại Kế hoạch bài dạy" in
          push_history {| h_action := action; h_user := Some updater;
                          h_timestamp := tHistory; h_reason := None |}
            (set_submittedAt tSubmitted (set_status newStatus plan))
        else plan in
      (set_lessonPlans (<[planIndex := plan]> (lessonPlans db)) db,
       Json 200 plan)
    end
  end.

(** [DELETE /api/schools/:id]: the school goes with its teams, users and
    lesson plans; the answer is 204 without a body. *)
Definition delete_school (db : Db) (id : jsstring) : Db * Z :=
  ({| schools := filter (fun s => s_id s <> id) (schools db);
      users := filter (fun u => u_schoolId u <> Some id) (users db);
      teams := filter (fun t => t_schoolId t <> Some id) (teams db);
      lessonPlans :=
        filter (fun p => p_schoolId p <> Some id) (lessonPlans db);
      delegation := delegation db |}, 204).

(** ** Further functions of the client *)

(** The buttons of [renderTeacherActions], each named by its handler:
    [onEdit(plan)] or [onAction(plan.id, newStatus)]. *)
Inductive TeacherAction :=
  | OnEdit
  | OnActionStatus (newStatus : jsstring).

Definition renderTeacherActions (currentUser : User) (plan : LessonPlan)
    : list TeacherAction :=
  if negb (bool_decide (u_role currentUser = Role.TEACHER))
     || negb (bool_decide (u_id currentUser = u_id (p_submittedBy plan)))
  then []
  else if bool_decide (p_status plan = Status.DRAFT) then
    [OnEdit; OnActionStatus Status.SUBMITTED]
  else if bool_decide (p_status plan = Status.REJECTED_BY_TL)
          || bool_decide (p_status plan = Status.REJECTED_BY_VP) then
    [OnEdit]
  else if bool_decide (p_status plan = Status.SUBMITTED)
          || bool_decide (p_status plan = Status.APPROVED_BY_TL) then
    [OnActionStatus Status.DRAFT]
  else [].



(** The counters of [renderStats] in [Dashboard]. *)
Record Stats := {
  waitingForMe : nat;
  waitingForPrincipal : nat;
  totalRejected : nat;
  totalIssued : nat
}.

Definition countStatus (statuses : list jsstring) (plans : list LessonPlan)
    : nat :=
  length (filter (fun p => includes statuses (p_status p) = true) plans).

(** [delegation.teamDelegation[currentUser.teamId || -1]] *)
Definition ownTeamDelegated (delegation : DelegationState)
    (currentUser : User) : bool :=
  let key := match u_teamId currentUser with
             | Some t => if truthyNum t then t else -1
             | None => -1
             end in
  default false (teamDelegation delegation !! key).

Definition renderStats (currentUser : User) (lessonPlans : list LessonPlan)
    (delegation : DelegationState) : Stats :=
  let role := u_role currentUser in
  let plans :=
    if bool_decide (role = Role.PRINCIPAL) then lessonPlans
    else baseVisiblePlans currentUser lessonPlans in
  let waitingForMe :=
    if bool_decide (role = Role.TEAM_LEADER)
       || bool_decide (role = Role.DEPUTY_TEAM_LEADER) then
      if bool_decide (role = Role.TEAM_LEADER)
         || (bool_decide (role = Role.DEPUTY_TEAM_LEADER)
             && ownTeamDelegated delegation currentUser)
      then countStatus [Status.SUBMITTED] plans else 0%nat
    else if bool_decide (role = Role.PRINCIPAL)
            || bool_decide (role = Role.VICE_PRINCIPAL) then
      if bool_decide (role = Role.PRINCIPAL)
         || (bool_decide (role = Role.VICE_PRINCIPAL)
             && principalToVp delegation)
      then countStatus [Status.APPROVED_BY_TL] lessonPlans else 0%nat
    else 0%nat in
  if negb (bool_decide (role = Role.TEACHER)) then
    {| waitingForMe := waitingForMe;
       waitingForPrincipal := countStatus [Status.APPROVED_BY_TL] lessonPlans;
       totalRejected :=
         countStatus [Status.REJECTED_BY_TL; Status.REJECTED_BY_VP] plans;
       totalIssued := countStatus [Status.ISSUED] plans |}
  else
    {| waitingForMe := waitingForMe; waitingForPrincipal := 0;
       totalRejected := 0; totalIssued := 0 |}.

(** [handleSaveLessonPlan] of [App] for a new plan: the details typed in
    the upload modal, to which the id of the selected school is added,
    are posted with the file; nothing is sent without a logged-in user or
    a selected school. *)
Record UploadDetails := {
  ud_title : jsstring;
  ud_subject : jsstring;
  ud_grade : jsstring;
  ud_class : jsstring;
  ud_notes : option jsstring;
  ud_oneDriveFolder : option OneDriveFolder
}.

Definition fullDetails (details : UploadDetails) (selectedSchool : School)
    : PlanDetails :=
  {| d_id := None; d_title := ud_title details; d_submittedBy := None;
     d_submittedAt := None; d_status := None; d_history := None;
     d_comments := None; d_file := None; d_finalApprover := None;
     d_finalApprovedAt := None; d_subject := Some (ud_subject details);
     d_grade := Some (ud_grade details); d_class := Some (ud_class details);
     d_notes := ud_notes details;
     d_oneDriveFolder := ud_oneDriveFolder details; d_teamId := None;
     d_schoolId := Some (s_id selectedSchool) |}.

Definition handleSaveLessonPlan (currentUser : option User)
    (selectedSchool : option School) (editingLessonPlan : option LessonPlan)
    (details : UploadDetails) (file : option UploadedFile) (isDraft : bool)
    (db : Db) (now tSubmitted tHistory : Z)
    : Db * option (Response LessonPlan) :=
  match currentUser, selectedSchool with
  | Some _, Some school =>
    let isDraft := if isDraft then js "true" else js "false" in
    let '(db, response) :=
      match editingLessonPlan with
      | Some editing =>
        put_lesson_plan db (p_id editing) (fullDetails details school)
                        isDraft file tSubmitted tHistory
      | None =>
        post_lesson_plan db (fullDetails details school) isDraft file now
                         tSubmitted tHistory
      end in
    (db, Some response)
  | _, _ => (db, None)
  end.

(** The fallback of [handleAssignTeamRole] in [App], used when the request
    fails: the same assignment made on the client's copies of the teams
    and the users. *)
Definition handleAssignTeamRole_fallback (teams : list Team)
    (users : list User) (teamId : Z) (roleType : jsstring)
    (newUserId : option Z) : list Team * list User :=
  let leader := bool_decide (roleType = js "leader") in
  let userToDemoteId :=
    match find (fun t => t_id t = teamId) teams with
    | Some oldTeamState =>
      if leader then t_leaderId oldTeamState
      else t_deputyLeaderId oldTeamState
    | None => None
    end in
  (List.map (fun t =>
          if bool_decide (t_id t = teamId) then
            if leader then set_leaderId (orUndefined newUserId) t
            else set_deputyLeaderId (orUndefined newUserId) t
          else t) teams,
   List.map (fun u =>
          if bool_decide (Some (u_id u) = userToDemoteId)
             && negb (bool_decide (Some (u_id u) = newUserId))
          then set_role Role.TEACHER u
          else if bool_decide (Some (u_id u) = newUserId)
          then set_role (if leader then Role.TEAM_LEADER
                         else Role.DEPUTY_TEAM_LEADER) u
          else u) users).

(** The four steps of [ApprovalStepper], in order: submission, team
    leader, vice principal, completion. *)
Module StepStatus.
Inductive t := completed | current | upcoming | rejected.
End StepStatus.

Definition ApprovalStepper (plan : LessonPlan) : list StepStatus.t :=
  let status := p_status plan in
  if bool_decide (status = Status.DRAFT) then
    [StepStatus.upcoming; StepStatus.upcoming; StepStatus.upcoming;
     StepStatus.upcoming]
  else if bool_decide (status = Status.SUBMITTED) then
    [StepStatus.completed; StepStatus.current; StepStatus.upcoming;
     StepStatus.upcoming]
  else if bool_decide (status = Status.REJECTED_BY_TL) then
    [StepStatus.completed; StepStatus.rejected; StepStatus.upcoming;
     StepStatus.upcoming]
  else if bool_decide (status = Status.APPROVED_BY_TL) then
    [StepStatus.completed; StepStatus.completed; StepStatus.current;
     StepStatus.upcoming]
  else if bool_decide (status = Status.REJECTED_BY_VP) then
    [StepStatus.completed; StepStatus.completed; StepStatus.rejected;
     StepStatus.upcoming]
  else if bool_decide (status = Status.APPROVED) then
    [StepStatus.completed; StepStatus.completed; StepStatus.completed;
     StepStatus.current]
  else if bool_decide (status = Status.ISSUED) then
    [StepStatus.completed; StepStatus.completed; StepStatus.completed;
     StepStatus.completed]
  else
    [StepStatus.upcoming; StepStatus.upcoming; StepStatus.upcoming;
     StepStatus.upcoming].

(** The table of [TeamOverviewModal]: one row for each teacher of the
    current user's team, sorted by the number of plans submitted, largest
    first.  [Array.prototype.sort] is stable, so rows with the same number
    keep the order of the users. *)
Definition teamMembers (currentUser : User) (users : list User) : list User :=
  filter (fun u => u_teamId u = u_teamId currentUser
                   /\ u_role u = Role.TEACHER) users.

Definition teamPlans (currentUser : User) (lessonPlans : list LessonPlan)
    : list LessonPlan :=
  filter (fun p => p_teamId p = u_teamId currentUser) lessonPlans.

Record TeacherRow := {
  teacherName : jsstring;
  submitted : nat;
  approved : nat;
  rejected : nat;
  pending : nat
}.

Definition teacherRow (teamPlans : list LessonPlan) (teacher : User)
    : TeacherRow :=
  {| teacherName := u_name teacher;
     submitted :=
       length (filter (fun p => u_id (p_submittedBy p) = u_id teacher)
                      teamPlans);
     approved :=
       length (filter (fun p => u_id (p_submittedBy p) = u_id teacher
                                /\ includes [Status.APPROVED; Status.ISSUED;
                                             Status.APPROVED_BY_TL]
                                            (p_status p) = true)
                      teamPlans);
     rejected :=
       length (filter (fun p => u_id (p_submittedBy p) = u_id teacher
                                /\ includes [Status.REJECTED_BY_TL;
                                             Status.REJECTED_BY_VP]
                                            (p_status p) = true)
                      teamPlans);
     pending :=
       length (filter (fun p => u_id (p_submittedBy p) = u_id teacher
                                /\ p_status p = Status.SUBMITTED)
                      teamPlans) |}.

(** [rows.sort((a, b) => b.submitted - a.submitted)] as a stable insertion
    sort: a row moves behind the rows that have strictly more plans. *)
Fixpoint insertRow (row : TeacherRow) (sorted : list TeacherRow)
    : list TeacherRow :=
  match sorted with
  | [] => [row]
  | r :: rest =>
    if decide (submitted row < submitted r)%nat then r :: insertRow row rest
    else row :: r :: rest
  end.

Definition sortRows (rows : list TeacherRow) : list TeacherRow :=
  foldr insertRow [] rows.

Definition teacherStats (currentUser : User) (users : list User)
    (lessonPlans : list LessonPlan) : list TeacherRow :=
  sortRows (List.map (teacherRow (teamPlans currentUser lessonPlans))
                     (teamMembers currentUser users)).

(** Largest number of submitted plans first. *)
Inductive descending : list TeacherRow -> Prop :=
  | descending_nil : descending []
  | descending_cons row rows :
      Forall (fun r => (submitted r <= submitted row)%nat) rows ->
      descending rows -> descending (row :: rows).

(** ** The seed data of the server ([MOCK_DATA]) *)

Definition mkUser (id : Z) (name role email : string)
    (password o365Email : option string) (teamId : option Z)
    (schoolId : option string) : User :=
  {| u_id := id; u_name := js name; u_role := js role; u_email := js email;
     u_password := js <$> password; u_teamId := teamId;
     u_o365Email := js <$> o365Email; u_oneDriveLink := None;
     u_zaloPhoneNumber := None; u_schoolId := js <$> schoolId |}.

Definition MOCK_USERS_DATA : list User := [
  mkUser 1 "Quản trị viên Toàn Cầu" "Quản trị viên toàn cầu" "admin@gmail.com"
         (Some "Luuktm09@21") None None None;
  mkUser 2 "Nguyễn Văn An" "Hiệu trưởng" "hieutruong@qni.edu.vn"
         (Some "123") None None (Some "THCS-BINHSON");
  mkUser 3 "Trần Thị Bích" "Phó Hiệu trưởng" "phohieutruong@qni.edu.vn"
         None (Some "bicht@qni.edu.vn") None (Some "THCS-BINHSON");
  mkUser 4 "Lê Minh Cường" "Tổ trưởng Chuyên môn" "cuonglm@qni.edu.vn"
         None (Some "cuonglm@qni.edu.vn") (Some 1) (Some "THCS-BINHSON");
  mkUser 5 "Phạm Thị Dung" "Tổ phó Chuyên môn" "dungpt@qni.edu.vn"
         None (Some "dungpt@qni.edu.vn") (Some 1) (Some "THCS-BINHSON");
  mkUser 6 "Hoàng Văn Em" "Giáo viên" "emhv@qni.edu.vn"
         None (Some "emhv@qni.edu.vn") (Some 1) (Some "THCS-BINHSON");
  mkUser 7 "Vũ Thị Gấm" "Giáo viên" "gamvt@qni.edu.vn"
         None (Some "gamvt@qni.edu.vn") (Some 1) (Some "THCS-BINHSON");
  mkUser 8 "Đỗ Hùng Kiên" "Tổ trưởng Chuyên môn" "kiendh@qni.edu.vn"
         None (Some "kiendh@qni.edu.vn") (Some 2) (Some "THCS-BINHSON");
  mkUser 9 "Nguyễn Thị Lan" "Giáo viên" "lann@qni.edu.vn"
         None (Some "lann@qni.edu.vn") (Some 2) (Some "THCS-BINHSON");
  mkUser 10 "Phan Huy Ích" "Hiệu trưởng" "hieutruong.st@qni.edu.vn"
         (Some "123") None None (Some "THPT-SONTINH");
  mkUser 11 "Trần Văn Mười" "Tổ trưởng Chuyên môn" "muoitv.st@qni.edu.vn"
         None None (Some 3) (Some "THPT-SONTINH");
  mkUser 12 "Lý Thị Na" "Giáo viên" "nalt.st@qni.edu.vn"
         None None (Some 3) (Some "THPT-SONTINH") ].

(** [MOCK_USERS_DATA[i]] *)
Definition mockUser (i : nat) : User :=
  nth i MOCK_USERS_DATA (mkUser 0 "" "" "" None None None None).

Definition day : Z := 24 * 60 * 60 * 1000.

Definition mkEntry (action : string) (user : User) (timestamp : Z)
    (reason : option string) : HistoryEntry :=
  {| h_action := js action; h_user := Some user; h_timestamp := timestamp;
     h_reason := js <$> reason |}.

Definition mkPlan (id : Z) (title : string) (submittedBy : User)
    (submittedAt : Z) (status : jsstring) (teamId : Z)
    (subject grade class fileName : string)
    (finalApprover : option User) (finalApprovedAt : option Z)
    (history : list HistoryEntry) (comments : list CommentEntry)
    (schoolId : string) : LessonPlan :=
  {| p_id := id; p_title := js title; p_submittedBy := submittedBy;
     p_submittedAt := submittedAt; p_status := status; p_history := history;
     p_comments := Some comments;
     p_file := {| f_name := js fileName; f_url := js "/uploads/mock-file.pdf";
                  f_content := None; f_isExternalLink := None |};
     p_finalApprover := finalApprover; p_finalApprovedAt := finalApprovedAt;
     p_subject := Some (js subject); p_grade := Some (js grade);
     p_class := Some (js class); p_notes := None; p_oneDriveFolder := None;
     p_teamId := Some teamId; p_schoolId := Some (js schoolId) |}.

Definition MOCK_LESSON_PLANS (now : Z) : list LessonPlan := [
  mkPlan 1 "Bài dạy: Phản ứng Oxi hóa - Khử" (mockUser 5) (now - 1 * day)
    Status.SUBMITTED 1 "Khoa học tự nhiên" "Khối 8" "8A" "KHTN8_Oxihoa.pdf"
    None None
    [mkEntry "Nộp Kế hoạch bài dạy" (mockUser 5) (now - 1 * day) None]
    [] "THCS-BINHSON";
  mkPlan 2 "Bài dạy: Truyện Kiều - Nguyễn Du" (mockUser 8) (now - 5 * day)
    Status.REJECTED_BY_TL 2 "Ngữ văn" "Khối 9" "9A" "NguVan9_TruyenKieu.pdf"
    None None
    [mkEntry "Nộp Kế hoạch bài dạy" (mockUser 8) (now - 5 * day) None;
     mkEntry "Tổ trưởng từ chối" (mockUser 7) (now - 4 * day)
             (Some "Cần bổ sung phần câu hỏi thảo luận.")]
    [ {| c_id := 1; c_user := mockUser 7; c_timestamp := now - 4 * day;
         c_text := js "Em xem lại mục tiêu bài học và bổ sung thêm các câu hỏi thảo luận nhóm để tăng tương tác nhé." |};
      {| c_id := 2; c_user := mockUser 8; c_timestamp := now - 3 * day;
         c_text := js "Dạ, em đã nhận được góp ý ạ. Em sẽ chỉnh sửa ngay." |} ]
    "THCS-BINHSON";
  mkPlan 3 "Bài dạy: Thì Hiện tại Hoàn thành" (mockUser 6) (now - 3 * day)
    Status.APPROVED_BY_TL 1 "Ngoại ngữ 1 (Tiếng Anh)" "Khối 7" "7B"
    "English7_PresentPerfect.pdf" None None
    [mkEntry "Nộp Kế hoạch bài dạy" (mockUser 6) (now - 3 * day) None;
     mkEntry "Tổ trưởng đã duyệt" (mockUser 3) (now - 2 * day) None]
    [] "THCS-BINHSON";
  mkPlan 4 "Bài dạy: Lịch sử Việt Nam giai đoạn 1945-1954" (mockUser 8)
    (now - 10 * day) Status.ISSUED 2 "Lịch sử và Địa lí" "Khối 9" "9B"
    "LichSu9_1945.pdf" (Some (mockUser 1)) (Some (now - 6 * day))
    [mkEntry "Nộp Kế hoạch bài dạy" (mockUser 8) (now - 10 * day) None;
     mkEntry "Tổ trưởng đã duyệt" (mockUser 7) (now - 9 * day) None;
     mkEntry "Hiệu trưởng đã duyệt" (mockUser 1) (now - 7 * day) None;
     mkEntry "Đã ban hành" (mockUser 1) (now - 6 * day) None]
    [] "THCS-BINHSON";
  mkPlan 5 "Soạn bài: Lập trình Scratch cơ bản" (mockUser 6) now
    Status.DRAFT 1 "Tin học" "Khối 6" "6A" "TinHoc6_Scratch.pdf" None None
    [mkEntry "Tạo bản nháp" (mockUser 6) now None]
    [] "THCS-BINHSON";
  mkPlan 6 "Bài dạy: Giới hạn hàm số" (mockUser 11) (now - 2 * day)
    Status.SUBMITTED 3 "Toán" "Khối 11" "11A1" "Toan11_GioiHan.pdf" None None
    [mkEntry "Nộp Kế hoạch bài dạy" (mockUser 11) (now - 2 * day) None]
    [] "THPT-SONTINH" ].

Definition MOCK_DELEGATION : DelegationState :=
  {| principalToVp := false;
     teamDelegation := <[1 := false]> (<[2 := false]> (<[3 := false]> ∅)) |}.

Definition MOCK_DATA (now : Z) : Db :=
  {| schools :=
       [ {| s_id := js "THCS-BINHSON"; s_name := js "Trường THCS Bình Sơn" |};
         {| s_id := js "THPT-SONTINH"; s_name := js "Trường THPT Sơn Tịnh" |} ];
     users := MOCK_USERS_DATA;
     teams :=
       [ {| t_id := 1; t_name := js "Tổ Khoa học Tự nhiên";
            t_leaderId := Some 4; t_deputyLeaderId := Some 5;
            t_schoolId := Some (js "THCS-BINHSON") |};
         {| t_id := 2; t_name := js "Tổ Khoa học Xã hội";
            t_leaderId := Some 8; t_deputyLeaderId := None;
            t_schoolId := Some (js "THCS-BINHSON") |};
         {| t_id := 3; t_name := js "Tổ Toán - Tin";
            t_leaderId := Some 11; t_deputyLeaderId := None;
            t_schoolId := Some (js "THPT-SONTINH") |} ];
     lessonPlans := MOCK_LESSON_PLANS now;
     delegation := MOCK_DELEGATION |}.

(** The sharing of [MOCK_DATA], which the server keeps in memory when it
    starts without [db.json]: every user inside a seed plan is written
    [MOCK_USERS_DATA[i]], the object that [db.users[i]] is. *)
Definition MOCK_SHARING : Sharing := fun k slot =>
  match k, slot with
  | 0%nat, slot_submittedBy => Some 5%nat
  | 0%nat, slot_history 0 => Some 5%nat
  | 1%nat, slot_submittedBy => Some 8%nat
  | 1%nat, slot_history 0 => Some 8%nat
  | 1%nat, slot_history 1 => Some 7%nat
  | 1%nat, slot_comment 0 => Some 7%nat
  | 1%nat, slot_comment 1 => Some 8%nat
  | 2%nat, slot_submittedBy => Some 6%nat
  | 2%nat, slot_history 0 => Some 6%nat
  | 2%nat, slot_history 1 => Some 3%nat
  | 3%nat, slot_submittedBy => Some 8%nat
  | 3%nat, slot_history 0 => Some 8%nat
  | 3%nat, slot_history 1 => Some 7%nat
  | 3%nat, slot_history 2 => Some 1%nat
  | 3%nat, slot_history 3 => Some 1%nat
  | 3%nat, slot_finalApprover => Some 1%nat
  | 4%nat, slot_submittedBy => Some 6%nat
  | 4%nat, slot_history 0 => Some 6%nat
  | 5%nat, slot_submittedBy => Some 11%nat
  | 5%nat, slot_history 0 => Some 11%nat
  | _, _ => None
  end.

(** ** The specification's vocabulary

    The transition table of the approval state machine, by transition
    name.  A request to the server names a transition by its target
    status, and the table has at most one entry per pair of statuses. *)

Inductive Transition :=
  | Submit | TeamApprove | TeamReject | Recall | TeamCancel
  | InstitutionApprove | InstitutionReject | InstitutionCancel
  | ReviseAndResubmit.

Definition transitionTable : list (jsstring * Transition * jsstring) := [
  (Status.DRAFT, Submit, Status.SUBMITTED);
  (Status.SUBMITTED, TeamApprove, Status.APPROVED_BY_TL);
  (Status.SUBMITTED, TeamReject, Status.REJECTED_BY_TL);
  (Status.SUBMITTED, Recall, Status.DRAFT);
  (Status.APPROVED_BY_TL, TeamCancel, Status.SUBMITTED);
  (Status.APPROVED_BY_TL, Recall, Status.DRAFT);
  (Status.APPROVED_BY_TL, InstitutionApprove, Status.APPROVED);
  (Status.APPROVED_BY_TL, InstitutionReject, Status.REJECTED_BY_VP);
  (Status.APPROVED, InstitutionCancel, Status.APPROVED_BY_TL);
  (Status.REJECTED_BY_TL, ReviseAndResubmit, Status.SUBMITTED);
  (Status.REJECTED_BY_VP, ReviseAndResubmit, Status.SUBMITTED) ].

Definition tableAllows (current requested : jsstring) : bool :=
  existsb (fun '(from, _, to) =>
             bool_decide (from = current) && bool_decide (to = requested))
          transitionTable.

(** The rule of the specification for the team-tier transitions. *)
Definition teamTierRule (actor : User) (document : LessonPlan)
    (delegation : DelegationState) : Prop :=
  (u_role actor = Role.TEAM_LEADER /\ u_teamId actor = p_teamId document)
  \/ (u_role actor = Role.DEPUTY_TEAM_LEADER
      /\ u_teamId actor = p_teamId document
      /\ exists t, p_teamId document = Some t
                   /\ teamDelegation delegation !! t = Some true).

(** A user holds both slots of a team. *)
Definition holdsBoth (userId : Z) (t : Team) : Prop :=
  t_leaderId t = Some userId /\ t_deputyLeaderId t = Some userId.



Definition set_d_teamId (t : option Z) (d : PlanDetails) : PlanDetails :=
  {| d_id := d_id d; d_title := d_title d; d_submittedBy := d_submittedBy d;
     d_submittedAt := d_submittedAt d; d_status := d_status d;
     d_history := d_history d; d_comments := d_comments d;
     d_file := d_file d; d_finalApprover := d_finalApprover d;
     d_finalApprovedAt := d_finalApprovedAt d; d_subject := d_subject d;
     d_grade := d_grade d; d_class := d_class d; d_notes := d_notes d;
     d_oneDriveFolder := d_oneDriveFolder d; d_teamId := t;
     d_schoolId := d_schoolId d |}.

(** * Properties *)

(** ** String constants *)

Lemma js_neq (a b : jsstring) : bool_decide (a = b) = false -> a <> b.
Proof. intros H E. rewrite bool_decide_eq_true_2 in H; [discriminate | exact E]. Qed.

Ltac js_distinct := apply js_neq; vm_compute; reflexivity.

(** The role and status constants are compared by evaluation only. *)
#[global] Opaque Role.ADMIN Role.TEACHER Role.DEPUTY_TEAM_LEADER
  Role.TEAM_LEADER Role.VICE_PRINCIPAL Role.PRINCIPAL Status.DRAFT
  Status.SUBMITTED Status.REJECTED_BY_TL Status.APPROVED_BY_TL
  Status.APPROVED Status.REJECTED_BY_VP Status.ISSUED.

(** Decide the tests [x === CONSTANT] of a goal once both sides are
    constants. *)
Ltac js_tests :=
  repeat match goal with
  | |- context [bool_decide (?a = ?b)] =>
      first [ constr_eq a b;
              rewrite (bool_decide_eq_true_2 (a = b)) by reflexivity
            | rewrite (bool_decide_eq_false_2 (a = b)) by js_distinct ]
  end.

(** ** Lookups in the database *)

Lemma findIndex_lookup {A} (P : A -> Prop) `{forall x, Decision (P x)}
    (l : list A) (i : nat) (x : A) :
  findIndex P l = Some (i, x) -> l !! i = Some x /\ P x.
Proof.
  unfold findIndex. intros Hf. apply list_find_Some in Hf.
  destruct Hf as (Hl & HP & _). split; assumption.
Qed.

(** Replacing the element found by one that still satisfies the test
    leaves it the element found. *)
Lemma findIndex_insert_found {A} (P : A -> Prop) `{forall x, Decision (P x)}
    (l : list A) (i : nat) (x y : A) :
  findIndex P l = Some (i, x) -> P y ->
  findIndex P (<[i := y]> l) = Some (i, y).
Proof.
  unfold findIndex. intros Hf Hy. apply list_find_Some in Hf.
  destruct Hf as (Hl & HP & Hmin). apply list_find_Some.
  split; [| split; [exact Hy |]].
  - apply list_lookup_insert_eq. apply lookup_lt_Some in Hl. exact Hl.
  - intros j z Hj Hlt. rewrite list_lookup_insert_ne in Hj by lia.
    exact (Hmin j z Hj Hlt).
Qed.

Lemma refind_plan (plans : list LessonPlan) (id : Z) (planIndex : nat)
    (plan plan' : LessonPlan) :
  findIndex (fun p => p_id p = id) plans = Some (planIndex, plan) ->
  p_id plan' = p_id plan ->
  findIndex (fun p => p_id p = id) (<[planIndex := plan']> plans)
  = Some (planIndex, plan').
Proof.
  intros Hfind Hid.
  apply (findIndex_insert_found _ _ _ plan); [exact Hfind |].
  rewrite Hid. apply (findIndex_lookup _ _ _ _ Hfind).
Qed.

Lemma findIndex_find {A} (P : A -> Prop) `{forall x, Decision (P x)}
    (l : list A) (i : nat) (x : A) :
  findIndex P l = Some (i, x) -> find P l = Some x.
Proof. unfold findIndex, find. intros ->. reflexivity. Qed.

Lemma find_Some_holds {A} (P : A -> Prop) `{forall x, Decision (P x)}
    (l : list A) (x : A) :
  find P l = Some x -> P x.
Proof.
  unfold find. destruct (list_find P l) as [[i y] |] eqn:E;
    [| discriminate].
  simpl. intros [= <-]. apply list_find_Some in E. apply E.
Qed.

(** ** The approval guard *)



Lemma teamDelegated_true delegation teamId :
  teamDelegated delegation teamId = true <->
  exists t, teamId = Some t /\ teamDelegation delegation !! t = Some true.
Proof.
  unfold teamDelegated. destruct teamId as [t|].
  - destruct (teamDelegation delegation !! t) as [[|]|] eqn:E; simpl;
      split; try discriminate; eauto.
    + intros (t' & [= <-] & H). congruence.
    + intros (t' & [= <-] & H). congruence.
  - split; [discriminate | intros (t & [=] & _)].
Qed.

Lemma canApproveTeam_rule actor document delegation :
  canApproveTeam actor document delegation = true <->
  teamTierRule actor document delegation.
Proof.
  unfold canApproveTeam, teamTierRule.
  rewrite Bool.orb_true_iff, !Bool.andb_true_iff, !bool_decide_eq_true,
    teamDelegated_true.
  split.
  - intros [[Hr Ht] | [[Hr Ht] Hd]]; [left | right]; auto.
  - intros [[Hr Ht] | (Hr & Ht & Hd)]; [left | right]; auto.
Qed.

Lemma canApproveTeam_TEACHER actor document delegation :
  u_role actor = Role.TEACHER ->
  canApproveTeam actor document delegation = false.
Proof.
  intros H. unfold canApproveTeam. rewrite H. js_tests. reflexivity.
Qed.

Lemma canApproveTeam_not_principal actor document delegation :
  canApproveTeam actor document delegation = true ->
  canApprovePrincipal actor delegation = false.
Proof.
  rewrite canApproveTeam_rule. unfold canApprovePrincipal.
  intros [[H _] | [H _]]; rewrite H; js_tests; reflexivity.
Qed.

(** On a submitted plan the approve and reject buttons are the team tier's
    and are rendered exactly when [canApproveTeam] holds. *)
Lemma render_SUBMITTED actor document delegation :
  p_status document = Status.SUBMITTED ->
  renderApprovalActions actor document delegation =
  if canApproveTeam actor document delegation then [approve; reject] else [].
Proof.
  intros Hs. unfold renderApprovalActions. rewrite Hs.
  case_bool_decide as Hr.
  - rewrite canApproveTeam_TEACHER by exact Hr. reflexivity.
  - js_tests.
    destruct (canApproveTeam actor document delegation);
      destruct (canApprovePrincipal actor delegation); reflexivity.
Qed.

(** On a plan approved by the team the cancel button is the team tier's
    and is rendered exactly when [canApproveTeam] holds. *)
Lemma render_APPROVED_BY_TL actor document delegation :
  p_status document = Status.APPROVED_BY_TL ->
  renderApprovalActions actor document delegation =
  if canApproveTeam actor document delegation then [cancel]
  else if canApprovePrincipal actor delegation then [approve; reject]
  else [].
Proof.
  intros Hs. unfold renderApprovalActions. rewrite Hs.
  case_bool_decide as Hr.
  - rewrite canApproveTeam_TEACHER by exact Hr.
    unfold canApprovePrincipal. rewrite Hr. js_tests. reflexivity.
  - js_tests.
    destruct (canApproveTeam actor document delegation);
      destruct (canApprovePrincipal actor delegation); reflexivity.
Qed.

Lemma handleDelegationChange_team dg t :
  t <> 0 ->
  teamDelegation (handleDelegationChange dg kind_team (Some t)) !! t
  = Some (negb (teamDelegated dg (Some t))).
Proof.
  intros Ht. unfold handleDelegationChange, truthyNum.
  rewrite bool_decide_eq_false_2 by exact Ht.
  cbn [negb teamDelegation teamDelegated]. apply lookup_insert_eq.
Qed.

(** ** The confirmation handler *)

Lemma confirm_approve_SUBMITTED plan currentUser reason :
  p_status plan = Status.SUBMITTED ->
  handleConfirmAction approve plan currentUser reason
  = OnAction (p_id plan) Status.APPROVED_BY_TL reason.
Proof.
  intros Hs. unfold handleConfirmAction. rewrite Hs. js_tests. reflexivity.
Qed.

Lemma confirm_cancel_APPROVED_BY_TL plan currentUser reason :
  p_status plan = Status.APPROVED_BY_TL ->
  handleConfirmAction cancel plan currentUser reason
  = OnAction (p_id plan) Status.SUBMITTED reason.
Proof.
  intros Hs. unfold handleConfirmAction. rewrite Hs. js_tests. reflexivity.
Qed.

Lemma confirm_approve_APPROVED_BY_TL plan currentUser reason :
  p_status plan = Status.APPROVED_BY_TL ->
  handleConfirmAction approve plan currentUser reason
  = OnAction (p_id plan) Status.APPROVED reason.
Proof.
  intros Hs. unfold handleConfirmAction. rewrite Hs. js_tests. reflexivity.
Qed.

Lemma confirm_cancel_APPROVED plan currentUser reason :
  p_status plan = Status.APPROVED ->
  handleConfirmAction cancel plan currentUser reason
  = OnAction (p_id plan) Status.APPROVED_BY_TL reason.
Proof.
  intros Hs. unfold handleConfirmAction. rewrite Hs. js_tests. reflexivity.
Qed.

Lemma confirm_reject_blank plan currentUser reason :
  reasonBlank reason = true ->
  handleConfirmAction reject plan currentUser reason = NotifyMissingReason.
Proof. intros Hb. unfold handleConfirmAction. rewrite Hb. reflexivity. Qed.

Lemma confirm_reject_team plan currentUser reason :
  u_role currentUser = Role.TEAM_LEADER
  \/ u_role currentUser = Role.DEPUTY_TEAM_LEADER ->
  reasonBlank reason = false ->
  handleConfirmAction reject plan currentUser reason
  = OnAction (p_id plan) Status.REJECTED_BY_TL reason.
Proof.
  intros Hr Hb. unfold handleConfirmAction. rewrite Hb.
  cbn [includes existsb].
  destruct Hr as [Hr | Hr]; rewrite Hr; js_tests; reflexivity.
Qed.

Lemma confirm_reject_institution plan currentUser reason :
  u_role currentUser = Role.PRINCIPAL
  \/ u_role currentUser = Role.VICE_PRINCIPAL ->
  reasonBlank reason = false ->
  handleConfirmAction reject plan currentUser reason
  = OnAction (p_id plan) Status.REJECTED_BY_VP reason.
Proof.
  intros Hr Hb. unfold handleConfirmAction. rewrite Hb.
  cbn [includes existsb].
  destruct Hr as [Hr | Hr]; rewrite Hr; js_tests; reflexivity.
Qed.

Lemma confirm_reject_other plan currentUser reason :
  u_role currentUser <> Role.TEAM_LEADER ->
  u_role currentUser <> Role.DEPUTY_TEAM_LEADER ->
  u_role currentUser <> Role.PRINCIPAL ->
  u_role currentUser <> Role.VICE_PRINCIPAL ->
  reasonBlank reason = false ->
  handleConfirmAction reject plan currentUser reason = CloseOnly.
Proof.
  intros H1 H2 H3 H4 Hb. unfold handleConfirmAction. rewrite Hb.
  cbn [includes existsb].
  rewrite !bool_decide_eq_false_2 by (apply not_eq_sym; assumption).
  reflexivity.
Qed.

(** Membership of a button in a rendered list of buttons. *)
Ltac buttons :=
  first [ solve [repeat constructor]
        | repeat match goal with
                 | H : _ ∈ _ |- _ => inversion H; clear H; subst
                 end ].

(** C3: the team-tier transitions (approve, reject and cancel by the team)
    are offered to an actor exactly when the actor is the team leader of
    the document's team, or the deputy team leader of that team while the
    team's delegation flag is true; a deputy of the team is refused while
    the flag is not true and admitted once the flag has been switched on. *)
Theorem team_tier_guard (actor : User) (document : LessonPlan)
    (dg : DelegationState) :
  (canApproveTeam actor document dg = true
   <-> teamTierRule actor document dg)
  /\ (p_status document = Status.SUBMITTED ->
      (approve ∈ renderApprovalActions actor document dg
       <-> teamTierRule actor document dg)
      /\ (reject ∈ renderApprovalActions actor document dg
          <-> teamTierRule actor document dg)
      /\ (forall reason,
            handleConfirmAction approve document actor reason
            = OnAction (p_id document) Status.APPROVED_BY_TL reason)
      /\ (forall reason,
            teamTierRule actor document dg ->
            reasonBlank reason = false ->
            handleConfirmAction reject document actor reason
            = OnAction (p_id document) Status.REJECTED_BY_TL reason))
  /\ (p_status document = Status.APPROVED_BY_TL ->
      (cancel ∈ renderApprovalActions actor document dg
       <-> teamTierRule actor document dg)
      /\ (forall reason,
            handleConfirmAction cancel document actor reason
            = OnAction (p_id document) Status.SUBMITTED reason))
  /\ (forall t db,
        u_role actor = Role.DEPUTY_TEAM_LEADER ->
        u_teamId actor = Some t -> p_teamId document = Some t ->
        (teamDelegation dg !! t <> Some true ->
         canApproveTeam actor document dg = false)
        /\ (teamDelegation dg !! t = Some true ->
            canApproveTeam actor document dg = true)
        /\ (t <> 0 -> teamDelegated dg (Some t) = false ->
            canApproveTeam actor document
              (delegation
                 (fst (put_delegation db
                         (handleDelegationChange dg kind_team (Some t)))))
            = true)).
Proof.
  pose proof (canApproveTeam_rule actor document dg) as Hrule.
  split; [exact Hrule |]. split; [| split].
  - intros Hs. rewrite (render_SUBMITTED _ _ _ Hs), <- Hrule.
    split; [| split; [| split]].
    + destruct (canApproveTeam actor document dg); split;
        intros H; try reflexivity; try discriminate; buttons.
    + destruct (canApproveTeam actor document dg); split;
        intros H; try reflexivity; try discriminate; buttons.
    + intros reason. apply confirm_approve_SUBMITTED, Hs.
    + intros reason Hc Hb. apply confirm_reject_team; [| exact Hb].
      destruct Hc as [[Hr _] | [Hr _]]; [left | right]; exact Hr.
  - intros Hs. rewrite (render_APPROVED_BY_TL _ _ _ Hs), <- Hrule. split.
    + destruct (canApproveTeam actor document dg); split;
        intros H; try reflexivity; try discriminate; [buttons |].
      destruct (canApprovePrincipal actor dg); buttons.
    + intros reason. apply confirm_cancel_APPROVED_BY_TL, Hs.
  - intros t db Hr Ha Hd.
    assert (Hflag : forall dg', canApproveTeam actor document dg' =
                                default false (teamDelegation dg' !! t)).
    { intros dg'. unfold canApproveTeam. rewrite Hr, Ha, Hd.
      js_tests. reflexivity. }
    split; [| split].
    + intros Hn. rewrite Hflag.
      destruct (teamDelegation dg !! t) as [[|]|]; [congruence | |];
        reflexivity.
    + intros Hy. rewrite Hflag, Hy. reflexivity.
    + intros Ht Hoff. rewrite Hflag. cbn [put_delegation fst delegation set_delegation].
      rewrite handleDelegationChange_team by exact Ht.
      rewrite Hoff. reflexivity.
Qed.

(** C6: for a team leader and a document of the leader's own team the
    verdict of the guard does not depend on the delegation state: the
    leader may act for the team whether the team's flag is true, false or
    absent, and the rendered buttons are the same under any two delegation
    states. *)
Theorem team_leader_authority_independent_of_delegation
    (actor : User) (document : LessonPlan) (dg1 dg2 : DelegationState) :
  u_role actor = Role.TEAM_LEADER ->
  u_teamId actor = p_teamId document ->
  canApproveTeam actor document dg1 = true
  /\ canApproveTeam actor document dg1 = canApproveTeam actor document dg2
  /\ renderApprovalActions actor document dg1
     = renderApprovalActions actor document dg2.
Proof.
  intros Hr Ht.
  assert (Hteam : forall dg, canApproveTeam actor document dg = true).
  { intros dg. unfold canApproveTeam. rewrite Hr, Ht. js_tests.
    reflexivity. }
  assert (Hprin : forall dg, canApprovePrincipal actor dg = false).
  { intros dg. unfold canApprovePrincipal. rewrite Hr. js_tests.
    reflexivity. }
  split; [apply Hteam |]. split; [rewrite !Hteam; reflexivity |].
  unfold renderApprovalActions. rewrite !Hteam, !Hprin. reflexivity.
Qed.

Lemma team_leader_authority_witness :
  canApproveTeam (mockUser 3) (mkPlan 1 "" (mockUser 5) 0 Status.SUBMITTED 1
                                     "" "" "" "" None None [] [] "")
                 MOCK_DELEGATION = true
  /\ renderApprovalActions (mockUser 3)
       (mkPlan 1 "" (mockUser 5) 0 Status.SUBMITTED 1 "" "" "" "" None None
               [] [] "")
       MOCK_DELEGATION
     = renderApprovalActions (mockUser 3)
       (mkPlan 1 "" (mockUser 5) 0 Status.SUBMITTED 1 "" "" "" "" None None
               [] [] "")
       (handleDelegationChange MOCK_DELEGATION kind_team (Some 1)).
Proof.
  destruct (team_leader_authority_independent_of_delegation
              (mockUser 3)
              (mkPlan 1 "" (mockUser 5) 0 Status.SUBMITTED 1 "" "" "" ""
                      None None [] [] "")
              MOCK_DELEGATION
              (handleDelegationChange MOCK_DELEGATION kind_team (Some 1)))
    as (H1 & _ & H3).
  - vm_compute. reflexivity.
  - vm_compute. reflexivity.
  - split; [exact H1 | exact H3].
Defined.

(** ** The visibility filter *)

(** C7: among the lesson plans of one school, what a principal is shown
    contains what a team leader is shown, and the team leader is shown
    exactly the plans of the leader's team. *)
Theorem principal_sees_what_team_leader_sees
    (teamLeader principal : User) (selectedSchool : School)
    (allPlans : list LessonPlan) :
  u_role teamLeader = Role.TEAM_LEADER ->
  u_role principal = Role.PRINCIPAL ->
  let forLeader :=
    baseVisiblePlans teamLeader
      (dashboardLessonPlans teamLeader (Some selectedSchool) allPlans) in
  let forPrincipal :=
    baseVisiblePlans principal
      (dashboardLessonPlans principal (Some selectedSchool) allPlans) in
  forLeader ⊆ forPrincipal
  /\ forLeader = filter (fun p => p_teamId p = u_teamId teamLeader) forPrincipal
  /\ forPrincipal
     = filter (fun p => p_schoolId p = Some (s_id selectedSchool)) allPlans.
Proof.
  intros Hl Hp forLeader forPrincipal.
  assert (Ep : forPrincipal
               = filter (fun p => p_schoolId p = Some (s_id selectedSchool))
                        allPlans).
  { unfold forPrincipal, baseVisiblePlans, dashboardLessonPlans,
      schoolLessonPlans.
    rewrite Hp. js_tests. reflexivity. }
  assert (El : forLeader
               = filter (fun p => p_teamId p = u_teamId teamLeader)
                        forPrincipal).
  { rewrite Ep.
    unfold forLeader, baseVisiblePlans, dashboardLessonPlans,
      schoolLessonPlans.
    rewrite Hl. js_tests. reflexivity. }
  split; [| split; assumption].
  rewrite El. intros p Hin. apply list_elem_of_filter in Hin. apply Hin.
Qed.

Lemma principal_sees_witness :
  baseVisiblePlans (mockUser 3)
    (dashboardLessonPlans (mockUser 3)
       (Some {| s_id := js "THCS-BINHSON"; s_name := js "" |})
       (MOCK_LESSON_PLANS 0))
  ⊆ baseVisiblePlans (mockUser 1)
      (dashboardLessonPlans (mockUser 1)
         (Some {| s_id := js "THCS-BINHSON"; s_name := js "" |})
         (MOCK_LESSON_PLANS 0)).
Proof.
  refine (proj1 (principal_sees_what_team_leader_sees (mockUser 3)
                   (mockUser 1)
                   {| s_id := js "THCS-BINHSON"; s_name := js "" |}
                   (MOCK_LESSON_PLANS 0) _ _)).
  - vm_compute. reflexivity.
  - vm_compute. reflexivity.
Defined.

(** ** The status endpoint *)

Ltac js_clash :=
  match goal with
  | H1 : ?s = ?a, H2 : ?s = ?b |- _ =>
      exfalso; rewrite H1 in H2; revert H2; js_distinct
  end.

Lemma statusSwitch_plan newStatus currentUser tFinal plan :
  snd (statusSwitch newStatus currentUser tFinal plan)
  = if bool_decide (newStatus = Status.ISSUED)
    then set_final currentUser tFinal plan else plan.
Proof.
  unfold statusSwitch.
  repeat case_bool_decide; try reflexivity; try js_clash; congruence.
Qed.

(** On a plan that exists the endpoint answers 200 with the plan it
    stored, whose fields are those of the plan found except for the
    status, the history and, for the issued status, the final approver. *)
Lemma put_status_found db id newStatus reason tFinal tHistory planIndex plan :
  findIndex (fun p => p_id p = id) (lessonPlans db) = Some (planIndex, plan) ->
  exists plan',
    put_lesson_plan_status db id newStatus reason tFinal tHistory
    = (set_lessonPlans (<[planIndex := plan']> (lessonPlans db)) db,
       Json 200 plan')
    /\ p_status plan' = newStatus
    /\ p_history plan'
       = p_history plan
         ++ [ {| h_action :=
                   fst (statusSwitch newStatus (mockCurrentUser db) tFinal
                                     (set_status newStatus plan));
                 h_user := mockCurrentUser db;
                 h_timestamp := tHistory;
                 h_reason := reasonProperty reason |} ]
    /\ p_finalApprover plan'
       = (if bool_decide (newStatus = Status.ISSUED)
          then mockCurrentUser db else p_finalApprover plan)
    /\ p_finalApprovedAt plan'
       = (if bool_decide (newStatus = Status.ISSUED)
          then Some tFinal else p_finalApprovedAt plan)
    /\ p_id plan' = p_id plan
    /\ p_teamId plan' = p_teamId plan
    /\ p_schoolId plan' = p_schoolId plan
    /\ p_submittedBy plan' = p_submittedBy plan
    /\ p_comments plan' = p_comments plan.
Proof.
  intros Hfind. unfold put_lesson_plan_status. rewrite Hfind.
  pose proof (statusSwitch_plan newStatus (mockCurrentUser db) tFinal
                (set_status newStatus plan)) as Hsw.
  destruct (statusSwitch newStatus (mockCurrentUser db) tFinal
              (set_status newStatus plan)) as [action plan1].
  cbn [snd fst] in *. subst plan1.
  eexists. split; [reflexivity |].
  case_bool_decide; cbn; repeat split; reflexivity.
Qed.

Lemma put_status_not_found db id newStatus reason tFinal tHistory :
  findIndex (fun p => p_id p = id) (lessonPlans db) = None ->
  put_lesson_plan_status db id newStatus reason tFinal tHistory
  = (db, Message 404 (js "Lesson plan not found")).
Proof.
  intros Hfind. unfold put_lesson_plan_status. rewrite Hfind. reflexivity.
Qed.

(** C1, as the code has it: the status endpoint consults no transition
    table.  For a plan that exists it stores the requested status, whatever
    the current one, and appends one history entry; only an unknown id is
    refused, with 404 and the database untouched.  What withholds a request
    is the client.  The confirmation handler sends nothing in exactly four
    cases: approve outside the submitted and team-approved statuses, cancel
    outside the team-approved and approved statuses, reject with a blank
    reason (it raises the notification instead), and reject by a user who
    has none of the four approver roles.  The action handler of the app
    sends nothing exactly when nobody is logged in, and otherwise sends
    the request as it is. *)
Theorem status_request_applied_whatever_the_current_status
    (db : Db) (id : Z) (newStatus : jsstring) (reason : option jsstring)
    (tFinal tHistory : Z) :
  (forall planIndex plan,
      findIndex (fun p => p_id p = id) (lessonPlans db)
      = Some (planIndex, plan) ->
      exists plan' entry,
        put_lesson_plan_status db id newStatus reason tFinal tHistory
        = (set_lessonPlans (<[planIndex := plan']> (lessonPlans db)) db,
           Json 200 plan')
        /\ lessonPlans
             (fst (put_lesson_plan_status db id newStatus reason tFinal
                                          tHistory)) !! planIndex
           = Some plan'
        /\ findIndex (fun p => p_id p = id)
             (lessonPlans
                (fst (put_lesson_plan_status db id newStatus reason tFinal
                                             tHistory)))
           = Some (planIndex, plan')
        /\ p_status plan' = newStatus
        /\ p_history plan' = p_history plan ++ [entry])
  /\ (findIndex (fun p => p_id p = id) (lessonPlans db) = None ->
      put_lesson_plan_status db id newStatus reason tFinal tHistory
      = (db, Message 404 (js "Lesson plan not found")))
  /\ (forall plan currentUser,
        p_status plan <> Status.SUBMITTED ->
        p_status plan <> Status.APPROVED_BY_TL ->
        handleConfirmAction approve plan currentUser reason = CloseOnly)
  /\ (forall plan currentUser,
        p_status plan <> Status.APPROVED_BY_TL ->
        p_status plan <> Status.APPROVED ->
        handleConfirmAction cancel plan currentUser reason = CloseOnly)
  /\ (forall actionType plan currentUser,
        handleConfirmAction actionType plan currentUser reason = CloseOnly
        <-> actionType = approve
            /\ p_status plan <> Status.SUBMITTED
            /\ p_status plan <> Status.APPROVED_BY_TL
            \/ actionType = cancel
               /\ p_status plan <> Status.APPROVED_BY_TL
               /\ p_status plan <> Status.APPROVED
            \/ actionType = reject
               /\ reasonBlank reason = false
               /\ u_role currentUser <> Role.TEAM_LEADER
               /\ u_role currentUser <> Role.DEPUTY_TEAM_LEADER
               /\ u_role currentUser <> Role.PRINCIPAL
               /\ u_role currentUser <> Role.VICE_PRINCIPAL)
  /\ (forall actionType plan currentUser,
        handleConfirmAction actionType plan currentUser reason
        = NotifyMissingReason
        <-> actionType = reject /\ reasonBlank reason = true)
  /\ (forall currentUser,
        snd (handleLessonPlanAction currentUser db id newStatus reason tFinal
                                    tHistory) = None
        <-> currentUser = None)
  /\ (forall currentUser,
        handleLessonPlanAction (Some currentUser) db id newStatus reason
                               tFinal tHistory
        = (fst (put_lesson_plan_status db id newStatus reason tFinal
                                       tHistory),
           Some (snd (put_lesson_plan_status db id newStatus reason tFinal
                                             tHistory)))).
Proof.
  assert (Happrove : forall plan currentUser,
            p_status plan <> Status.SUBMITTED ->
            p_status plan <> Status.APPROVED_BY_TL ->
            handleConfirmAction approve plan currentUser reason = CloseOnly).
  { intros plan currentUser H1 H2. unfold handleConfirmAction.
    rewrite !bool_decide_eq_false_2 by assumption. reflexivity. }
  assert (Hcancel : forall plan currentUser,
            p_status plan <> Status.APPROVED_BY_TL ->
            p_status plan <> Status.APPROVED ->
            handleConfirmAction cancel plan currentUser reason = CloseOnly).
  { intros plan currentUser H1 H2. unfold handleConfirmAction.
    rewrite !bool_decide_eq_false_2 by assumption. reflexivity. }
  split; [| split; [| split; [| split; [| split; [| split; [| split]]]]]].
  - intros planIndex plan Hfind.
    destruct (put_status_found db id newStatus reason tFinal tHistory
                planIndex plan Hfind)
      as (plan' & Hput & Hs & Hh & _ & _ & Hid & _).
    exists plan'. eexists. split; [exact Hput |]. rewrite Hput.
    cbn [fst lessonPlans set_lessonPlans].
    destruct (findIndex_lookup _ _ _ _ Hfind) as [Hlookup _].
    split; [apply list_lookup_insert_eq, (lookup_lt_Some _ _ _ Hlookup) |].
    split; [exact (refind_plan _ _ _ _ _ Hfind Hid) |].
    split; [exact Hs | exact Hh].
  - apply put_status_not_found.
  - exact Happrove.
  - exact Hcancel.
  - intros actionType plan currentUser. split.
    + intros Hclose. destruct actionType.
      * left. split; [reflexivity |]. split; intros Hs.
        -- rewrite (confirm_approve_SUBMITTED _ _ _ Hs) in Hclose.
           discriminate Hclose.
        -- rewrite (confirm_approve_APPROVED_BY_TL _ _ _ Hs) in Hclose.
           discriminate Hclose.
      * right. right. split; [reflexivity |].
        destruct (reasonBlank reason) eqn:Hb;
          [rewrite (confirm_reject_blank _ _ _ Hb) in Hclose;
           discriminate Hclose |].
        split; [reflexivity |].
        split; [| split; [| split]]; intros Hr.
        -- rewrite (confirm_reject_team _ _ _ (or_introl Hr) Hb) in Hclose.
           discriminate Hclose.
        -- rewrite (confirm_reject_team _ _ _ (or_intror Hr) Hb) in Hclose.
           discriminate Hclose.
        -- rewrite (confirm_reject_institution _ _ _ (or_introl Hr) Hb)
             in Hclose.
           discriminate Hclose.
        -- rewrite (confirm_reject_institution _ _ _ (or_intror Hr) Hb)
             in Hclose.
           discriminate Hclose.
      * right. left. split; [reflexivity |]. split; intros Hs.
        -- rewrite (confirm_cancel_APPROVED_BY_TL _ _ _ Hs) in Hclose.
           discriminate Hclose.
        -- rewrite (confirm_cancel_APPROVED _ _ _ Hs) in Hclose.
           discriminate Hclose.
    + intros [(-> & H1 & H2) | [(-> & H1 & H2)
                               | (-> & Hb & H1 & H2 & H3 & H4)]].
      * exact (Happrove plan currentUser H1 H2).
      * exact (Hcancel plan currentUser H1 H2).
      * exact (confirm_reject_other plan currentUser reason H1 H2 H3 H4 Hb).
  - intros actionType plan currentUser. split.
    + intros Hnotify. destruct actionType.
      * exfalso. unfold handleConfirmAction in Hnotify.
        destruct (bool_decide (p_status plan = Status.SUBMITTED));
          [discriminate Hnotify |].
        destruct (bool_decide (p_status plan = Status.APPROVED_BY_TL));
          discriminate Hnotify.
      * split; [reflexivity |].
        destruct (reasonBlank reason) eqn:Hb; [reflexivity |].
        exfalso. unfold handleConfirmAction in Hnotify. rewrite Hb in Hnotify.
        destruct (includes [Role.TEAM_LEADER; Role.DEPUTY_TEAM_LEADER]
                           (u_role currentUser));
          [discriminate Hnotify |].
        destruct (includes [Role.PRINCIPAL; Role.VICE_PRINCIPAL]
                           (u_role currentUser));
          discriminate Hnotify.
      * exfalso. unfold handleConfirmAction in Hnotify.
        destruct (bool_decide (p_status plan = Status.APPROVED_BY_TL));
          [discriminate Hnotify |].
        destruct (bool_decide (p_status plan = Status.APPROVED));
          discriminate Hnotify.
    + intros [-> Hb]. exact (confirm_reject_blank plan currentUser reason Hb).
  - intros [currentUser |]; unfold handleLessonPlanAction.
    + destruct (put_lesson_plan_status db id newStatus reason tFinal tHistory)
        as [db' response].
      split; discriminate.
    + split; reflexivity.
  - intros currentUser. unfold handleLessonPlanAction.
    destruct (put_lesson_plan_status db id newStatus reason tFinal tHistory)
      as [db' response].
    reflexivity.
Qed.

Lemma status_request_applied_witness :
  exists plan',
    put_lesson_plan_status (MOCK_DATA 0) 1 Status.APPROVED_BY_TL None 1 2
    = (set_lessonPlans (<[0%nat := plan']> (lessonPlans (MOCK_DATA 0)))
                       (MOCK_DATA 0),
       Json 200 plan')
    /\ lessonPlans
         (fst (put_lesson_plan_status (MOCK_DATA 0) 1 Status.APPROVED_BY_TL
                                      None 1 2)) !! 0%nat
       = Some plan'
    /\ p_status plan' = Status.APPROVED_BY_TL.
Proof.
  destruct (proj1 (status_request_applied_whatever_the_current_status
                     (MOCK_DATA 0) 1 Status.APPROVED_BY_TL None 1 2)
                  0%nat
                  (mkPlan 1 "Bài dạy: Phản ứng Oxi hóa - Khử" (mockUser 5)
                     (0 - 1 * day) Status.SUBMITTED 1 "Khoa học tự nhiên"
                     "Khối 8" "8A" "KHTN8_Oxihoa.pdf" None None
                     [mkEntry "Nộp Kế hoạch bài dạy" (mockUser 5)
                              (0 - 1 * day) None]
                     [] "THCS-BINHSON"))
    as (plan' & entry & Hput & Hstored & _ & Hs & _).
  - vm_compute. reflexivity.
  - exists plan'. split; [exact Hput |]. split; [exact Hstored | exact Hs].
Defined.

(** C1 fails on the code: the draft of the seed data (plan 5) is moved
    straight to the issued status, a pair of statuses that the transition
    table does not have; the request succeeds and the history grows. *)
Lemma draft_issued_without_table_entry :
  exists plan plan' db',
    find (fun p => p_id p = 5) (lessonPlans (MOCK_DATA 0)) = Some plan
    /\ p_status plan = Status.DRAFT
    /\ tableAllows (p_status plan) Status.ISSUED = false
    /\ put_lesson_plan_status (MOCK_DATA 0) 5 Status.ISSUED None 1 2
       = (db', Json 200 plan')
    /\ p_status plan' = Status.ISSUED
    /\ length (p_history plan') = S (length (p_history plan))
    /\ find (fun p => p_id p = 5) (lessonPlans db') = Some plan'.
Proof.
  eexists. eexists. eexists.
  split; [vm_compute; reflexivity |].
  split; [vm_compute; reflexivity |].
  split; [vm_compute; reflexivity |].
  split; [vm_compute; reflexivity |].
  split; [vm_compute; reflexivity |].
  split; vm_compute; reflexivity.
Qed.

(** ** Tenant scope *)




(** ** [String.prototype.trim] *)

Section DropWhile.
Context {A : Type} (f : A -> bool).

Lemma dropWhile_split (l : list A) :
  exists pre, l = pre ++ dropWhile f l /\ Forall (fun x => f x = true) pre.
Proof.
  induction l as [| x l IH]; [exists []; split; [reflexivity | constructor] |].
  cbn [dropWhile]. destruct (f x) eqn:Hx.
  - destruct IH as (pre & Hl & Hpre). exists (x :: pre). split.
    + cbn. f_equal. exact Hl.
    + constructor; assumption.
  - exists []. split; [reflexivity | constructor].
Qed.

Lemma dropWhile_head (l : list A) (x : A) :
  head (dropWhile f l) = Some x -> f x = false.
Proof.
  induction l as [| y l IH]; [discriminate |].
  cbn [dropWhile]. destruct (f y) eqn:Hy; [exact IH |].
  cbn. intros [= <-]. exact Hy.
Qed.

Lemma dropWhile_nil (l : list A) :
  dropWhile f l = [] <-> Forall (fun x => f x = true) l.
Proof.
  induction l as [| y l IH]; [split; [constructor | reflexivity] |].
  cbn [dropWhile]. destruct (f y) eqn:Hy.
  - rewrite IH. split; [intros H; constructor; assumption |].
    intros H. inversion H; assumption.
  - split; [discriminate |]. intros H. inversion H; congruence.
Qed.

Lemma dropWhile_sublist_length (l : list A) :
  (length (dropWhile f l) <= length l)%nat.
Proof.
  induction l as [| y l IH]; [reflexivity |].
  cbn [dropWhile]. destruct (f y); cbn; lia.
Qed.
End DropWhile.

Lemma last_rev_head {A : Type} (l : list A) : last (rev l) = head l.
Proof. rewrite rev_alt. apply (last_reverse l). Qed.

Lemma trimEnd_split (s : jsstring) :
  exists suf, s = trimEnd s ++ suf
              /\ Forall (fun c => isWhiteSpace c = true) suf.
Proof.
  unfold trimEnd.
  destruct (dropWhile_split isWhiteSpace (rev s)) as (pre & Hs & Hpre).
  exists (rev pre). split.
  - rewrite <- rev_app_distr, <- Hs, rev_involutive. reflexivity.
  - apply Forall_rev. exact Hpre.
Qed.

Lemma trimEnd_last (s : jsstring) (c : N) :
  last (trimEnd s) = Some c -> isWhiteSpace c = false.
Proof.
  unfold trimEnd. rewrite last_rev_head. apply dropWhile_head.
Qed.

Lemma trimEnd_nil (s : jsstring) :
  trimEnd s = [] <-> Forall (fun c => isWhiteSpace c = true) s.
Proof.
  unfold trimEnd. split.
  - intros H. apply (f_equal (@rev N)) in H. rewrite rev_involutive in H.
    cbn in H. apply dropWhile_nil in H. apply Forall_rev in H.
    rewrite rev_involutive in H. exact H.
  - intros H. apply Forall_rev in H. apply (dropWhile_nil isWhiteSpace) in H.
    rewrite H. reflexivity.
Qed.

(** [trim] removes a run of white space at each end and nothing else, and
    what is left neither starts nor ends with white space. *)
Lemma trim_spec (s : jsstring) :
  exists pre suf,
    s = pre ++ trim s ++ suf
    /\ Forall (fun c => isWhiteSpace c = true) pre
    /\ Forall (fun c => isWhiteSpace c = true) suf
    /\ (forall c, head (trim s) = Some c -> isWhiteSpace c = false)
    /\ (forall c, last (trim s) = Some c -> isWhiteSpace c = false).
Proof.
  unfold trim, trimStart.
  destruct (dropWhile_split isWhiteSpace s) as (pre & Hs & Hpre).
  destruct (trimEnd_split (dropWhile isWhiteSpace s)) as (suf & Ht & Hsuf).
  exists pre, suf. split; [| split; [exact Hpre | split; [exact Hsuf | split]]].
  - rewrite <- Ht. exact Hs.
  - intros c Hc. apply (dropWhile_head isWhiteSpace s).
    rewrite Ht.
    destruct (trimEnd (dropWhile isWhiteSpace s)); [discriminate | exact Hc].
  - apply trimEnd_last.
Qed.

Lemma trim_nil (s : jsstring) :
  trim s = [] <-> Forall (fun c => isWhiteSpace c = true) s.
Proof.
  split.
  - intros H. destruct (trim_spec s) as (pre & suf & Hs & Hpre & Hsuf & _).
    rewrite H in Hs. rewrite Hs. apply Forall_app. split; assumption.
  - intros H. unfold trim, trimStart.
    apply (dropWhile_nil isWhiteSpace) in H. rewrite H. reflexivity.
Qed.


(** ** Rejecting with a reason *)





(** C8, as the code has it: the status endpoint stamps the final approver
    and the time of the final approval exactly when the requested status
    is the issued one, and leaves the two fields as they were for every
    other requested status.  The approver it records is not the invoking
    actor: the request names no actor, and whoever sends it the endpoint
    records the user it finds under id 4 (nobody, if there is none), the
    same user it names as the author of the history entry.  The plan
    stored in the database is the plan of the answer. *)
Theorem final_approver_set_exactly_on_issue
    (actor : User) (db : Db) (id : Z) (newStatus : jsstring)
    (reason : option jsstring) (tFinal tHistory : Z) (planIndex : nat)
    (plan : LessonPlan) :
  findIndex (fun p => p_id p = id) (lessonPlans db) = Some (planIndex, plan) ->
  exists db' plan' entry,
    handleLessonPlanAction (Some actor) db id newStatus reason tFinal tHistory
    = (db', Some (Json 200 plan'))
    /\ put_lesson_plan_status db id newStatus reason tFinal tHistory
       = (db', Json 200 plan')
    /\ lessonPlans db' !! planIndex = Some plan'
    /\ findIndex (fun p => p_id p = id) (lessonPlans db')
       = Some (planIndex, plan')
    /\ p_status plan' = newStatus
    /\ p_history plan' = p_history plan ++ [entry]
    /\ h_user entry = find (fun u => u_id u = 4) (users db)
    /\ (newStatus = Status.ISSUED ->
        p_finalApprover plan' = find (fun u => u_id u = 4) (users db)
        /\ p_finalApprovedAt plan' = Some tFinal)
    /\ (newStatus <> Status.ISSUED ->
        p_finalApprover plan' = p_finalApprover plan
        /\ p_finalApprovedAt plan' = p_finalApprovedAt plan)
    /\ (forall approver,
          p_finalApprover plan' = Some approver ->
          newStatus = Status.ISSUED -> u_id approver = 4).
Proof.
  intros Hfind.
  destruct (put_status_found db id newStatus reason tFinal tHistory
              planIndex plan Hfind)
    as (plan' & Hput & Hs & Hh & Hfa & Hft & Hid & _).
  change (mockCurrentUser db) with (find (fun u => u_id u = 4) (users db))
    in Hh, Hfa.
  destruct (findIndex_lookup _ _ _ _ Hfind) as [Hlookup _].
  eexists. exists plan'. eexists.
  split; [unfold handleLessonPlanAction; rewrite Hput; reflexivity |].
  split; [exact Hput |]. cbn [lessonPlans set_lessonPlans].
  split; [apply list_lookup_insert_eq, (lookup_lt_Some _ _ _ Hlookup) |].
  split; [exact (refind_plan _ _ _ _ _ Hfind Hid) |].
  split; [exact Hs |]. split; [exact Hh |].
  split; [reflexivity |]. split; [| split].
  - intros Hi. rewrite bool_decide_eq_true_2 in Hfa, Hft by exact Hi.
    split; assumption.
  - intros Hi. rewrite bool_decide_eq_false_2 in Hfa, Hft by exact Hi.
    split; assumption.
  - intros approver Ha Hi. rewrite bool_decide_eq_true_2 in Hfa by exact Hi.
    rewrite Hfa in Ha. exact (find_Some_holds _ _ _ Ha).
Qed.

Lemma final_approver_witness :
  exists db' plan',
    handleLessonPlanAction (Some (mockUser 1)) (MOCK_DATA 0) 3 Status.ISSUED
                           None 1 2
    = (db', Some (Json 200 plan'))
    /\ lessonPlans db' !! 2%nat = Some plan'
    /\ p_finalApprover plan' = Some (mockUser 3)
    /\ p_finalApprovedAt plan' = Some 1.
Proof.
  edestruct (final_approver_set_exactly_on_issue (mockUser 1) (MOCK_DATA 0) 3
               Status.ISSUED None 1 2)
    as (db' & plan' & entry & Hsent & _ & Hstored & _ & _ & _ & _ & Hissued
        & _).
  - vm_compute. reflexivity.
  - exists db', plan'. split; [exact Hsent |]. split; [exact Hstored |].
    destruct (Hissued eq_refl) as [Ha Ht]. rewrite Ha.
    split; [vm_compute; reflexivity | exact Ht].
Defined.

(** C8 fails on the code where it says whom the operation records.  The
    principal of the seed data (user 2) approves plan 3 and then issues
    it; the plan stored as issued names user 4, a team leader, as its
    final approver. *)
Lemma principal_issues_and_user_4_is_recorded :
  exists db1 approved db2 issued approver,
    u_id (mockUser 1) = 2
    /\ u_role (mockUser 1) = Role.PRINCIPAL
    /\ handleLessonPlanAction (Some (mockUser 1)) (MOCK_DATA 0) 3
                              Status.APPROVED None 1 2
       = (db1, Some (Json 200 approved))
    /\ p_status approved = Status.APPROVED
    /\ handleLessonPlanAction (Some (mockUser 1)) db1 3 Status.ISSUED None
                              3 4
       = (db2, Some (Json 200 issued))
    /\ find (fun p => p_id p = 3) (lessonPlans db2) = Some issued
    /\ p_status issued = Status.ISSUED
    /\ p_finalApprover issued = Some approver
    /\ u_id approver = 4
    /\ u_role approver = Role.TEAM_LEADER.
Proof.
  eexists. eexists. eexists. eexists. eexists.
  split; [vm_compute; reflexivity |].
  split; [vm_compute; reflexivity |].
  split; [vm_compute; reflexivity |].
  split; [vm_compute; reflexivity |].
  split; [vm_compute; reflexivity |].
  split; [vm_compute; reflexivity |].
  split; [vm_compute; reflexivity |].
  split; [vm_compute; reflexivity |].
  split; vm_compute; reflexivity.
Qed.

(** ** Team roles *)

Lemma orUndefined_Some userId u :
  orUndefined userId = Some u <-> userId = Some u /\ u <> 0.
Proof.
  unfold orUndefined, truthyNum. destruct userId as [n |].
  - case_bool_decide as Hn; cbn [negb]; split.
    + discriminate.
    + intros [[= ->] Hu]. contradiction.
    + intros [= ->]. split; [reflexivity | exact Hn].
    + intros [[= ->] _]. reflexivity.
  - split; [discriminate | intros [[=] _]].
Qed.

(** The endpoint answers 200 for a team that exists; the team it stores
    differs from the team found in the requested slot only. *)
Lemma assign_role_found sharing db id roleType userId teamIndex team :
  findIndex (fun t => t_id t = id) (teams db) = Some (teamIndex, team) ->
  exists users' updatedUsers,
    post_team_assign_role sharing db id roleType userId
    = ({| schools := schools db; users := users';
          teams :=
            <[teamIndex :=
                if bool_decide (roleType = js "leader")
                then set_leaderId (orUndefined userId) team
                else set_deputyLeaderId (orUndefined userId) team]> (teams db);
          lessonPlans :=
            imap (fun k => shown_plan users' (sharing k)) (lessonPlans db);
          delegation := delegation db |},
       Json 200
         (if bool_decide (roleType = js "leader")
          then set_leaderId (orUndefined userId) team
          else set_deputyLeaderId (orUndefined userId) team,
          updatedUsers)).
Proof.
  intros Hfind. unfold post_team_assign_role. rewrite Hfind.
  repeat match goal with
         | |- context [let '(a, b) := ?X in _] => destruct X as [? ?]
         end.
  eexists. eexists. reflexivity.
Qed.

(** C5, as the code has it: assigning a team role writes the requested
    slot and leaves the other slot of the team as it was.  Hence a user
    holds both slots afterwards exactly when the user assigned is the one
    who holds the other slot; the endpoint does not vacate it. *)
Theorem assign_role_writes_the_requested_slot_only
    (sharing : Sharing) (db : Db) (id : Z) (roleType : jsstring)
    (userId : option Z) (teamIndex : nat) (team : Team) :
  findIndex (fun t => t_id t = id) (teams db) = Some (teamIndex, team) ->
  exists team' updatedUsers db',
    post_team_assign_role sharing db id roleType userId
    = (db', Json 200 (team', updatedUsers))
    /\ teams db' = <[teamIndex := team']> (teams db)
    /\ (roleType = js "leader" ->
        t_leaderId team' = orUndefined userId
        /\ t_deputyLeaderId team' = t_deputyLeaderId team)
    /\ (roleType <> js "leader" ->
        t_deputyLeaderId team' = orUndefined userId
        /\ t_leaderId team' = t_leaderId team)
    /\ (forall u,
          holdsBoth u team' <->
          orUndefined userId = Some u
          /\ (if bool_decide (roleType = js "leader")
              then t_deputyLeaderId team else t_leaderId team) = Some u).
Proof.
  intros Hfind.
  destruct (assign_role_found sharing db id roleType userId teamIndex team
              Hfind)
    as (users' & updatedUsers & Hpost).
  eexists. exists updatedUsers. eexists. split; [exact Hpost |].
  split; [reflexivity |].
  unfold holdsBoth. case_bool_decide as Hl; cbn.
  - split; [intros _; split; reflexivity |].
    split; [intros Hn; contradiction |]. intros u. reflexivity.
  - split; [intros Hn; contradiction |].
    split; [intros _; split; reflexivity |]. intros u. split; intros [? ?]; split; assumption.
Qed.

Lemma assign_role_witness :
  exists team' updatedUsers db',
    post_team_assign_role MOCK_SHARING (MOCK_DATA 0) 1 (js "leader") (Some 7)
    = (db', Json 200 (team', updatedUsers))
    /\ t_leaderId team' = Some 7
    /\ t_deputyLeaderId team' = Some 5.
Proof.
  edestruct (assign_role_writes_the_requested_slot_only MOCK_SHARING
               (MOCK_DATA 0) 1 (js "leader") (Some 7))
    as (team' & updatedUsers & db' & Hpost & _ & Hleader & _).
  - vm_compute. reflexivity.
  - exists team', updatedUsers, db'. split; [exact Hpost |].
    destruct (Hleader eq_refl) as [Hl Hd]. rewrite Hl, Hd.
    split; vm_compute; reflexivity.
Defined.

(** C5 fails on the code: team 1 of the seed data has leader 4 and deputy
    5; making user 5 the leader leaves user 5 in the deputy slot too. *)
Lemma deputy_made_leader_keeps_the_deputy_slot :
  exists team team' updatedUsers db',
    find (fun t => t_id t = 1) (teams (MOCK_DATA 0)) = Some team
    /\ t_leaderId team = Some 4
    /\ t_deputyLeaderId team = Some 5
    /\ post_team_assign_role MOCK_SHARING (MOCK_DATA 0) 1 (js "leader")
                             (Some 5)
       = (db', Json 200 (team', updatedUsers))
    /\ find (fun t => t_id t = 1) (teams db') = Some team'
    /\ holdsBoth 5 team'.
Proof.
  eexists. eexists. eexists. eexists.
  split; [vm_compute; reflexivity |].
  split; [vm_compute; reflexivity |].
  split; [vm_compute; reflexivity |].
  split; [vm_compute; reflexivity |].
  split; [vm_compute; reflexivity |].
  split; vm_compute; reflexivity.
Qed.

(** ** Comments *)

Lemma comment_blank_test (s : jsstring) :
  negb (truthy s) || bool_decide (trim s = []) = true
  <-> Forall (fun c => isWhiteSpace c = true) s.
Proof.
  rewrite Bool.orb_true_iff, bool_decide_eq_true, trim_nil.
  unfold truthy. rewrite Bool.negb_involutive, bool_decide_eq_true.
  split; [| intros H; right; exact H].
  intros [-> | H]; [constructor | exact H].
Qed.

(** C9, as the code has it: a comment whose text is missing, empty or
    white space only is never stored.  It is refused as an empty comment
    (400) when the endpoint finds its current user, the user under id 4,
    and as unauthorized (401), before the text is looked at, when it does
    not.  Every comment that is accepted is appended to the comments of
    the plan stored in the database, with the submitted text stripped of
    the white space at its two ends; a text with any other character is
    accepted on a plan that exists, once the current user is found. *)
Theorem comment_text_is_trimmed_and_blank_text_refused
    (db : Db) (id : Z) (text : option jsstring) (now tComment : Z) :
  ((text = None
    \/ exists s, text = Some s
                 /\ Forall (fun c => isWhiteSpace c = true) s) ->
   post_lesson_plan_comment db id text now tComment
   = (db, match mockCurrentUser db with
          | Some _ => Message 400 (js "Comment text cannot be empty")
          | None => Message 401 (js "Unauthorized")
          end))
  /\ (forall db' code plan',
        post_lesson_plan_comment db id text now tComment
        = (db', Json code plan') ->
        exists s planIndex plan currentUser pre suf,
          text = Some s
          /\ find (fun u => u_id u = 4) (users db) = Some currentUser
          /\ findIndex (fun p => p_id p = id) (lessonPlans db)
             = Some (planIndex, plan)
          /\ db' = set_lessonPlans (<[planIndex := plan']> (lessonPlans db)) db
          /\ lessonPlans db' !! planIndex = Some plan'
          /\ findIndex (fun p => p_id p = id) (lessonPlans db')
             = Some (planIndex, plan')
          /\ p_comments plan'
             = Some (default [] (p_comments plan)
                     ++ [ {| c_id := now; c_user := currentUser;
                             c_timestamp := tComment; c_text := trim s |} ])
          /\ s = pre ++ trim s ++ suf
          /\ Forall (fun c => isWhiteSpace c = true) pre
          /\ Forall (fun c => isWhiteSpace c = true) suf
          /\ (forall c, head (trim s) = Some c -> isWhiteSpace c = false)
          /\ (forall c, last (trim s) = Some c -> isWhiteSpace c = false))
  /\ (forall s planIndex plan currentUser,
        text = Some s -> ~ Forall (fun c => isWhiteSpace c = true) s ->
        findIndex (fun p => p_id p = id) (lessonPlans db)
        = Some (planIndex, plan) ->
        mockCurrentUser db = Some currentUser ->
        exists plan',
          post_lesson_plan_comment db id text now tComment
          = (set_lessonPlans (<[planIndex := plan']> (lessonPlans db)) db,
             Json 200 plan')
          /\ lessonPlans
               (fst (post_lesson_plan_comment db id text now tComment))
               !! planIndex
             = Some plan'
          /\ (c_text <$> (p_comments plan' ≫= last)) = Some (trim s)).
Proof.
  unfold post_lesson_plan_comment. split; [| split].
  - intros Hblank. destruct (mockCurrentUser db) as [currentUser |];
      [| reflexivity].
    destruct Hblank as [-> | (s & -> & Hs)]; [reflexivity |].
    apply comment_blank_test in Hs. rewrite Hs. reflexivity.
  - intros db' code plan' Hpost.
    destruct (mockCurrentUser db) as [currentUser |] eqn:Hu;
      [| discriminate].
    destruct text as [s |]; [| discriminate].
    destruct (negb (truthy s) || bool_decide (trim s = [])); [discriminate |].
    destruct (findIndex (fun p => p_id p = id) (lessonPlans db))
      as [[planIndex plan] |] eqn:Hfind; [| discriminate].
    injection Hpost as <- <- <-.
    destruct (trim_spec s) as (pre & suf & Hs & Hpre & Hsuf & Hhead & Hlast).
    destruct (findIndex_lookup _ _ _ _ Hfind) as [Hlookup _].
    exists s, planIndex, plan, currentUser, pre, suf.
    split; [reflexivity |]. split; [exact Hu |].
    split; [reflexivity |]. split; [reflexivity |].
    cbn [lessonPlans set_lessonPlans].
    split; [apply list_lookup_insert_eq, (lookup_lt_Some _ _ _ Hlookup) |].
    split; [apply (refind_plan _ _ _ _ _ Hfind); reflexivity |].
    split; [reflexivity |]. repeat split; assumption.
  - intros s planIndex plan currentUser -> Hs Hfind Hu. rewrite Hu.
    destruct (negb (truthy s) || bool_decide (trim s = [])) eqn:E.
    + apply comment_blank_test in E. contradiction.
    + rewrite Hfind. eexists. split; [reflexivity |].
      cbn [fst lessonPlans set_lessonPlans].
      destruct (findIndex_lookup _ _ _ _ Hfind) as [Hlookup _].
      split; [apply list_lookup_insert_eq, (lookup_lt_Some _ _ _ Hlookup) |].
      cbn [p_comments set_comments mbind option_bind].
      rewrite last_snoc. reflexivity.
Qed.

Lemma comment_witness :
  exists plan',
    lessonPlans
      (fst (post_lesson_plan_comment (MOCK_DATA 0) 1
              (Some (js "  Good work ")) 7 8)) !! 0%nat
    = Some plan'
    /\ (c_text <$> (p_comments plan' ≫= last)) = Some (js "Good work").
Proof.
  destruct (comment_text_is_trimmed_and_blank_text_refused (MOCK_DATA 0) 1
              (Some (js "  Good work ")) 7 8)
    as (_ & _ & Haccepted).
  edestruct (Haccepted (js "  Good work ") 0%nat) as (plan' & _ & Hstored & Ht).
  - reflexivity.
  - intros H. vm_compute in H. inversion H as [| c l Hc Hl].
    inversion Hl as [| c' l' Hc' Hl']. inversion Hl' as [| c'' l'' Hc'' Hl''].
    discriminate Hc''.
  - vm_compute. reflexivity.
  - vm_compute. reflexivity.
  - exists plan'. split; [exact Hstored |]. rewrite Ht.
    vm_compute. reflexivity.
Defined.

(** C9 fails on the code where the current user is not found.  Deleting
    the first school of the seed data removes user 4 with it; plan 6, of
    the other school, is still there, and a comment of three spaces on it
    is refused as unauthorized, not as an empty comment. *)
Lemma blank_comment_refused_as_unauthorized :
  exists db plan,
    delete_school (MOCK_DATA 0) (js "THCS-BINHSON") = (db, 204)
    /\ find (fun u => u_id u = 4) (users db) = None
    /\ find (fun p => p_id p = 6) (lessonPlans db) = Some plan
    /\ Forall (fun c => isWhiteSpace c = true) (js "   ")
    /\ post_lesson_plan_comment db 6 (Some (js "   ")) 7 8
       = (db, Message 401 (js "Unauthorized"))
    /\ bool_decide (js "Unauthorized" = js "Comment text cannot be empty")
       = false.
Proof.
  eexists. eexists.
  split; [reflexivity |].
  split; [vm_compute; reflexivity |].
  split; [vm_compute; reflexivity |].
  split; [vm_compute; repeat constructor |].
  split; vm_compute; reflexivity.
Qed.

(** ** Creating a lesson plan *)

(** C10, as the code has it: a lesson plan is created with the team of
    the user recorded as its submitter, whatever team the request details
    name, and is appended to the lesson plans of the database.  That
    submitter is not the user who sends the request: the request names no
    sender, and whoever saves the plan the endpoint records the user it
    finds under id 6. *)
Theorem created_plan_belongs_to_the_team_of_its_submitter
    (db : Db) (planDetails : PlanDetails) (isDraft : jsstring)
    (file : UploadedFile) (now tSubmitted tHistory : Z) (submitter : User) :
  find (fun u => u_id u = 6) (users db) = Some submitter ->
  exists newPlan db',
    post_lesson_plan db planDetails isDraft (Some file) now tSubmitted tHistory
    = (db', Json 201 newPlan)
    /\ db' = set_lessonPlans (lessonPlans db ++ [newPlan]) db
    /\ lessonPlans db' = lessonPlans db ++ [newPlan]
    /\ last (lessonPlans db') = Some newPlan
    /\ p_submittedBy newPlan = submitter
    /\ u_id submitter = 6
    /\ p_teamId newPlan = u_teamId submitter
    /\ (forall teamId,
          post_lesson_plan db (set_d_teamId teamId planDetails) isDraft
                           (Some file) now tSubmitted tHistory
          = post_lesson_plan db planDetails isDraft (Some file) now
                             tSubmitted tHistory)
    /\ (forall sender selectedSchool details draft,
          exists sent,
            handleSaveLessonPlan (Some sender) (Some selectedSchool) None
                                 details (Some file) draft db now tSubmitted
                                 tHistory
            = (set_lessonPlans (lessonPlans db ++ [sent]) db,
               Some (Json 201 sent))
            /\ p_submittedBy sent = submitter
            /\ p_teamId sent = u_teamId submitter).
Proof.
  intros Hs. unfold handleSaveLessonPlan, post_lesson_plan. rewrite Hs.
  eexists. eexists. split; [reflexivity |]. split; [reflexivity |].
  cbn [lessonPlans set_lessonPlans].
  split; [reflexivity |]. split; [apply last_snoc |].
  split; [reflexivity |]. split; [exact (find_Some_holds _ _ _ Hs) |].
  split; [reflexivity |]. split; [reflexivity |].
  intros sender selectedSchool details draft.
  eexists. split; [reflexivity |]. split; reflexivity.
Qed.

Lemma created_plan_witness :
  exists newPlan,
    last (lessonPlans
            (fst (post_lesson_plan (MOCK_DATA 0)
                    {| d_id := None; d_title := js "Bài mới";
                       d_submittedBy := None; d_submittedAt := None;
                       d_status := None; d_history := None;
                       d_comments := None; d_file := None;
                       d_finalApprover := None; d_finalApprovedAt := None;
                       d_subject := Some (js "Toán"); d_grade := None;
                       d_class := None; d_notes := None;
                       d_oneDriveFolder := None; d_teamId := Some 3;
                       d_schoolId := Some (js "THCS-BINHSON") |}
                    (js "false")
                    (Some {| originalname := js "a.pdf";
                             filename := js "1-a.pdf" |})
                    9 9 9)))
    = Some newPlan
    /\ p_teamId newPlan = Some 1.
Proof.
  edestruct (created_plan_belongs_to_the_team_of_its_submitter (MOCK_DATA 0)
              {| d_id := None; d_title := js "Bài mới"; d_submittedBy := None;
                 d_submittedAt := None; d_status := None; d_history := None;
                 d_comments := None; d_file := None; d_finalApprover := None;
                 d_finalApprovedAt := None; d_subject := Some (js "Toán");
                 d_grade := None; d_class := None; d_notes := None;
                 d_oneDriveFolder := None; d_teamId := Some 3;
                 d_schoolId := Some (js "THCS-BINHSON") |}
              (js "false")
              {| originalname := js "a.pdf"; filename := js "1-a.pdf" |}
              9 9 9)
    as (newPlan & db' & Hpost & _ & _ & Hlast & _ & _ & Hteam & _).
  - vm_compute. reflexivity.
  - exists newPlan. rewrite Hpost. cbn [fst]. split; [exact Hlast |].
    rewrite Hteam. vm_compute. reflexivity.
Defined.

(** C10 fails on the code where it names the submitting user.  User 12 of
    the seed data, a teacher of team 3 in the second school, saves a new
    plan; the plan stored names user 6 as its submitter and belongs to
    team 1. *)
Lemma plan_of_a_sender_of_team_3_goes_to_team_1 :
  exists db' plan,
    u_id (mockUser 11) = 12
    /\ u_teamId (mockUser 11) = Some 3
    /\ handleSaveLessonPlan (Some (mockUser 11))
         (Some {| s_id := js "THPT-SONTINH";
                  s_name := js "Trường THPT Sơn Tịnh" |})
         None
         {| ud_title := js "Bài mới"; ud_subject := js "Toán";
            ud_grade := js "Khối 11"; ud_class := js "11A1";
            ud_notes := None; ud_oneDriveFolder := None |}
         (Some {| originalname := js "a.pdf"; filename := js "1-a.pdf" |})
         false (MOCK_DATA 0) 7 8 9
       = (db', Some (Json 201 plan))
    /\ last (lessonPlans db') = Some plan
    /\ u_id (p_submittedBy plan) = 6
    /\ p_teamId plan = Some 1.
Proof.
  eexists. eexists.
  split; [vm_compute; reflexivity |].
  split; [vm_compute; reflexivity |].
  split; [vm_compute; reflexivity |].
  split; [vm_compute; reflexivity |].
  split; vm_compute; reflexivity.
Qed.

(** * Further properties of the endpoints *)

(** ** Reading back what an endpoint stored *)

(** X1: the status endpoint rewrites the plan it found and nothing else: the
    other plans, the users, the teams, the schools and the delegation
    state are as before, the plan keeps its place, its id, its submitter,
    its team, its school and its comments, its earlier history is kept in
    front of the new entry, and a later request for the same id finds the
    plan just stored. *)
Theorem status_update_rewrites_one_plan
    (db : Db) (id : Z) (newStatus : jsstring) (reason : option jsstring)
    (tFinal tHistory : Z) (planIndex : nat) (plan : LessonPlan) :
  findIndex (fun p => p_id p = id) (lessonPlans db) = Some (planIndex, plan) ->
  exists plan',
    put_lesson_plan_status db id newStatus reason tFinal tHistory
    = (set_lessonPlans (<[planIndex := plan']> (lessonPlans db)) db,
       Json 200 plan')
    /\ (forall db', db' = fst (put_lesson_plan_status db id newStatus reason
                                                    tFinal tHistory) ->
        length (lessonPlans db') = length (lessonPlans db)
        /\ (forall j, j <> planIndex ->
                      lessonPlans db' !! j = lessonPlans db !! j)
        /\ users db' = users db /\ teams db' = teams db
        /\ schools db' = schools db /\ delegation db' = delegation db
        /\ findIndex (fun p => p_id p = id) (lessonPlans db')
           = Some (planIndex, plan'))
    /\ p_id plan' = p_id plan
    /\ p_submittedBy plan' = p_submittedBy plan
    /\ p_teamId plan' = p_teamId plan
    /\ p_schoolId plan' = p_schoolId plan
    /\ p_comments plan' = p_comments plan
    /\ p_history plan `prefix_of` p_history plan'.
Proof.
  intros Hfind.
  destruct (put_status_found db id newStatus reason tFinal tHistory
              planIndex plan Hfind)
    as (plan' & Hput & _ & Hh & _ & _ & Hid & Hteam & Hsch & Hsub & Hcom).
  exists plan'. split; [exact Hput |]. rewrite Hput. cbn [fst].
  split; [| repeat split; try assumption;
            rewrite Hh; apply prefix_app_r; reflexivity].
  intros db' ->. cbn [lessonPlans users teams schools delegation
                      set_lessonPlans].
  split; [apply length_insert |].
  split; [intros j Hj; apply list_lookup_insert_ne; congruence |].
  repeat (split; [reflexivity |]).
  apply (refind_plan _ _ _ plan); assumption.
Qed.

Lemma status_update_rewrites_witness :
  exists plan',
    findIndex (fun p => p_id p = 3)
      (lessonPlans (fst (put_lesson_plan_status (MOCK_DATA 0) 3
                           Status.APPROVED None 1 2)))
    = Some (2%nat, plan')
    /\ p_teamId plan' = Some 1.
Proof.
  edestruct (status_update_rewrites_one_plan (MOCK_DATA 0) 3 Status.APPROVED
               None 1 2)
    as (plan' & _ & Hdb & _ & _ & Hteam & _).
  - vm_compute. reflexivity.
  - exists plan'. split; [apply (Hdb _ eq_refl) |].
    rewrite Hteam. vm_compute. reflexivity.
Defined.

(** X2: status requests compose without any memory of the earlier ones: a
    second request for the same id is applied to the plan the first one
    stored, so the history ends with the two new entries in the order of
    the requests, and the status is the one requested last, also when
    both requests ask for the same status. *)
Theorem status_requests_append_in_order
    (db : Db) (id : Z) (status1 status2 : jsstring)
    (reason1 reason2 : option jsstring) (tF1 tH1 tF2 tH2 : Z)
    (planIndex : nat) (plan : LessonPlan) :
  findIndex (fun p => p_id p = id) (lessonPlans db) = Some (planIndex, plan) ->
  exists db1 plan1 plan2 entry1 entry2,
    put_lesson_plan_status db id status1 reason1 tF1 tH1
    = (db1, Json 200 plan1)
    /\ put_lesson_plan_status db1 id status2 reason2 tF2 tH2
       = (set_lessonPlans (<[planIndex := plan2]> (lessonPlans db)) db,
          Json 200 plan2)
    /\ p_status plan2 = status2
    /\ p_history plan2 = p_history plan ++ [entry1; entry2]
    /\ h_timestamp entry1 = tH1 /\ h_reason entry1 = reasonProperty reason1
    /\ h_timestamp entry2 = tH2 /\ h_reason entry2 = reasonProperty reason2.
Proof.
  intros Hfind.
  destruct (put_status_found db id status1 reason1 tF1 tH1 planIndex plan
              Hfind) as (plan1 & Hput1 & _ & Hh1 & _ & _ & Hid1 & _).
  pose proof (refind_plan _ _ _ _ plan1 Hfind Hid1) as Hfind1.
  destruct (put_status_found
              (set_lessonPlans (<[planIndex := plan1]> (lessonPlans db)) db)
              id status2 reason2 tF2 tH2 planIndex plan1 Hfind1)
    as (plan2 & Hput2 & Hs2 & Hh2 & _).
  eexists _, plan1, plan2, _, _. split; [exact Hput1 |].
  split.
  - rewrite Hput2. cbn [lessonPlans set_lessonPlans].
    rewrite list_insert_insert_eq. reflexivity.
  - split; [exact Hs2 |]. rewrite Hh2, Hh1, <- app_assoc.
    split; [reflexivity |]. repeat split; reflexivity.
Qed.

Lemma status_requests_append_witness :
  exists plan2,
    snd (put_lesson_plan_status
           (fst (put_lesson_plan_status (MOCK_DATA 0) 1
                   Status.APPROVED_BY_TL None 1 2))
           1 Status.APPROVED_BY_TL None 3 4)
    = Json 200 plan2
    /\ length (p_history plan2) = 3%nat.
Proof.
  edestruct (status_requests_append_in_order (MOCK_DATA 0) 1
               Status.APPROVED_BY_TL Status.APPROVED_BY_TL None None 1 2 3 4)
    as (db1 & plan1 & plan2 & e1 & e2 & H1 & H2 & _ & Hh & _).
  - vm_compute. reflexivity.
  - exists plan2. rewrite H1. cbn [fst]. rewrite H2. split; [reflexivity |].
    rewrite Hh. vm_compute. reflexivity.
Defined.

(** ** Comments: what the endpoint leaves alone, and the client's text *)

(** X3: a comment that is accepted changes one plan only, and of that plan the
    comments only: status, history and final approver are as before, the
    earlier comments are kept in front of the new one, and every other
    plan, the users and the teams are untouched.  A request that is
    answered with a message changes nothing. *)
Theorem comment_changes_the_comments_of_one_plan
    (db : Db) (id : Z) (text : option jsstring) (now tComment : Z) :
  match post_lesson_plan_comment db id text now tComment with
  | (db', Message code message) => db' = db
  | (db', Json code plan') =>
    code = 200
    /\ exists planIndex plan,
        findIndex (fun p => p_id p = id) (lessonPlans db)
        = Some (planIndex, plan)
        /\ lessonPlans db' = <[planIndex := plan']> (lessonPlans db)
        /\ findIndex (fun p => p_id p = id) (lessonPlans db')
           = Some (planIndex, plan')
        /\ users db' = users db /\ teams db' = teams db
        /\ delegation db' = delegation db
        /\ p_status plan' = p_status plan
        /\ p_history plan' = p_history plan
        /\ p_finalApprover plan' = p_finalApprover plan
        /\ exists comments',
            p_comments plan' = Some comments'
            /\ default [] (p_comments plan) `prefix_of` comments'
            /\ length comments' = S (length (default [] (p_comments plan)))
  end.
Proof.
  unfold post_lesson_plan_comment.
  destruct (mockCurrentUser db) as [currentUser |]; [| reflexivity].
  destruct text as [s |]; [| reflexivity].
  destruct (negb (truthy s) || bool_decide (trim s = [])); [reflexivity |].
  destruct (findIndex (fun p => p_id p = id) (lessonPlans db))
    as [[planIndex plan] |] eqn:Hfind; [| reflexivity].
  split; [reflexivity |].
  exists planIndex, plan. split; [reflexivity |].
  split; [reflexivity |]. split.
  - cbn [lessonPlans set_lessonPlans].
    apply (refind_plan _ _ _ plan); [exact Hfind | reflexivity].
  - repeat (split; [reflexivity |]). eexists. split; [reflexivity |].
    split; [apply prefix_app_r; reflexivity |].
    rewrite length_app. cbn. lia.
Qed.






(** ** Team roles: what an assignment does to the users *)

Lemma list_find_insert_other {A} (P : A -> Prop) `{forall x, Decision (P x)}
    (l : list A) (i : nat) (x y : A) :
  l !! i = Some x -> ~ P x -> ~ P y ->
  list_find P (<[i := y]> l) = list_find P l.
Proof.
  intros Hl Hx Hy.
  assert (Hi : (i < length l)%nat) by (apply lookup_lt_Some in Hl; exact Hl).
  destruct (list_find P l) as [[j z] |] eqn:Hf.
  - apply list_find_Some in Hf. destruct Hf as (Hj & Hz & Hmin).
    apply list_find_Some.
    assert (Hne : j <> i) by (intros ->; congruence).
    split; [rewrite list_lookup_insert_ne by congruence; exact Hj |].
    split; [exact Hz |]. intros j' z' Hj' Hlt.
    destruct (decide (j' = i)) as [-> | Hn].
    + rewrite list_lookup_insert_eq in Hj' by exact Hi. congruence.
    + rewrite list_lookup_insert_ne in Hj' by congruence.
      exact (Hmin j' z' Hj' Hlt).
  - apply list_find_None in Hf. apply list_find_None.
    apply Forall_forall. intros z Hz.
    apply list_elem_of_lookup in Hz. destruct Hz as [j Hj].
    destruct (decide (j = i)) as [-> | Hn].
    + rewrite list_lookup_insert_eq in Hj by exact Hi. congruence.
    + rewrite list_lookup_insert_ne in Hj by congruence.
      rewrite Forall_forall in Hf. apply Hf.
      apply list_elem_of_lookup. exists j. exact Hj.
Qed.

(** Looking a user up by id after the role of the user found for [k0] has
    been rewritten. *)
Lemma find_after_set_role (users : list User) (i : nat) (u : User)
    (r : jsstring) (k0 k : Z) :
  findIndex (fun u => u_id u = k0) users = Some (i, u) ->
  find (fun u => u_id u = k) (<[i := set_role r u]> users)
  = if bool_decide (k = k0) then Some (set_role r u)
    else find (fun u => u_id u = k) users.
Proof.
  intros Hf. destruct (findIndex_lookup _ _ _ _ Hf) as [Hl Hid].
  unfold find. case_bool_decide as Hk.
  - subst k.
    assert (Hf' : findIndex (fun u => u_id u = k0) (<[i := set_role r u]> users)
                  = Some (i, set_role r u))
      by (apply (findIndex_insert_found _ _ _ u); assumption).
    unfold findIndex in Hf'. rewrite Hf'. reflexivity.
  - rewrite (list_find_insert_other _ _ _ u); [reflexivity | exact Hl | |];
      cbn; congruence.
Qed.

(** One role assignment [users[findIndex(id === k0)].role = r], when the
    user exists. *)
Lemma role_step (us : list User) (k0 : Z) (r : jsstring) :
  let us' := match findIndex (fun u => u_id u = k0) us with
             | Some (i, u) => <[i := set_role r u]> us
             | None => us
             end in
  length us' = length us
  /\ (forall k,
        find (fun u => u_id u = k) us'
        = (fun u => if bool_decide (k = k0) then set_role r u else u)
            <$> find (fun u => u_id u = k) us)
  /\ (forall k, k <> k0 ->
        findIndex (fun u => u_id u = k) us'
        = findIndex (fun u => u_id u = k) us).
Proof.
  destruct (findIndex (fun u => u_id u = k0) us) as [[i u] |] eqn:Hf; cbn zeta.
  - split; [apply length_insert |]. split.
    + intros k. rewrite (find_after_set_role us i u r k0 k Hf).
      case_bool_decide as Hk.
      * subst k. unfold find. unfold findIndex in Hf. rewrite Hf. reflexivity.
      * destruct (find (fun u0 => u_id u0 = k) us); reflexivity.
    + intros k Hk. destruct (findIndex_lookup _ _ _ _ Hf) as [Hl Hid].
      unfold findIndex.
      apply (list_find_insert_other _ _ _ u); [exact Hl | |]; cbn; congruence.
  - split; [reflexivity |]. split; [| reflexivity].
    intros k. case_bool_decide as Hk.
    + subst k. unfold find. unfold findIndex in Hf. rewrite Hf. reflexivity.
    + destruct (find (fun u0 => u_id u0 = k) us); reflexivity.
Qed.

(** A plan none of whose places is shared shows what it held. *)
Lemma shown_plan_alone users link p :
  (forall slot, link slot = None) -> shown_plan users link p = p.
Proof.
  intros Hnone. destruct p as [pid title by_ at_ status history comments file
                               approver approvedAt subject grade class notes
                               folder teamId schoolId].
  unfold shown_plan.
  cbn [p_id p_title p_submittedBy p_submittedAt p_status p_history p_comments
       p_file p_finalApprover p_finalApprovedAt p_subject p_grade p_class
       p_notes p_oneDriveFolder p_teamId p_schoolId].
  rewrite !Hnone. cbn [shown].
  assert (Hhistory :
            imap (fun i h =>
                    {| h_action := h_action h;
                       h_user := shown users (link (slot_history i))
                                   <$> h_user h;
                       h_timestamp := h_timestamp h;
                       h_reason := h_reason h |}) history
            = history).
  { apply list_eq. intros i. rewrite list_lookup_imap.
    destruct (history !! i) as [[action [u |] time reason] |];
      cbn; rewrite ?Hnone; reflexivity. }
  assert (Hcomments :
            imap (fun i c =>
                    {| c_id := c_id c;
                       c_user := shown users (link (slot_comment i))
                                   (c_user c);
                       c_timestamp := c_timestamp c; c_text := c_text c |})
              <$> comments
            = comments).
  { destruct comments as [cs |]; [| reflexivity]. cbn. f_equal.
    apply list_eq. intros i. rewrite list_lookup_imap.
    destruct (cs !! i) as [[cid u time text] |];
      cbn; rewrite ?Hnone; reflexivity. }
  rewrite Hhistory, Hcomments.
  destruct approver; reflexivity.
Qed.

(** The sharing table of the seed data agrees with the seed data: every
    place it links holds the user it is linked to. *)
Lemma MOCK_SHARING_consistent :
  imap (fun k => shown_plan (users (MOCK_DATA 0)) (MOCK_SHARING k))
       (lessonPlans (MOCK_DATA 0))
  = lessonPlans (MOCK_DATA 0).
Proof. vm_compute. reflexivity. Qed.

(** The whole effect of an assignment on the database: the team found is
    replaced by the team with the slot rewritten, a user looked up by id
    afterwards is the user found before with, at most, another role, and
    the lesson plans show the users stored wherever they share them. *)
Lemma assign_role_effect
    (sharing : Sharing) (db : Db) (id : Z) (roleType : jsstring)
    (userId : option Z) (teamIndex : nat) (team : Team) :
  findIndex (fun t => t_id t = id) (teams db) = Some (teamIndex, team) ->
  exists team' updatedUsers db',
    post_team_assign_role sharing db id roleType userId
    = (db', Json 200 (team', updatedUsers))
    /\ team' = (if bool_decide (roleType = js "leader")
                then set_leaderId (orUndefined userId) team
                else set_deputyLeaderId (orUndefined userId) team)
    /\ teams db' = <[teamIndex := team']> (teams db)
    /\ lessonPlans db'
       = imap (fun k => shown_plan (users db') (sharing k)) (lessonPlans db)
    /\ schools db' = schools db
    /\ delegation db' = delegation db
    /\ length (users db') = length (users db)
    /\ (forall k,
          find (fun u => u_id u = k) (users db')
          = (fun u =>
               if bool_decide (orUndefined userId = Some k) then
                 set_role (if bool_decide (roleType = js "leader")
                           then Role.TEAM_LEADER
                           else Role.DEPUTY_TEAM_LEADER) u
               else if bool_decide
                         ((if bool_decide (roleType = js "leader")
                           then t_leaderId team
                           else t_deputyLeaderId team) = Some k)
                       && truthyNum k
                       && negb (bool_decide (userId = Some k))
               then set_role Role.TEACHER u
               else u)
            <$> find (fun u => u_id u = k) (users db)).
Proof.
  intros Hfind. unfold post_team_assign_role. rewrite Hfind.
  set (leader := bool_decide (roleType = js "leader")).
  set (newRole := if leader then Role.TEAM_LEADER
                  else Role.DEPUTY_TEAM_LEADER).
  set (previous := if leader then t_leaderId team else t_deputyLeaderId team).
  (* the demotion *)
  assert (Hdemote :
    exists users1 updated1,
      match previous with
      | Some d =>
        if truthyNum d && negb (bool_decide (Some d = userId)) then
          match findIndex (fun u => u_id u = d) (users db) with
          | Some (oldLeaderIndex, u) =>
            (<[oldLeaderIndex := set_role Role.TEACHER u]> (users db),
             [oldLeaderIndex])
          | None => (users db, [])
          end
        else (users db, [])
      | None => (users db, [])
      end = (users1, updated1)
      /\ length users1 = length (users db)
      /\ (forall k,
            find (fun u => u_id u = k) users1
            = (fun u => if bool_decide (previous = Some k) && truthyNum k
                           && negb (bool_decide (userId = Some k))
                        then set_role Role.TEACHER u else u)
                <$> find (fun u => u_id u = k) (users db))
      /\ (forall k, orUndefined userId = Some k ->
            findIndex (fun u => u_id u = k) users1
            = findIndex (fun u => u_id u = k) (users db))).
  { assert (Hfmap : forall (b : bool) k,
              b = false ->
              find (fun u => u_id u = k) (users db)
              = (fun u => if b then set_role Role.TEACHER u else u)
                  <$> find (fun u => u_id u = k) (users db)).
    { intros b k Hb. rewrite Hb.
      destruct (find (fun u => u_id u = k) (users db)); reflexivity. }
    destruct previous as [d |].
    2:{ exists (users db), []. split; [reflexivity |].
        split; [reflexivity |]. split; [| reflexivity].
        intros k.
        apply Hfmap.
        rewrite bool_decide_eq_false_2 by discriminate. reflexivity. }
    destruct (truthyNum d && negb (bool_decide (Some d = userId))) eqn:Hc.
    2:{ exists (users db), []. split; [reflexivity |].
        split; [reflexivity |]. split; [| reflexivity].
        intros k.
        apply Hfmap.
        destruct (decide (d = k)) as [<- | Hk].
        - rewrite bool_decide_eq_true_2 by reflexivity.
          rewrite (bool_decide_ext (userId = Some d) (Some d = userId))
            by (split; congruence).
          exact Hc.
        - rewrite bool_decide_eq_false_2 by congruence. reflexivity. }
    apply Bool.andb_true_iff in Hc. destruct Hc as [Hd Hne].
    apply Bool.negb_true_iff, bool_decide_eq_false in Hne.
    destruct (role_step (users db) d Role.TEACHER) as (Hlen & Hfnd & Hidx).
    assert (Hrole : forall k,
              (fun u => if bool_decide (k = d) then set_role Role.TEACHER u
                        else u)
                <$> find (fun u => u_id u = k) (users db)
              = (fun u => if bool_decide (Some d = Some k) && truthyNum k
                             && negb (bool_decide (userId = Some k))
                          then set_role Role.TEACHER u else u)
                  <$> find (fun u => u_id u = k) (users db)).
    { intros k. destruct (decide (k = d)) as [-> | Hk].
      - rewrite !bool_decide_eq_true_2 by reflexivity. rewrite Hd.
        rewrite (bool_decide_eq_false_2 (userId = Some d)) by congruence.
        reflexivity.
      - rewrite (bool_decide_eq_false_2 (k = d)) by exact Hk.
        rewrite (bool_decide_eq_false_2 (Some d = Some k)) by congruence.
        reflexivity. }
    assert (Hkeep : forall k, orUndefined userId = Some k -> k <> d).
    { intros k Hk ->. apply orUndefined_Some in Hk.
      destruct Hk as [Hk _]. congruence. }
    destruct (findIndex (fun u => u_id u = d) (users db)) as [[i u] |];
      eexists; eexists; (split; [reflexivity |]);
      (split; [exact Hlen |]); split.
    - intros k. etransitivity; [apply Hfnd | apply Hrole].
    - intros k Hk. apply Hidx, Hkeep, Hk.
    - intros k. etransitivity; [apply Hfnd | apply Hrole].
    - intros k Hk. apply Hidx, Hkeep, Hk. }
  destruct Hdemote as (users1 & updated1 & -> & Hlen1 & Hfind1 & Hidx1).
  (* the promotion *)
  assert (Hcompose : forall k n,
    orUndefined userId = Some n ->
    (fun u => if bool_decide (k = n) then set_role newRole u else u)
      <$> ((fun u => if bool_decide (previous = Some k) && truthyNum k
                        && negb (bool_decide (userId = Some k))
                     then set_role Role.TEACHER u else u)
             <$> find (fun u => u_id u = k) (users db))
    = (fun u => if bool_decide (Some n = Some k) then set_role newRole u
                else if bool_decide (previous = Some k) && truthyNum k
                        && negb (bool_decide (userId = Some k))
                then set_role Role.TEACHER u else u)
        <$> find (fun u => u_id u = k) (users db)).
  { intros k n Hn. apply orUndefined_Some in Hn. destruct Hn as [-> _].
    destruct (find (fun u => u_id u = k) (users db)) as [uk |];
      [| reflexivity].
    cbn [fmap option_fmap option_map].
    destruct (decide (k = n)) as [-> | Hk].
    - rewrite (bool_decide_eq_true_2 (n = n)) by reflexivity.
      rewrite (bool_decide_eq_true_2 (Some n = Some n)) by reflexivity.
      destruct (bool_decide (previous = Some n) && truthyNum n && negb true);
        reflexivity.
    - rewrite (bool_decide_eq_false_2 (k = n)) by exact Hk.
      rewrite (bool_decide_eq_false_2 (Some n = Some k)) by congruence.
      reflexivity. }
  destruct (orUndefined userId) as [n |] eqn:Hn.
  - destruct (role_step users1 n newRole) as (Hlen2 & Hfind2 & _).
    destruct (findIndex (fun u => u_id u = n) users1) as [[j u] |] eqn:Hj;
      eexists; eexists; eexists; (split; [reflexivity |]);
      cbn [lessonPlans schools delegation users teams];
      repeat (split; [reflexivity |]);
      (split; [first [rewrite length_insert; exact Hlen1 | exact Hlen1] |]);
      intros k; rewrite Hfind2, Hfind1; apply Hcompose; reflexivity.
  - eexists; eexists; eexists; (split; [reflexivity |]).
    cbn [lessonPlans schools delegation users teams].
    repeat (split; [reflexivity |]). split; [exact Hlen1 |].
    intros k. rewrite Hfind1.
    rewrite (bool_decide_eq_false_2 (None = Some k)) by discriminate.
    reflexivity.
Qed.

(** X5: an assignment writes roles and nothing else.  No user is added,
    removed or moved, the schools and the delegation state are untouched,
    and a user looked up by id afterwards is the user found before with,
    at most, another role: the role of the slot for the user assigned, the
    teacher role for the previous holder of the slot when another user, or
    nobody, takes it, and the same role for everyone else.  The lesson
    plans keep their number, order and own fields; a place of a plan that
    shares a user of the database shows that user as stored afterwards,
    and where no place is shared the lesson plans are unchanged. *)
Theorem assign_role_moves_the_roles
    (sharing : Sharing) (db : Db) (id : Z) (roleType : jsstring)
    (userId : option Z) (teamIndex : nat) (team : Team) :
  findIndex (fun t => t_id t = id) (teams db) = Some (teamIndex, team) ->
  exists team' updatedUsers db',
    post_team_assign_role sharing db id roleType userId
    = (db', Json 200 (team', updatedUsers))
    /\ schools db' = schools db
    /\ delegation db' = delegation db
    /\ length (users db') = length (users db)
    /\ (forall k,
          find (fun u => u_id u = k) (users db')
          = (fun u =>
               if bool_decide (orUndefined userId = Some k) then
                 set_role (if bool_decide (roleType = js "leader")
                           then Role.TEAM_LEADER
                           else Role.DEPUTY_TEAM_LEADER) u
               else if bool_decide
                         ((if bool_decide (roleType = js "leader")
                           then t_leaderId team
                           else t_deputyLeaderId team) = Some k)
                       && truthyNum k
                       && negb (bool_decide (userId = Some k))
               then set_role Role.TEACHER u
               else u)
            <$> find (fun u => u_id u = k) (users db))
    /\ length (lessonPlans db') = length (lessonPlans db)
    /\ (forall k plan,
          lessonPlans db !! k = Some plan ->
          exists plan',
            lessonPlans db' !! k = Some plan'
            /\ p_id plan' = p_id plan
            /\ p_title plan' = p_title plan
            /\ p_status plan' = p_status plan
            /\ p_teamId plan' = p_teamId plan
            /\ p_schoolId plan' = p_schoolId plan
            /\ p_file plan' = p_file plan
            /\ length (p_history plan') = length (p_history plan)
            /\ p_submittedBy plan'
               = match sharing k slot_submittedBy with
                 | Some i => default (p_submittedBy plan) (users db' !! i)
                 | None => p_submittedBy plan
                 end
            /\ p_finalApprover plan'
               = (fun u => match sharing k slot_finalApprover with
                           | Some i => default u (users db' !! i)
                           | None => u
                           end) <$> p_finalApprover plan
            /\ (forall i entry,
                  p_history plan !! i = Some entry ->
                  exists entry',
                    p_history plan' !! i = Some entry'
                    /\ h_action entry' = h_action entry
                    /\ h_timestamp entry' = h_timestamp entry
                    /\ h_reason entry' = h_reason entry
                    /\ h_user entry'
                       = (fun u => match sharing k (slot_history i) with
                                   | Some j => default u (users db' !! j)
                                   | None => u
                                   end) <$> h_user entry)
            /\ (forall comments i comment,
                  p_comments plan = Some comments ->
                  comments !! i = Some comment ->
                  exists comments' comment',
                    p_comments plan' = Some comments'
                    /\ length comments' = length comments
                    /\ comments' !! i = Some comment'
                    /\ c_id comment' = c_id comment
                    /\ c_timestamp comment' = c_timestamp comment
                    /\ c_text comment' = c_text comment
                    /\ c_user comment'
                       = match sharing k (slot_comment i) with
                         | Some j => default (c_user comment) (users db' !! j)
                         | None => c_user comment
                         end))
    /\ ((forall k slot, sharing k slot = None) ->
        lessonPlans db' = lessonPlans db).
Proof.
  intros Hfind.
  destruct (assign_role_effect sharing db id roleType userId teamIndex team
              Hfind)
    as (team' & updatedUsers & db' & Hpost & _ & _ & Hplans & Hschools
        & Hdelegation & Hlength & Hroles).
  exists team', updatedUsers, db'.
  split; [exact Hpost |]. split; [exact Hschools |].
  split; [exact Hdelegation |]. split; [exact Hlength |].
  split; [exact Hroles |]. rewrite Hplans.
  split; [apply length_imap |]. split.
  - intros k plan Hk. exists (shown_plan (users db') (sharing k) plan).
    split; [rewrite list_lookup_imap, Hk; reflexivity |].
    repeat (split; [reflexivity |]).
    split; [apply length_imap |]. split; [reflexivity |].
    split; [reflexivity |]. split.
    + intros i entry Hi. eexists.
      split; [cbn [p_history shown_plan]; rewrite list_lookup_imap, Hi;
              reflexivity |].
      repeat split; reflexivity.
    + intros comments i comment Hcs Hi. eexists. eexists.
      cbn [p_comments shown_plan]. rewrite Hcs.
      cbn [fmap option_fmap option_map].
      split; [reflexivity |]. split; [apply length_imap |].
      split; [rewrite list_lookup_imap, Hi; reflexivity |].
      repeat split; reflexivity.
  - intros Hnone. apply list_eq. intros k. rewrite list_lookup_imap.
    destruct (lessonPlans db !! k) as [plan |]; [| reflexivity].
    cbn. rewrite shown_plan_alone by (intros slot; apply Hnone).
    reflexivity.
Qed.

Lemma assign_role_moves_witness :
  exists db',
    fst (post_team_assign_role MOCK_SHARING (MOCK_DATA 0) 1 (js "leader")
                               (Some 7)) = db'
    /\ (u_role <$> find (fun u => u_id u = 4) (users db')) = Some Role.TEACHER
    /\ (u_role <$> find (fun u => u_id u = 7) (users db'))
       = Some Role.TEAM_LEADER
    /\ (u_role <$> (p_submittedBy <$> lessonPlans db' !! 2%nat))
       = Some Role.TEAM_LEADER.
Proof.
  edestruct (assign_role_moves_the_roles MOCK_SHARING (MOCK_DATA 0) 1
               (js "leader") (Some 7))
    as (team' & updatedUsers & db' & Hpost & _ & _ & _ & Hroles & _ & Hplans
        & _).
  - vm_compute. reflexivity.
  - exists db'. rewrite Hpost. split; [reflexivity |].
    rewrite !Hroles. split; [vm_compute; reflexivity |].
    split; [vm_compute; reflexivity |].
    edestruct (Hplans 2%nat) as (plan' & Hk & _ & _ & _ & _ & _ & _ & _ & Hby
                                 & _ & _ & _);
      [vm_compute; reflexivity |].
    rewrite Hk. cbn [fmap option_fmap option_map]. rewrite Hby.
    assert (Hdb : db' = fst (post_team_assign_role MOCK_SHARING (MOCK_DATA 0)
                               1 (js "leader") (Some 7)))
      by (rewrite Hpost; reflexivity).
    rewrite Hdb. vm_compute. reflexivity.
Defined.

(** ** Deleting a school *)

Lemma filter_idempotent {A} (P : A -> Prop) `{forall x, Decision (P x)}
    (l : list A) :
  filter P (filter P l) = filter P l.
Proof.
  induction l as [| x l IH]; [reflexivity |].
  rewrite filter_cons. destruct (decide (P x)) as [Hx | Hx].
  - rewrite filter_cons, decide_True by exact Hx. f_equal. exact IH.
  - exact IH.
Qed.

(** X6: deleting a school removes the school with every user, team and lesson
    plan that carries its id, keeps everything else in its order, and
    leaves the delegation state alone; users without a school, such as the
    global admin, are never removed, and deleting again changes nothing. *)
Theorem delete_school_cascades (db : Db) (id : jsstring) :
  match delete_school db id with
  | (db', code) =>
    code = 204
    /\ (forall s, s ∈ schools db' <-> s ∈ schools db /\ s_id s <> id)
    /\ (forall u, u ∈ users db' <-> u ∈ users db /\ u_schoolId u <> Some id)
    /\ (forall t, t ∈ teams db' <-> t ∈ teams db /\ t_schoolId t <> Some id)
    /\ (forall p, p ∈ lessonPlans db'
                  <-> p ∈ lessonPlans db /\ p_schoolId p <> Some id)
    /\ users db' `sublist_of` users db
    /\ teams db' `sublist_of` teams db
    /\ lessonPlans db' `sublist_of` lessonPlans db
    /\ (forall u, u ∈ users db -> u_schoolId u = None -> u ∈ users db')
    /\ delegation db' = delegation db
    /\ delete_school db' id = (db', 204)
  end.
Proof.
  unfold delete_school.
  cbn [schools users teams lessonPlans delegation].
  split; [reflexivity |].
  split; [intros s; rewrite list_elem_of_filter; tauto |].
  split; [intros u; rewrite list_elem_of_filter; tauto |].
  split; [intros t; rewrite list_elem_of_filter; tauto |].
  split; [intros p; rewrite list_elem_of_filter; tauto |].
  split; [apply sublist_filter |].
  split; [apply sublist_filter |].
  split; [apply sublist_filter |].
  split.
  - intros u Hu Hn. apply list_elem_of_filter. split; [| exact Hu].
    rewrite Hn. discriminate.
  - split; [reflexivity |]. rewrite !filter_idempotent. reflexivity.
Qed.

(** * Further properties of the client *)

(** ** What a card offers *)

Lemma canApproveTeam_role currentUser plan dg :
  canApproveTeam currentUser plan dg = true ->
  u_role currentUser = Role.TEAM_LEADER
  \/ u_role currentUser = Role.DEPUTY_TEAM_LEADER.
Proof.
  intros H. apply canApproveTeam_rule in H.
  destruct H as [[H _] | [H _]]; [left | right]; exact H.
Qed.

Lemma canApprovePrincipal_role currentUser dg :
  canApprovePrincipal currentUser dg = true ->
  u_role currentUser = Role.PRINCIPAL
  \/ u_role currentUser = Role.VICE_PRINCIPAL.
Proof.
  unfold canApprovePrincipal.
  rewrite Bool.orb_true_iff, Bool.andb_true_iff, !bool_decide_eq_true.
  intros [H | [H _]]; [left | right]; exact H.
Qed.

(** X7: a card shows the buttons of an approver or the buttons of the owner,
    never both; on an issued plan it shows neither, and on a draft or a
    rejected plan no approver is offered anything. *)
Theorem card_offers_one_kind_of_action
    (currentUser : User) (plan : LessonPlan) (dg : DelegationState) :
  (renderApprovalActions currentUser plan dg = []
   \/ renderTeacherActions currentUser plan = [])
  /\ (p_status plan = Status.ISSUED ->
      renderApprovalActions currentUser plan dg = []
      /\ renderTeacherActions currentUser plan = [])
  /\ (p_status plan = Status.DRAFT
      \/ p_status plan = Status.REJECTED_BY_TL
      \/ p_status plan = Status.REJECTED_BY_VP ->
      renderApprovalActions currentUser plan dg = []).
Proof.
  assert (Hquiet : forall s,
            p_status plan = s ->
            s <> Status.SUBMITTED -> s <> Status.APPROVED_BY_TL ->
            s <> Status.APPROVED ->
            renderApprovalActions currentUser plan dg = []).
  { intros s Hs H1 H2 H3. unfold renderApprovalActions. rewrite Hs.
    rewrite (bool_decide_eq_false_2 (s = Status.SUBMITTED)) by exact H1.
    rewrite (bool_decide_eq_false_2 (s = Status.APPROVED_BY_TL)) by exact H2.
    rewrite (bool_decide_eq_false_2 (s = Status.APPROVED)) by exact H3.
    rewrite !Bool.andb_false_r. destruct (bool_decide _); reflexivity. }
  split; [| split].
  - unfold renderApprovalActions, renderTeacherActions.
    destruct (bool_decide (u_role currentUser = Role.TEACHER));
      [left | right]; reflexivity.
  - intros Hs. split.
    + apply (Hquiet _ Hs); js_distinct.
    + unfold renderTeacherActions. rewrite Hs. js_tests.
      destruct (negb _ || negb _); reflexivity.
  - intros [Hs | [Hs | Hs]]; apply (Hquiet _ Hs); js_distinct.
Qed.

Lemma card_offers_witness :
  renderApprovalActions (mockUser 1)
    (mkPlan 4 "" (mockUser 8) 0 Status.ISSUED 2 "" "" "" "" None None [] [] "")
    MOCK_DELEGATION = []
  /\ renderTeacherActions (mockUser 8)
       (mkPlan 4 "" (mockUser 8) 0 Status.ISSUED 2 "" "" "" "" None None
               [] [] "") = [].
Proof.
  split.
  - refine (proj1 (proj1 (proj2 (card_offers_one_kind_of_action (mockUser 1)
                   (mkPlan 4 "" (mockUser 8) 0 Status.ISSUED 2 "" "" "" ""
                           None None [] [] "") MOCK_DELEGATION)) _)).
    reflexivity.
  - refine (proj2 (proj1 (proj2 (card_offers_one_kind_of_action (mockUser 8)
                   (mkPlan 4 "" (mockUser 8) 0 Status.ISSUED 2 "" "" "" ""
                           None None [] [] "") MOCK_DELEGATION)) _)).
    reflexivity.
Defined.

Lemma render_APPROVED currentUser plan dg :
  p_status plan = Status.APPROVED ->
  renderApprovalActions currentUser plan dg
  = if negb (bool_decide (u_role currentUser = Role.TEACHER))
       && canApprovePrincipal currentUser dg
    then [cancel] else [].
Proof.
  intros Hs. unfold renderApprovalActions. rewrite Hs. js_tests.
  destruct (bool_decide (u_role currentUser = Role.TEACHER));
    [reflexivity |].
  rewrite !Bool.andb_false_r, Bool.andb_true_r. reflexivity.
Qed.

Lemma render_other_status currentUser plan dg :
  p_status plan <> Status.SUBMITTED ->
  p_status plan <> Status.APPROVED_BY_TL ->
  p_status plan <> Status.APPROVED ->
  renderApprovalActions currentUser plan dg = [].
Proof.
  intros H1 H2 H3. unfold renderApprovalActions.
  rewrite (bool_decide_eq_false_2 (p_status plan = Status.SUBMITTED))
    by exact H1.
  rewrite (bool_decide_eq_false_2 (p_status plan = Status.APPROVED_BY_TL))
    by exact H2.
  rewrite (bool_decide_eq_false_2 (p_status plan = Status.APPROVED))
    by exact H3.
  rewrite !Bool.andb_false_r. destruct (bool_decide _); reflexivity.
Qed.

(** X8: whatever button of an approver is clicked and confirmed, the request
    sent is for the plan of the card, carries the reason typed, and asks
    for one of six moves: submitted to approved by the team or rejected by
    the team, approved by the team back to submitted, approved by the team
    to approved or rejected by the institution, approved back to approved
    by the team.  A reject is never sent with a blank reason. *)
Theorem approval_buttons_send_one_of_six_moves
    (currentUser : User) (plan : LessonPlan) (dg : DelegationState)
    (actionType : ActionType) (reason reason' : option jsstring)
    (planId : Z) (newStatus : jsstring) :
  actionType ∈ renderApprovalActions currentUser plan dg ->
  handleConfirmAction actionType plan currentUser reason
  = OnAction planId newStatus reason' ->
  planId = p_id plan /\ reason' = reason
  /\ (p_status plan = Status.SUBMITTED
      /\ (newStatus = Status.APPROVED_BY_TL
          \/ newStatus = Status.REJECTED_BY_TL)
      \/ p_status plan = Status.APPROVED_BY_TL
         /\ (newStatus = Status.SUBMITTED \/ newStatus = Status.APPROVED
             \/ newStatus = Status.REJECTED_BY_VP)
      \/ p_status plan = Status.APPROVED
         /\ newStatus = Status.APPROVED_BY_TL)
  /\ (actionType = reject -> reasonBlank reason = false).
Proof.
  intros Hin Hconfirm.
  assert (Hreject : actionType = reject -> reasonBlank reason = false).
  { intros ->. destruct (reasonBlank reason) eqn:Hb; [| reflexivity].
    rewrite (confirm_reject_blank _ _ _ Hb) in Hconfirm. discriminate. }
  destruct (decide (p_status plan = Status.SUBMITTED)) as [Hs | Hn1].
  { rewrite (render_SUBMITTED _ _ _ Hs) in Hin.
    destruct (canApproveTeam currentUser plan dg) eqn:Hteam;
      [| inversion Hin].
    apply canApproveTeam_role in Hteam.
    destruct actionType.
    - rewrite (confirm_approve_SUBMITTED _ _ _ Hs) in Hconfirm.
      injection Hconfirm as <- <- <-.
      repeat split; try assumption. left. split; [exact Hs | left; reflexivity].
    - rewrite (confirm_reject_team _ _ _ Hteam (Hreject eq_refl)) in Hconfirm.
      injection Hconfirm as <- <- <-.
      repeat split; try assumption.
      left. split; [exact Hs | right; reflexivity].
    - buttons. }
  destruct (decide (p_status plan = Status.APPROVED_BY_TL)) as [Hs | Hn2].
  { rewrite (render_APPROVED_BY_TL _ _ _ Hs) in Hin.
    destruct (canApproveTeam currentUser plan dg) eqn:Hteam.
    - destruct actionType; [buttons | buttons |].
      rewrite (confirm_cancel_APPROVED_BY_TL _ _ _ Hs) in Hconfirm.
      injection Hconfirm as <- <- <-.
      repeat split; try assumption.
      right. left. split; [exact Hs | left; reflexivity].
    - destruct (canApprovePrincipal currentUser dg) eqn:Hprin;
        [| inversion Hin].
      apply canApprovePrincipal_role in Hprin.
      destruct actionType.
      + rewrite (confirm_approve_APPROVED_BY_TL _ _ _ Hs) in Hconfirm.
        injection Hconfirm as <- <- <-.
        repeat split; try assumption.
        right. left. split; [exact Hs | right; left; reflexivity].
      + rewrite (confirm_reject_institution _ _ _ Hprin (Hreject eq_refl))
          in Hconfirm.
        injection Hconfirm as <- <- <-.
        repeat split; try assumption.
        right. left. split; [exact Hs | right; right; reflexivity].
      + buttons. }
  destruct (decide (p_status plan = Status.APPROVED)) as [Hs | Hn3].
  { rewrite (render_APPROVED _ _ _ Hs) in Hin.
    destruct (negb _ && _); [| inversion Hin].
    destruct actionType; [buttons | buttons |].
    rewrite (confirm_cancel_APPROVED _ _ _ Hs) in Hconfirm.
    injection Hconfirm as <- <- <-.
    repeat split; try assumption. right. right. split; [exact Hs | reflexivity]. }
  rewrite (render_other_status _ _ _ Hn1 Hn2 Hn3) in Hin. inversion Hin.
Qed.

Lemma approval_buttons_witness :
  let plan := mkPlan 1 "" (mockUser 5) 0 Status.SUBMITTED 1 "" "" "" "" None
                     None [] [] "" in
  1 = p_id plan /\ @None jsstring = None
  /\ (p_status plan = Status.SUBMITTED
      /\ (Status.APPROVED_BY_TL = Status.APPROVED_BY_TL
          \/ Status.APPROVED_BY_TL = Status.REJECTED_BY_TL)
      \/ p_status plan = Status.APPROVED_BY_TL
         /\ (Status.APPROVED_BY_TL = Status.SUBMITTED
             \/ Status.APPROVED_BY_TL = Status.APPROVED
             \/ Status.APPROVED_BY_TL = Status.REJECTED_BY_VP)
      \/ p_status plan = Status.APPROVED
         /\ Status.APPROVED_BY_TL = Status.APPROVED_BY_TL)
  /\ (approve = reject -> reasonBlank None = false).
Proof.
  intros plan.
  refine (approval_buttons_send_one_of_six_moves (mockUser 3) plan
            MOCK_DELEGATION approve None None 1 Status.APPROVED_BY_TL _ _).
  - vm_compute. constructor.
  - vm_compute. reflexivity.
Defined.

(** ** The institution tier *)

(** X9: the institution's buttons follow the principal and the delegation to
    the vice principal: approve and reject on a plan approved by the team,
    and cancel on an approved plan, are rendered exactly when the user is
    the principal, or the vice principal while the principal's delegation
    is on.  The principal's own authority does not depend on the
    delegation state. *)
Theorem institution_tier_guard (actor : User) (document : LessonPlan)
    (dg : DelegationState) :
  (canApprovePrincipal actor dg = true
   <-> u_role actor = Role.PRINCIPAL
       \/ (u_role actor = Role.VICE_PRINCIPAL /\ principalToVp dg = true))
  /\ (p_status document = Status.APPROVED_BY_TL ->
      (approve ∈ renderApprovalActions actor document dg
       <-> canApprovePrincipal actor dg = true)
      /\ (reject ∈ renderApprovalActions actor document dg
          <-> canApprovePrincipal actor dg = true))
  /\ (p_status document = Status.APPROVED ->
      (cancel ∈ renderApprovalActions actor document dg
       <-> canApprovePrincipal actor dg = true))
  /\ (u_role actor = Role.PRINCIPAL ->
      forall dg', canApprovePrincipal actor dg' = true)
  /\ (u_role actor = Role.VICE_PRINCIPAL ->
      canApprovePrincipal actor dg = principalToVp dg).
Proof.
  split; [| split; [| split; [| split]]].
  - unfold canApprovePrincipal.
    rewrite Bool.orb_true_iff, Bool.andb_true_iff, !bool_decide_eq_true.
    reflexivity.
  - intros Hs. rewrite (render_APPROVED_BY_TL _ _ _ Hs).
    destruct (canApproveTeam actor document dg) eqn:Hteam.
    + rewrite (canApproveTeam_not_principal _ _ _ Hteam).
      split; split; intros H; try discriminate; buttons.
    + destruct (canApprovePrincipal actor dg);
        split; split; intros H; try reflexivity; try discriminate; buttons.
  - intros Hs. rewrite (render_APPROVED _ _ _ Hs).
    destruct (canApprovePrincipal actor dg) eqn:Hprin.
    + apply canApprovePrincipal_role in Hprin.
      assert (Hnt : u_role actor <> Role.TEACHER)
        by (destruct Hprin as [-> | ->]; js_distinct).
      rewrite (bool_decide_eq_false_2 _ Hnt).
      split; intros H; [reflexivity | buttons].
    + rewrite Bool.andb_false_r. split; intros H; [buttons | discriminate].
  - intros Hr dg'. unfold canApprovePrincipal. rewrite Hr. js_tests.
    reflexivity.
  - intros Hr. unfold canApprovePrincipal. rewrite Hr. js_tests.
    reflexivity.
Qed.

(** ** The counter of plans waiting for the user *)

Lemma filter_ext_in {A} (P Q : A -> Prop) `{forall x, Decision (P x)}
    `{forall x, Decision (Q x)} (l : list A) :
  (forall x, x ∈ l -> (P x <-> Q x)) -> filter P l = filter Q l.
Proof.
  induction l as [| x l IH]; [reflexivity |]. intros Hext.
  rewrite !filter_cons.
  assert (Hx : P x <-> Q x) by (apply Hext; constructor).
  rewrite IH by (intros y Hy; apply Hext; constructor; exact Hy).
  destruct (decide (P x)) as [HP | HP]; destruct (decide (Q x)) as [HQ | HQ];
    try reflexivity; exfalso; tauto.
Qed.

Lemma filter_none {A} (P : A -> Prop) `{forall x, Decision (P x)}
    (l : list A) :
  (forall x, x ∈ l -> ~ P x) -> filter P l = [].
Proof.
  induction l as [| x l IH]; [reflexivity |]. intros Hn.
  rewrite filter_cons, decide_False by (apply Hn; constructor).
  apply IH. intros y Hy. apply Hn. constructor. exact Hy.
Qed.

Lemma filter_absorb {A} (P Q : A -> Prop) `{forall x, Decision (P x)}
    `{forall x, Decision (Q x)} (l : list A) :
  (forall x, P x -> Q x) -> filter P (filter Q l) = filter P l.
Proof.
  intros Himp. induction l as [| x l IH]; [reflexivity |].
  rewrite (filter_cons Q). destruct (decide (Q x)) as [HQ | HQ].
  - rewrite !filter_cons, IH. reflexivity.
  - rewrite IH, filter_cons, decide_False; [reflexivity |].
    intros HP. apply HQ, Himp, HP.
Qed.

Lemma includes_one (s x : jsstring) : includes [s] x = true <-> x = s.
Proof.
  unfold includes. cbn [existsb]. rewrite Bool.orb_false_r, bool_decide_eq_true.
  split; congruence.
Qed.

(** The approve button is rendered on submitted plans for the team tier
    and on plans approved by the team for the institution tier. *)
Lemma approve_rendered currentUser plan dg :
  approve ∈ renderApprovalActions currentUser plan dg
  <-> (canApproveTeam currentUser plan dg = true
       /\ p_status plan = Status.SUBMITTED)
      \/ (canApprovePrincipal currentUser dg = true
          /\ p_status plan = Status.APPROVED_BY_TL).
Proof.
  assert (Hclash : Status.SUBMITTED <> Status.APPROVED_BY_TL) by js_distinct.
  destruct (decide (p_status plan = Status.SUBMITTED)) as [Hs | Hn1].
  { rewrite (render_SUBMITTED _ _ _ Hs).
    destruct (canApproveTeam currentUser plan dg) eqn:Hteam; split.
    - intros _. left. split; [reflexivity | exact Hs].
    - intros _. buttons.
    - intros H. buttons.
    - intros [[H _] | [_ H]]; [discriminate | congruence]. }
  destruct (decide (p_status plan = Status.APPROVED_BY_TL)) as [Hs | Hn2].
  { rewrite (render_APPROVED_BY_TL _ _ _ Hs).
    destruct (canApproveTeam currentUser plan dg) eqn:Hteam.
    - rewrite (canApproveTeam_not_principal _ _ _ Hteam). split.
      + intros H. buttons.
      + intros [[_ H] | [H _]]; [congruence | discriminate].
    - destruct (canApprovePrincipal currentUser dg); split.
      + intros _. right. split; [reflexivity | exact Hs].
      + intros _. buttons.
      + intros H. buttons.
      + intros [[H _] | [H _]]; discriminate. }
  split.
  - intros H. exfalso.
    destruct (decide (p_status plan = Status.APPROVED)) as [Hs | Hn3].
    + rewrite (render_APPROVED _ _ _ Hs) in H.
      destruct (negb _ && _); buttons.
    + rewrite (render_other_status _ _ _ Hn1 Hn2 Hn3) in H. buttons.
  - intros [[_ H] | [_ H]]; exfalso; [exact (Hn1 H) | exact (Hn2 H)].
Qed.

Lemma waitingForMe_renderStats currentUser lessonPlans dg :
  waitingForMe (renderStats currentUser lessonPlans dg)
  = let role := u_role currentUser in
    let plans :=
      if bool_decide (role = Role.PRINCIPAL) then lessonPlans
      else baseVisiblePlans currentUser lessonPlans in
    if bool_decide (role = Role.TEAM_LEADER)
       || bool_decide (role = Role.DEPUTY_TEAM_LEADER) then
      if bool_decide (role = Role.TEAM_LEADER)
         || (bool_decide (role = Role.DEPUTY_TEAM_LEADER)
             && ownTeamDelegated dg currentUser)
      then countStatus [Status.SUBMITTED] plans else 0%nat
    else if bool_decide (role = Role.PRINCIPAL)
            || bool_decide (role = Role.VICE_PRINCIPAL) then
      if bool_decide (role = Role.PRINCIPAL)
         || (bool_decide (role = Role.VICE_PRINCIPAL)
             && principalToVp dg)
      then countStatus [Status.APPROVED_BY_TL] lessonPlans else 0%nat
    else 0%nat.
Proof.
  unfold renderStats. cbn zeta.
  destruct (negb (bool_decide (u_role currentUser = Role.TEACHER)));
    reflexivity.
Qed.

(** X10: the counter "waiting for you" of the dashboard is the number of plans
    shown to the user on which the approve button is rendered, for every
    role, provided a deputy team leader has a team whose id is not 0 (for
    a deputy without a team, or with team 0, the counter reads the flag
    of the key -1). *)
Theorem waiting_for_me_counts_the_plans_to_approve
    (currentUser : User) (lessonPlans : list LessonPlan)
    (dg : DelegationState) :
  (u_role currentUser = Role.DEPUTY_TEAM_LEADER ->
   exists t, u_teamId currentUser = Some t /\ t <> 0) ->
  waitingForMe (renderStats currentUser lessonPlans dg)
  = length (filter (fun p => approve ∈ renderApprovalActions currentUser p dg)
                   (baseVisiblePlans currentUser lessonPlans)).
Proof.
  intros Hdeputy. rewrite waitingForMe_renderStats. cbn zeta.
  unfold countStatus.
  assert (Hzero : forall l : list LessonPlan,
            (forall p, p ∈ l ->
                       ~ approve ∈ renderApprovalActions currentUser p dg) ->
            0%nat = length (filter
                     (fun p => approve
                               ∈ renderApprovalActions currentUser p dg) l)).
  { intros l Hl. rewrite (filter_none _ l Hl). reflexivity. }
  destruct (decide (u_role currentUser = Role.TEAM_LEADER)) as [Hr | Hn1].
  { (* team leader *)
    assert (Hp : canApprovePrincipal currentUser dg = false)
      by (unfold canApprovePrincipal; rewrite Hr; js_tests; reflexivity).
    unfold baseVisiblePlans. rewrite Hr. js_tests. cbn [orb].
    f_equal. apply filter_ext_in. intros p Hin.
    apply list_elem_of_filter in Hin. destruct Hin as [Hteam _].
    rewrite includes_one, approve_rendered, Hp.
    assert (Ht : canApproveTeam currentUser p dg = true).
    { unfold canApproveTeam. rewrite Hr, Hteam. js_tests. reflexivity. }
    rewrite Ht. split.
    - intros Hs. left. split; [reflexivity | exact Hs].
    - intros [[_ Hs] | [Hf _]]; [exact Hs | discriminate]. }
  destruct (decide (u_role currentUser = Role.DEPUTY_TEAM_LEADER))
    as [Hr | Hn2].
  { (* deputy team leader *)
    destruct (Hdeputy Hr) as (t & Ht & Ht0).
    assert (Hp : canApprovePrincipal currentUser dg = false)
      by (unfold canApprovePrincipal; rewrite Hr; js_tests; reflexivity).
    assert (Hflag : ownTeamDelegated dg currentUser
                    = teamDelegated dg (Some t)).
    { unfold ownTeamDelegated, teamDelegated, truthyNum. rewrite Ht.
      rewrite bool_decide_eq_false_2 by exact Ht0. reflexivity. }
    assert (Hteam : forall p,
              p ∈ baseVisiblePlans currentUser lessonPlans ->
              canApproveTeam currentUser p dg = teamDelegated dg (Some t)).
    { intros p Hin. unfold baseVisiblePlans in Hin. rewrite Hr in Hin.
      revert Hin. js_tests. intros Hin. apply list_elem_of_filter in Hin.
      destruct Hin as [Hpt _]. unfold canApproveTeam.
      rewrite Hr, Hpt, Ht. js_tests. reflexivity. }
    rewrite Hr. js_tests. cbn [orb andb]. rewrite Hflag.
    destruct (teamDelegated dg (Some t)) eqn:Hd.
    - f_equal. apply filter_ext_in. intros p Hin.
      rewrite includes_one, approve_rendered, Hp, (Hteam p Hin). split.
      + intros Hs. left. split; [reflexivity | exact Hs].
      + intros [[_ Hs] | [Hf _]]; [exact Hs | discriminate].
    - apply Hzero. intros p Hin Happ. apply approve_rendered in Happ.
      rewrite Hp, (Hteam p Hin) in Happ.
      destruct Happ as [[Hf _] | [Hf _]]; discriminate. }
  assert (Hnoteam : forall p, canApproveTeam currentUser p dg = false).
  { intros p. unfold canApproveTeam.
    rewrite (bool_decide_eq_false_2 _ Hn1), (bool_decide_eq_false_2 _ Hn2).
    reflexivity. }
  rewrite (bool_decide_eq_false_2 _ Hn1), (bool_decide_eq_false_2 _ Hn2).
  cbn [orb].
  destruct (decide (u_role currentUser = Role.PRINCIPAL)) as [Hr | Hn3].
  { (* principal *)
    assert (Hp : canApprovePrincipal currentUser dg = true)
      by (unfold canApprovePrincipal; rewrite Hr; js_tests; reflexivity).
    unfold baseVisiblePlans. rewrite Hr. js_tests. cbn [orb].
    f_equal. apply filter_ext_in. intros p Hin.
    rewrite includes_one, approve_rendered, Hp, Hnoteam. split.
    - intros Hs. right. split; [reflexivity | exact Hs].
    - intros [[Hf _] | [_ Hs]]; [discriminate | exact Hs]. }
  destruct (decide (u_role currentUser = Role.VICE_PRINCIPAL)) as [Hr | Hn4].
  { (* vice principal *)
    assert (Hp : canApprovePrincipal currentUser dg = principalToVp dg)
      by (unfold canApprovePrincipal; rewrite Hr; js_tests; reflexivity).
    unfold baseVisiblePlans. rewrite Hr. js_tests. cbn [orb andb].
    destruct (principalToVp dg) eqn:Hvp.
    - rewrite <- (filter_absorb
                    (fun p => includes [Status.APPROVED_BY_TL] (p_status p)
                              = true)
                    (fun p => includes [Status.APPROVED_BY_TL;
                                        Status.REJECTED_BY_VP;
                                        Status.APPROVED; Status.ISSUED]
                                       (p_status p) = true)).
      + f_equal. apply filter_ext_in. intros p Hin.
        rewrite includes_one, approve_rendered, Hp, Hnoteam. split.
        * intros Hs. right. split; [reflexivity | exact Hs].
        * intros [[Hf _] | [_ Hs]]; [discriminate | exact Hs].
      + intros p Hs. apply includes_one in Hs. rewrite Hs.
        unfold includes. cbn [existsb].
        rewrite bool_decide_eq_true_2 by reflexivity. reflexivity.
    - apply Hzero. intros p Hin Happ. apply approve_rendered in Happ.
      rewrite Hp, Hnoteam in Happ.
      destruct Happ as [[Hf _] | [Hf _]]; discriminate. }
  (* a teacher, the global admin, or an unknown role *)
  rewrite (bool_decide_eq_false_2 _ Hn3), (bool_decide_eq_false_2 _ Hn4).
  cbn [orb]. apply Hzero. intros p Hin Happ. apply approve_rendered in Happ.
  assert (Hp : canApprovePrincipal currentUser dg = false).
  { unfold canApprovePrincipal.
    rewrite (bool_decide_eq_false_2 _ Hn3), (bool_decide_eq_false_2 _ Hn4).
    reflexivity. }
  rewrite Hp, Hnoteam in Happ.
  destruct Happ as [[Hf _] | [Hf _]]; discriminate.
Qed.

Lemma waiting_for_me_witness :
  waitingForMe (renderStats (mockUser 4) (MOCK_LESSON_PLANS 0)
                            (handleDelegationChange MOCK_DELEGATION kind_team
                                                    (Some 1)))
  = 1%nat.
Proof.
  rewrite (waiting_for_me_counts_the_plans_to_approve (mockUser 4)
             (MOCK_LESSON_PLANS 0)
             (handleDelegationChange MOCK_DELEGATION kind_team (Some 1))).
  - vm_compute. reflexivity.
  - intros _. exists 1. split; [vm_compute; reflexivity | discriminate].
Defined.

(** ** Switching a delegation *)

(** X11: switching the delegation of one team flips the flag of that team and
    nothing else: the flags of the other teams and the delegation to the
    vice principal are as before, so no verdict of the guard changes on a
    document of another team, and switching twice restores every verdict.
    A team id of 0, or none, switches nothing; switching the delegation
    to the vice principal leaves every team flag as it was. *)
Theorem delegation_switch_is_local (dg : DelegationState) (t : Z) :
  t <> 0 ->
  teamDelegated (handleDelegationChange dg kind_team (Some t)) (Some t)
  = negb (teamDelegated dg (Some t))
  /\ (forall t', t' <> t ->
        teamDelegation (handleDelegationChange dg kind_team (Some t)) !! t'
        = teamDelegation dg !! t')
  /\ principalToVp (handleDelegationChange dg kind_team (Some t))
     = principalToVp dg
  /\ (forall actor document,
        p_teamId document <> Some t ->
        renderApprovalActions actor document
          (handleDelegationChange dg kind_team (Some t))
        = renderApprovalActions actor document dg)
  /\ (forall teamId,
        teamDelegated
          (handleDelegationChange
             (handleDelegationChange dg kind_team (Some t)) kind_team (Some t))
          teamId
        = teamDelegated dg teamId)
  /\ handleDelegationChange dg kind_team (Some 0) = dg
  /\ handleDelegationChange dg kind_team None = dg
  /\ (forall teamId,
        teamDelegation (handleDelegationChange dg kind_vp teamId)
        = teamDelegation dg
        /\ principalToVp (handleDelegationChange dg kind_vp teamId)
           = negb (principalToVp dg)).
Proof.
  intros Ht.
  assert (Hflip : forall d,
            teamDelegation (handleDelegationChange d kind_team (Some t)) !! t
            = Some (negb (teamDelegated d (Some t))))
    by (intros d; apply handleDelegationChange_team, Ht).
  assert (Hother : forall d t', t' <> t ->
            teamDelegation (handleDelegationChange d kind_team (Some t)) !! t'
            = teamDelegation d !! t').
  { intros d t' Hne. unfold handleDelegationChange, truthyNum.
    rewrite bool_decide_eq_false_2 by exact Ht. cbn [negb teamDelegation].
    apply lookup_insert_ne. congruence. }
  assert (Hvp : forall d,
            principalToVp (handleDelegationChange d kind_team (Some t))
            = principalToVp d).
  { intros d. unfold handleDelegationChange, truthyNum.
    rewrite bool_decide_eq_false_2 by exact Ht. reflexivity. }
  split; [unfold teamDelegated at 1; rewrite Hflip; reflexivity |].
  split; [apply Hother |]. split; [apply Hvp |]. split.
  - intros actor document Hdoc.
    unfold renderApprovalActions, canApproveTeam, canApprovePrincipal.
    rewrite Hvp.
    assert (Hd : teamDelegated (handleDelegationChange dg kind_team (Some t))
                               (p_teamId document)
                 = teamDelegated dg (p_teamId document)).
    { unfold teamDelegated. destruct (p_teamId document) as [t' |];
        [| reflexivity].
      rewrite Hother by congruence. reflexivity. }
    rewrite Hd. reflexivity.
  - split; [| split; [reflexivity | split; [reflexivity |]]].
    + intros [t' |]; [| reflexivity]. unfold teamDelegated.
      destruct (decide (t' = t)) as [-> | Hne].
      * rewrite Hflip. unfold teamDelegated. rewrite Hflip.
        unfold teamDelegated. simpl.
        rewrite Bool.negb_involutive. reflexivity.
      * rewrite !Hother by exact Hne. reflexivity.
    + intros teamId. split; reflexivity.
Qed.

Lemma delegation_switch_witness :
  teamDelegated (handleDelegationChange MOCK_DELEGATION kind_team (Some 1))
                (Some 1) = true
  /\ teamDelegated (handleDelegationChange MOCK_DELEGATION kind_team (Some 1))
                   (Some 2) = false.
Proof.
  destruct (delegation_switch_is_local MOCK_DELEGATION 1)
    as (Hflip & Hother & _); [discriminate |].
  split.
  - rewrite Hflip. vm_compute. reflexivity.
  - unfold teamDelegated. rewrite Hother by discriminate.
    vm_compute. reflexivity.
Defined.

(** ** The owner's buttons and the listing *)

(** X12: the owner's buttons are rendered for the teacher who submitted the
    plan and for nobody else.  Editing is offered on a draft and on a
    rejected plan only; the only requests the owner's buttons send are the
    submission of a draft and the recall of a plan that is submitted or
    approved by the team. *)
Theorem owner_buttons (currentUser : User) (plan : LessonPlan) :
  (renderTeacherActions currentUser plan <> [] ->
   u_role currentUser = Role.TEACHER
   /\ u_id currentUser = u_id (p_submittedBy plan))
  /\ (OnEdit ∈ renderTeacherActions currentUser plan <->
      u_role currentUser = Role.TEACHER
      /\ u_id currentUser = u_id (p_submittedBy plan)
      /\ (p_status plan = Status.DRAFT
          \/ p_status plan = Status.REJECTED_BY_TL
          \/ p_status plan = Status.REJECTED_BY_VP))
  /\ (forall newStatus,
        OnActionStatus newStatus ∈ renderTeacherActions currentUser plan <->
        u_role currentUser = Role.TEACHER
        /\ u_id currentUser = u_id (p_submittedBy plan)
        /\ (p_status plan = Status.DRAFT /\ newStatus = Status.SUBMITTED
            \/ (p_status plan = Status.SUBMITTED
                \/ p_status plan = Status.APPROVED_BY_TL)
               /\ newStatus = Status.DRAFT)).
Proof.
  assert (Hd1 : Status.DRAFT <> Status.REJECTED_BY_TL) by js_distinct.
  assert (Hd2 : Status.DRAFT <> Status.REJECTED_BY_VP) by js_distinct.
  assert (Hd3 : Status.DRAFT <> Status.SUBMITTED) by js_distinct.
  assert (Hd4 : Status.DRAFT <> Status.APPROVED_BY_TL) by js_distinct.
  assert (Hr1 : Status.REJECTED_BY_TL <> Status.SUBMITTED) by js_distinct.
  assert (Hr2 : Status.REJECTED_BY_TL <> Status.APPROVED_BY_TL)
    by js_distinct.
  assert (Hr3 : Status.REJECTED_BY_VP <> Status.SUBMITTED) by js_distinct.
  assert (Hr4 : Status.REJECTED_BY_VP <> Status.APPROVED_BY_TL)
    by js_distinct.
  unfold renderTeacherActions.
  destruct (decide (u_role currentUser = Role.TEACHER)) as [Hr | Hr].
  2:{ rewrite (bool_decide_eq_false_2 _ Hr). cbn [negb orb].
      split; [intros H; exfalso; apply H; reflexivity |].
      split; [| intros newStatus]; split; intros H;
        [inversion H | exfalso; apply Hr, H
        | inversion H | exfalso; apply Hr, H]. }
  rewrite (bool_decide_eq_true_2 _ Hr). cbn [negb orb].
  destruct (decide (u_id currentUser = u_id (p_submittedBy plan)))
    as [Ho | Ho].
  2:{ rewrite (bool_decide_eq_false_2 _ Ho). cbn [negb].
      split; [intros H; exfalso; apply H; reflexivity |].
      split; [| intros newStatus]; split; intros H;
        [inversion H | exfalso; apply Ho, H
        | inversion H | exfalso; apply Ho, H]. }
  rewrite (bool_decide_eq_true_2 _ Ho). cbn [negb].
  split; [intros _; split; assumption |].
  destruct (decide (p_status plan = Status.DRAFT)) as [Hs | Hn1].
  { rewrite (bool_decide_eq_true_2 _ Hs). split; [| intros newStatus]; split.
    - intros _. repeat split; try assumption. left. exact Hs.
    - intros _. constructor.
    - intros H. inversion H as [| ? ? ? H']; subst.
      inversion H' as [| ? ? ? H'']; subst; [| inversion H''].
      repeat split; try assumption. left. split; [exact Hs | reflexivity].
    - intros (_ & _ & [[_ ->] | [[H | H] _]]).
      + constructor. constructor.
      + exfalso. rewrite Hs in H. exact (Hd3 H).
      + exfalso. rewrite Hs in H. exact (Hd4 H). }
  rewrite (bool_decide_eq_false_2 _ Hn1).
  destruct (decide (p_status plan = Status.REJECTED_BY_TL)) as [Hs | Hn2].
  { rewrite (bool_decide_eq_true_2 _ Hs). cbn [orb].
    split; [| intros newStatus]; split.
    - intros _. repeat split; try assumption. right. left. exact Hs.
    - intros _. constructor.
    - intros H. inversion H as [| ? ? ? H']; subst. inversion H'.
    - intros (_ & _ & [[H _] | [[H | H] _]]); exfalso.
      + exact (Hn1 H).
      + rewrite Hs in H. exact (Hr1 H).
      + rewrite Hs in H. exact (Hr2 H). }
  rewrite (bool_decide_eq_false_2 _ Hn2). cbn [orb].
  destruct (decide (p_status plan = Status.REJECTED_BY_VP)) as [Hs | Hn3].
  { rewrite (bool_decide_eq_true_2 _ Hs).
    split; [| intros newStatus]; split.
    - intros _. repeat split; try assumption. right. right. exact Hs.
    - intros _. constructor.
    - intros H. inversion H as [| ? ? ? H']; subst. inversion H'.
    - intros (_ & _ & [[H _] | [[H | H] _]]); exfalso.
      + exact (Hn1 H).
      + rewrite Hs in H. exact (Hr3 H).
      + rewrite Hs in H. exact (Hr4 H). }
  rewrite (bool_decide_eq_false_2 _ Hn3).
  assert (Hnoedit : ~ (u_role currentUser = Role.TEACHER
                       /\ u_id currentUser = u_id (p_submittedBy plan)
                       /\ (p_status plan = Status.DRAFT
                           \/ p_status plan = Status.REJECTED_BY_TL
                           \/ p_status plan = Status.REJECTED_BY_VP))).
  { intros (_ & _ & [H | [H | H]]);
      [exact (Hn1 H) | exact (Hn2 H) | exact (Hn3 H)]. }
  destruct (bool_decide (p_status plan = Status.SUBMITTED)
            || bool_decide (p_status plan = Status.APPROVED_BY_TL)) eqn:Hrecall.
  - apply Bool.orb_true_iff in Hrecall.
    rewrite !bool_decide_eq_true in Hrecall.
    split; [| intros newStatus]; split.
    + intros H. inversion H as [| ? ? ? H']; subst. inversion H'.
    + intros H. exfalso. exact (Hnoedit H).
    + intros H. inversion H as [| ? ? ? H']; subst; [| inversion H'].
      repeat split; try assumption. right. split; [exact Hrecall | reflexivity].
    + intros (_ & _ & [[H _] | [_ ->]]); [exfalso; exact (Hn1 H) |].
      constructor.
  - apply Bool.orb_false_iff in Hrecall.
    rewrite !bool_decide_eq_false in Hrecall. destruct Hrecall as [Hn4 Hn5].
    split; [| intros newStatus]; split.
    + intros H. inversion H.
    + intros H. exfalso. exact (Hnoedit H).
    + intros H. inversion H.
    + intros (_ & _ & [[H _] | [[H | H] _]]); exfalso;
        [exact (Hn1 H) | exact (Hn4 H) | exact (Hn5 H)].
Qed.

Lemma render_without_authority currentUser plan dg :
  canApproveTeam currentUser plan dg = false ->
  (canApprovePrincipal currentUser dg = false
   \/ p_status plan <> Status.APPROVED_BY_TL
      /\ p_status plan <> Status.APPROVED) ->
  renderApprovalActions currentUser plan dg = [].
Proof.
  intros Ht Hp.
  destruct (decide (p_status plan = Status.SUBMITTED)) as [Hs | Hn0];
    [rewrite (render_SUBMITTED _ _ _ Hs), Ht; reflexivity |].
  destruct (decide (p_status plan = Status.APPROVED_BY_TL)) as [Hs | Hn1].
  { rewrite (render_APPROVED_BY_TL _ _ _ Hs), Ht.
    destruct Hp as [Hp | [Hp _]]; [rewrite Hp; reflexivity |].
    exfalso. exact (Hp Hs). }
  destruct (decide (p_status plan = Status.APPROVED)) as [Hs | Hn2].
  { rewrite (render_APPROVED _ _ _ Hs).
    destruct Hp as [Hp | [_ Hp]];
      [rewrite Hp, Bool.andb_false_r; reflexivity |].
    exfalso. exact (Hp Hs). }
  exact (render_other_status _ _ _ Hn0 Hn1 Hn2).
Qed.

(** X13: whoever is offered a move on a plan is also shown the plan: a plan
    on which the card renders an approver's button, or an owner's button,
    for a user passes the visibility filter of that user. *)
Theorem offered_move_implies_listed
    (currentUser : User) (plan : LessonPlan) (dg : DelegationState)
    (lessonPlans : list LessonPlan) :
  plan ∈ lessonPlans ->
  renderApprovalActions currentUser plan dg <> []
  \/ renderTeacherActions currentUser plan <> [] ->
  plan ∈ baseVisiblePlans currentUser lessonPlans.
Proof.
  intros Hin [Hrender | Hrender].
  - destruct (canApproveTeam currentUser plan dg) eqn:Ht.
    + apply canApproveTeam_rule in Ht. unfold baseVisiblePlans.
      destruct Ht as [[Hr Hteam] | (Hr & Hteam & _)]; rewrite Hr; js_tests;
        apply list_elem_of_filter; (split; [symmetry; exact Hteam | exact Hin]).
    + destruct (canApprovePrincipal currentUser dg) eqn:Hp.
      * destruct (canApprovePrincipal_role _ _ Hp) as [Hr | Hr];
          unfold baseVisiblePlans; rewrite Hr; js_tests; [exact Hin |].
        apply list_elem_of_filter. split; [| exact Hin].
        destruct (decide (p_status plan = Status.APPROVED_BY_TL)) as [Hs | Hn1];
          [rewrite Hs; unfold includes; cbn [existsb]; js_tests; reflexivity |].
        destruct (decide (p_status plan = Status.APPROVED)) as [Hs | Hn2];
          [rewrite Hs; unfold includes; cbn [existsb]; js_tests; reflexivity |].
        exfalso. apply Hrender.
        apply (render_without_authority _ _ _ Ht). right.
        split; [exact Hn1 | exact Hn2].
      * exfalso. apply Hrender.
        apply (render_without_authority _ _ _ Ht). left. exact Hp.
  - unfold renderTeacherActions in Hrender. unfold baseVisiblePlans.
    destruct (decide (u_role currentUser = Role.TEACHER)) as [Hr | Hr].
    + rewrite (bool_decide_eq_true_2 _ Hr).
      rewrite (bool_decide_eq_true_2 _ Hr) in Hrender. cbn [negb orb] in Hrender.
      apply list_elem_of_filter. split; [| exact Hin].
      destruct (decide (u_id currentUser = u_id (p_submittedBy plan)))
        as [Ho | Ho]; [symmetry; exact Ho |].
      exfalso. apply Hrender.
      rewrite (bool_decide_eq_false_2 _ Ho). reflexivity.
    + exfalso. apply Hrender.
      rewrite (bool_decide_eq_false_2 _ Hr). reflexivity.
Qed.

Lemma offered_move_witness :
  mkPlan 3 "Bài dạy: Thì Hiện tại Hoàn thành" (mockUser 6) (0 - 3 * day)
    Status.APPROVED_BY_TL 1 "Ngoại ngữ 1 (Tiếng Anh)" "Khối 7" "7B"
    "English7_PresentPerfect.pdf" None None [] [] "THCS-BINHSON"
  ∈ baseVisiblePlans (mockUser 1)
      [mkPlan 3 "Bài dạy: Thì Hiện tại Hoàn thành" (mockUser 6) (0 - 3 * day)
         Status.APPROVED_BY_TL 1 "Ngoại ngữ 1 (Tiếng Anh)" "Khối 7" "7B"
         "English7_PresentPerfect.pdf" None None [] [] "THCS-BINHSON"].
Proof.
  apply (offered_move_implies_listed _ _ MOCK_DELEGATION).
  - constructor.
  - left. vm_compute. discriminate.
Defined.

(** ** Saving a plan from the upload form *)






(** X16: a save touches the lesson plans only, and only when it succeeds.
    Nothing is sent exactly when no user is logged in or no school is
    selected, and then the database is as it was; a
    request answered with a message (400 for a new plan without a file,
    404 for an unknown plan or an unknown submitter) leaves the database
    as it was; a successful request leaves the users, the teams, the
    schools and the delegation as they were, answers 201 with one plan
    more, or 200 with as many plans as before, and the plan of the answer
    is in the database. *)
Theorem save_touches_the_lesson_plans_only
    (currentUser : option User) (selectedSchool : option School)
    (editing : option LessonPlan) (details : UploadDetails)
    (file : option UploadedFile) (isDraft : bool) (db : Db)
    (now tSubmitted tHistory : Z) :
  (snd (handleSaveLessonPlan currentUser selectedSchool editing details file
                             isDraft db now tSubmitted tHistory) = None
   <-> currentUser = None \/ selectedSchool = None)
  /\ match handleSaveLessonPlan currentUser selectedSchool editing details
                                file isDraft db now tSubmitted tHistory with
     | (db', None) => db' = db
     | (db', Some (Message code _)) =>
         db' = db
         /\ (code = 400 /\ editing = None /\ file = None \/ code = 404)
     | (db', Some (Json code saved)) =>
         users db' = users db /\ teams db' = teams db
         /\ schools db' = schools db /\ delegation db' = delegation db
         /\ saved ∈ lessonPlans db'
         /\ (code = 201 /\ editing = None
             /\ lessonPlans db' = lessonPlans db ++ [saved]
             \/ code = 200 /\ is_Some editing
                /\ length (lessonPlans db') = length (lessonPlans db))
     end.
Proof.
  split.
  { unfold handleSaveLessonPlan.
    destruct currentUser as [u |];
      [| split; [intros _; left; reflexivity | reflexivity]].
    destruct selectedSchool as [school |];
      [| split; [intros _; right; reflexivity | reflexivity]].
    destruct editing as [editing |];
      [destruct (put_lesson_plan db (p_id editing) (fullDetails details school)
                   (if isDraft then js "true" else js "false") file tSubmitted
                   tHistory) as [db' response]
      | destruct (post_lesson_plan db (fullDetails details school)
                    (if isDraft then js "true" else js "false") file now
                    tSubmitted tHistory) as [db' response]];
      (split; [discriminate | intros [H | H]; discriminate H]). }
  unfold handleSaveLessonPlan.
  destruct currentUser as [u |]; [| reflexivity].
  destruct selectedSchool as [school |]; [| reflexivity].
  destruct editing as [editing |].
  - unfold put_lesson_plan.
    destruct (findIndex _ (lessonPlans db)) as [[planIndex plan] |] eqn:Hi;
      [| split; [reflexivity | right; reflexivity]].
    destruct (find _ (users db)) as [updater |];
      [| split; [reflexivity | right; reflexivity]].
    cbv zeta. repeat (split; [reflexivity |]).
    apply findIndex_lookup in Hi. destruct Hi as [Hi _].
    apply lookup_lt_Some in Hi.
    split.
    + apply list_elem_of_lookup. exists planIndex.
      apply list_lookup_insert_eq. exact Hi.
    + right. split; [reflexivity |]. split; [eexists; reflexivity |].
      apply length_insert.
  - unfold post_lesson_plan.
    destruct file as [f0 |];
      [| split; [reflexivity | left; repeat split; reflexivity]].
    destruct (find _ (users db)) as [submitter |];
      [| split; [reflexivity | right; reflexivity]].
    cbv zeta. repeat (split; [reflexivity |]).
    split.
    + apply elem_of_app. right. constructor.
    + left. repeat split; reflexivity.
Qed.

(** ** The client's fallback for a role assignment *)

(** [arr.map(f).find(x => key(x) === k)] when [f] keeps the key. *)
Lemma find_map_key {A} (key : A -> Z) (f : A -> A) (l : list A) (k : Z) :
  (forall x, key (f x) = key x) ->
  find (fun x => key x = k) (List.map f l)
  = f <$> find (fun x => key x = k) l.
Proof.
  intros Hkey. unfold find.
  induction l as [| x l IH]; [reflexivity |].
  cbn [List.map list_find].
  destruct (decide (key x = k)) as [Hx | Hx].
  - rewrite decide_True by (rewrite Hkey; exact Hx). reflexivity.
  - rewrite decide_False by (rewrite Hkey; exact Hx).
    destruct (list_find (fun x0 => key x0 = k) (List.map f l)) as [[i y] |];
      destruct (list_find (fun x0 => key x0 = k) l) as [[j z] |];
      simpl in *; congruence.
Qed.

(** [arr[i] = y] for the element found by key, then a lookup by key. *)
Lemma find_insert_key {A} (key : A -> Z) (l : list A) (i : nat) (x y : A)
    (k0 k : Z) :
  findIndex (fun x => key x = k0) l = Some (i, x) ->
  key y = k0 ->
  find (fun x => key x = k) (<[i := y]> l)
  = if bool_decide (k = k0) then Some y else find (fun x => key x = k) l.
Proof.
  intros Hf Hy. destruct (findIndex_lookup _ _ _ _ Hf) as [Hl Hid].
  case_bool_decide as Hk.
  - subst k. apply (findIndex_find _ _ i).
    apply (findIndex_insert_found _ _ _ x); assumption.
  - unfold find.
    rewrite (list_find_insert_other _ _ _ x); [reflexivity | exact Hl | |];
      congruence.
Qed.

(** X17: when the request fails, the client makes the assignment on its own
    copies of the teams and the users.  Starting from the data of the
    server, and for a team that exists, the copies then agree with what
    the endpoint would have stored: a team looked up by id is the same,
    and so is a user looked up by an id other than 0. *)
Theorem fallback_agrees_with_the_endpoint
    (sharing : Sharing) (db : Db) (id : Z) (roleType : jsstring)
    (userId : option Z) (teamIndex : nat) (team : Team) (k : Z) :
  findIndex (fun t => t_id t = id) (teams db) = Some (teamIndex, team) ->
  find (fun t => t_id t = k)
       (fst (handleAssignTeamRole_fallback (teams db) (users db) id roleType
                                           userId))
  = find (fun t => t_id t = k)
         (teams (fst (post_team_assign_role sharing db id roleType
                                            userId)))
  /\ (k <> 0 ->
      find (fun u => u_id u = k)
           (snd (handleAssignTeamRole_fallback (teams db) (users db) id
                                               roleType userId))
      = find (fun u => u_id u = k)
             (users (fst (post_team_assign_role sharing db id roleType
                                                userId)))).
Proof.
  intros Hfind.
  destruct (assign_role_effect sharing db id roleType userId teamIndex team
              Hfind)
    as (team' & updatedUsers & db' & Hpost & Hteam' & Hteams & _ & _ & _ & _
        & Hroles).
  rewrite Hpost. cbn [fst]. rewrite Hteams, Hroles.
  pose proof (findIndex_find _ _ _ _ Hfind) as Hold.
  destruct (findIndex_lookup _ _ _ _ Hfind) as [_ Hid].
  unfold handleAssignTeamRole_fallback. cbv zeta. cbn [fst snd].
  rewrite Hold.
  generalize dependent (bool_decide (roleType = js "leader")).
  intros leader Hteam' Hroles.
  split.
  - rewrite find_map_key.
    2:{ intros t. destruct (bool_decide (t_id t = id)); [| reflexivity].
        destruct leader; reflexivity. }
    rewrite (find_insert_key t_id _ _ team team' id k Hfind)
      by (rewrite Hteam'; destruct leader; exact Hid).
    case_bool_decide as Hk.
    + subst k. rewrite Hold. cbn [fmap option_fmap option_map].
      rewrite (bool_decide_eq_true_2 _ Hid), Hteam'. reflexivity.
    + destruct (find (fun t => t_id t = k) (teams db)) as [t |] eqn:Ht;
        [| reflexivity].
      apply find_Some_holds in Ht. cbn [fmap option_fmap option_map].
      rewrite bool_decide_eq_false_2 by congruence. reflexivity.
  - intros Hk. rewrite find_map_key.
    2:{ intros u.
        destruct (bool_decide _ && negb (bool_decide _)); [reflexivity |].
        destruct (bool_decide (Some (u_id u) = userId)); reflexivity. }
    destruct (find (fun u => u_id u = k) (users db)) as [u |] eqn:Hu;
      [| reflexivity].
    apply find_Some_holds in Hu. cbn [fmap option_fmap option_map].
    rewrite Hu. f_equal.
    assert (Htruthy : truthyNum k = true)
      by (unfold truthyNum; rewrite bool_decide_eq_false_2 by exact Hk;
          reflexivity).
    rewrite Htruthy, Bool.andb_true_r.
    destruct (decide (userId = Some k)) as [-> | Hne].
    + cbn [orUndefined]. rewrite Htruthy.
      rewrite !(bool_decide_eq_true_2 (Some k = Some k)) by reflexivity.
      cbn [negb]. rewrite Bool.andb_false_r. reflexivity.
    + rewrite (bool_decide_eq_false_2 (Some k = userId)) by congruence.
      rewrite (bool_decide_eq_false_2 (userId = Some k)) by exact Hne.
      rewrite (bool_decide_eq_false_2 (orUndefined userId = Some k)).
      2:{ intros Ho. apply orUndefined_Some in Ho. destruct Ho as [Ho _].
          exact (Hne Ho). }
      cbn [negb]. rewrite !Bool.andb_true_r.
      rewrite (bool_decide_ext
                 (Some k = (if leader then t_leaderId team
                            else t_deputyLeaderId team))
                 ((if leader then t_leaderId team
                   else t_deputyLeaderId team) = Some k))
        by (split; congruence).
      reflexivity.
Qed.

Lemma fallback_witness :
  u_role <$> find (fun u => u_id u = 7)
               (snd (handleAssignTeamRole_fallback (teams (MOCK_DATA 0))
                       (users (MOCK_DATA 0)) 1 (js "leader") (Some 7)))
  = Some Role.TEAM_LEADER.
Proof.
  destruct (fallback_agrees_with_the_endpoint MOCK_SHARING (MOCK_DATA 0) 1
              (js "leader") (Some 7) 0%nat
              {| t_id := 1; t_name := js "Tổ Khoa học Tự nhiên";
                 t_leaderId := Some 4; t_deputyLeaderId := Some 5;
                 t_schoolId := Some (js "THCS-BINHSON") |} 7)
    as [_ Hu].
  - vm_compute. reflexivity.
  - rewrite Hu by discriminate. vm_compute. reflexivity.
Defined.

(** ** The progress bar of a card *)

Ltac stepper_shape :=
  split; [reflexivity |];
  split; [cbn [length Nat.add]; lia |];
  first [ left; reflexivity | right; left; reflexivity
        | right; right; reflexivity ].

(** X18: whatever the status of the plan, the four steps of the progress bar
    read: some completed steps, then at most one step that is current or
    rejected, then upcoming steps.  A step is shown rejected exactly for
    the two rejected statuses, and all four are completed exactly for an
    issued plan. *)
Theorem progress_bar_is_well_formed (plan : LessonPlan) :
  (exists done middle,
     ApprovalStepper plan
     = replicate done StepStatus.completed ++ middle
       ++ replicate (4 - done - length middle) StepStatus.upcoming
     /\ (done + length middle <= 4)%nat
     /\ (middle = [] \/ middle = [StepStatus.current]
         \/ middle = [StepStatus.rejected]))
  /\ (StepStatus.rejected ∈ ApprovalStepper plan <->
      p_status plan = Status.REJECTED_BY_TL
      \/ p_status plan = Status.REJECTED_BY_VP)
  /\ (ApprovalStepper plan = replicate 4 StepStatus.completed <->
      p_status plan = Status.ISSUED).
Proof.
  assert (Hno : forall a b c d : StepStatus.t,
            a <> StepStatus.rejected -> b <> StepStatus.rejected ->
            c <> StepStatus.rejected -> d <> StepStatus.rejected ->
            ~ StepStatus.rejected ∈ [a; b; c; d]).
  { intros a b c d Ha Hb Hc Hd H.
    repeat (apply elem_of_cons in H; destruct H as [H | H];
            [congruence |]).
    inversion H. }
  unfold ApprovalStepper. cbv zeta.
  destruct (decide (p_status plan = Status.DRAFT)) as [Hs | Hn1].
  { rewrite Hs. js_tests. split; [exists 0%nat, []; stepper_shape |].
    split; split.
    - intros H. exfalso. revert H. apply Hno; discriminate.
    - intros [H | H]; exfalso; revert H; js_distinct.
    - discriminate.
    - intros H; exfalso; revert H; js_distinct. }
  rewrite (bool_decide_eq_false_2 (p_status plan = Status.DRAFT)) by exact Hn1.
  destruct (decide (p_status plan = Status.SUBMITTED)) as [Hs | Hn2].
  { rewrite Hs. js_tests.
    split; [exists 1%nat, [StepStatus.current]; stepper_shape |].
    split; split.
    - intros H. exfalso. revert H. apply Hno; discriminate.
    - intros [H | H]; exfalso; revert H; js_distinct.
    - discriminate.
    - intros H; exfalso; revert H; js_distinct. }
  rewrite (bool_decide_eq_false_2 (p_status plan = Status.SUBMITTED))
    by exact Hn2.
  destruct (decide (p_status plan = Status.REJECTED_BY_TL)) as [Hs | Hn3].
  { rewrite Hs. js_tests.
    split; [exists 1%nat, [StepStatus.rejected]; stepper_shape |].
    split; split.
    - intros _. left. reflexivity.
    - intros _. apply list_elem_of_further, list_elem_of_here.
    - discriminate.
    - intros H; exfalso; revert H; js_distinct. }
  rewrite (bool_decide_eq_false_2 (p_status plan = Status.REJECTED_BY_TL))
    by exact Hn3.
  destruct (decide (p_status plan = Status.APPROVED_BY_TL)) as [Hs | Hn4].
  { rewrite Hs. js_tests.
    split; [exists 2%nat, [StepStatus.current]; stepper_shape |].
    split; split.
    - intros H. exfalso. revert H. apply Hno; discriminate.
    - intros [H | H]; exfalso; revert H; js_distinct.
    - discriminate.
    - intros H; exfalso; revert H; js_distinct. }
  rewrite (bool_decide_eq_false_2 (p_status plan = Status.APPROVED_BY_TL))
    by exact Hn4.
  destruct (decide (p_status plan = Status.REJECTED_BY_VP)) as [Hs | Hn5].
  { rewrite Hs. js_tests.
    split; [exists 2%nat, [StepStatus.rejected]; stepper_shape |].
    split; split.
    - intros _. right. reflexivity.
    - intros _.
      apply list_elem_of_further, list_elem_of_further, list_elem_of_here.
    - discriminate.
    - intros H; exfalso; revert H; js_distinct. }
  rewrite (bool_decide_eq_false_2 (p_status plan = Status.REJECTED_BY_VP))
    by exact Hn5.
  destruct (decide (p_status plan = Status.APPROVED)) as [Hs | Hn6].
  { rewrite Hs. js_tests.
    split; [exists 3%nat, [StepStatus.current]; stepper_shape |].
    split; split.
    - intros H. exfalso. revert H. apply Hno; discriminate.
    - intros [H | H]; exfalso; revert H; js_distinct.
    - discriminate.
    - intros H; exfalso; revert H; js_distinct. }
  rewrite (bool_decide_eq_false_2 (p_status plan = Status.APPROVED))
    by exact Hn6.
  destruct (decide (p_status plan = Status.ISSUED)) as [Hs | Hn7].
  { rewrite (bool_decide_eq_true_2 (p_status plan = Status.ISSUED))
      by exact Hs.
    split; [exists 4%nat, []; stepper_shape |].
    split; split.
    - intros H. exfalso. revert H. apply Hno; discriminate.
    - intros [H | H]; exfalso; [exact (Hn3 H) | exact (Hn5 H)].
    - intros _. exact Hs.
    - intros _. reflexivity. }
  rewrite (bool_decide_eq_false_2 (p_status plan = Status.ISSUED))
    by exact Hn7.
  split; [exists 0%nat, []; stepper_shape |].
  split; split.
  - intros H. exfalso. revert H. apply Hno; discriminate.
  - intros [H | H]; exfalso; [exact (Hn3 H) | exact (Hn5 H)].
  - discriminate.
  - intros H. exfalso. exact (Hn7 H).
Qed.

(** ** The report of a team *)

Lemma filter_classes_le {A} (P C1 C2 C3 : A -> Prop)
    `{forall x, Decision (P x)} `{forall x, Decision (C1 x)}
    `{forall x, Decision (C2 x)} `{forall x, Decision (C3 x)}
    (l : list A) :
  (forall x, C1 x -> C2 x -> False) ->
  (forall x, C1 x -> C3 x -> False) ->
  (forall x, C2 x -> C3 x -> False) ->
  (length (filter (fun x => P x /\ C1 x) l)
   + length (filter (fun x => P x /\ C2 x) l)
   + length (filter (fun x => P x /\ C3 x) l)
   <= length (filter P l))%nat.
Proof.
  intros H12 H13 H23. induction l as [| x l IH]; [reflexivity |].
  rewrite !filter_cons.
  destruct (decide (P x)) as [Hp | Hp];
    destruct (decide (P x /\ C1 x)) as [[Hq1 Hc1] | Hc1];
    destruct (decide (P x /\ C2 x)) as [[Hq2 Hc2] | Hc2];
    destruct (decide (P x /\ C3 x)) as [[Hq3 Hc3] | Hc3];
    cbn [length]; try lia; exfalso;
    first [ exact (Hp Hq1) | exact (Hp Hq2) | exact (Hp Hq3)
          | exact (H12 x Hc1 Hc2) | exact (H13 x Hc1 Hc3)
          | exact (H23 x Hc2 Hc3) ].
Qed.

Lemma insertRow_perm row sorted : insertRow row sorted ≡ₚ row :: sorted.
Proof.
  induction sorted as [| r rest IH]; [reflexivity |]. cbn [insertRow].
  destruct (decide _); [| reflexivity].
  rewrite IH. apply Permutation_swap.
Qed.

Lemma sortRows_perm rows : sortRows rows ≡ₚ rows.
Proof.
  induction rows as [| row rows IH]; [reflexivity |].
  unfold sortRows in *. cbn [foldr]. rewrite insertRow_perm, IH. reflexivity.
Qed.

Lemma insertRow_descending row sorted :
  descending sorted -> descending (insertRow row sorted).
Proof.
  induction 1 as [| r rest Hall Hd IH]; cbn [insertRow].
  - constructor; constructor.
  - destruct (decide _) as [Hlt | Hge].
    + constructor; [| exact IH].
      rewrite insertRow_perm. constructor; [lia | exact Hall].
    + constructor; [| constructor; assumption].
      constructor; [lia |].
      eapply Forall_impl; [exact Hall |]. cbn. intros; lia.
Qed.

Lemma sortRows_descending rows : descending (sortRows rows).
Proof.
  induction rows as [| row rows IH]; [constructor |].
  unfold sortRows in *. cbn [foldr]. apply insertRow_descending, IH.
Qed.

Lemma descending_lookup rows i j ri rj :
  descending rows -> (i < j)%nat ->
  rows !! i = Some ri -> rows !! j = Some rj ->
  (submitted rj <= submitted ri)%nat.
Proof.
  intros Hd. revert i j. induction Hd as [| row rows Hall Hd IH];
    intros i j Hlt Hi Hj; [discriminate |].
  destruct j as [| j]; [lia |]. cbn in Hj.
  destruct i as [| i].
  - cbn in Hi. injection Hi as <-.
    rewrite Forall_forall in Hall. apply Hall.
    apply list_elem_of_lookup. exists j. exact Hj.
  - cbn in Hi. apply (IH i j); [lia | assumption | assumption].
Qed.

(** X19: the report of a team has one row for each teacher of the team, the
    rows come with the largest number of submitted plans first, and in
    every row the plans counted as approved, rejected and pending are
    different plans of that teacher: together they never exceed the
    number submitted, which never exceeds the number of plans of the
    team. *)
Theorem team_report_rows_add_up
    (currentUser : User) (users : list User) (lessonPlans : list LessonPlan) :
  length (teacherStats currentUser users lessonPlans)
  = length (teamMembers currentUser users)
  /\ (forall row,
        row ∈ teacherStats currentUser users lessonPlans ->
        (approved row + rejected row + pending row <= submitted row)%nat
        /\ (submitted row <= length (teamPlans currentUser lessonPlans))%nat
        /\ exists teacher,
             teacher ∈ users /\ u_role teacher = Role.TEACHER
             /\ u_teamId teacher = u_teamId currentUser
             /\ teacherName row = u_name teacher)
  /\ (forall i j rowi rowj,
        (i < j)%nat ->
        teacherStats currentUser users lessonPlans !! i = Some rowi ->
        teacherStats currentUser users lessonPlans !! j = Some rowj ->
        (submitted rowj <= submitted rowi)%nat).
Proof.
  assert (Ha1 : Status.APPROVED <> Status.REJECTED_BY_TL) by js_distinct.
  assert (Ha2 : Status.APPROVED <> Status.REJECTED_BY_VP) by js_distinct.
  assert (Ha3 : Status.APPROVED <> Status.SUBMITTED) by js_distinct.
  assert (Hi1 : Status.ISSUED <> Status.REJECTED_BY_TL) by js_distinct.
  assert (Hi2 : Status.ISSUED <> Status.REJECTED_BY_VP) by js_distinct.
  assert (Hi3 : Status.ISSUED <> Status.SUBMITTED) by js_distinct.
  assert (Ht1 : Status.APPROVED_BY_TL <> Status.REJECTED_BY_TL)
    by js_distinct.
  assert (Ht2 : Status.APPROVED_BY_TL <> Status.REJECTED_BY_VP)
    by js_distinct.
  assert (Ht3 : Status.APPROVED_BY_TL <> Status.SUBMITTED) by js_distinct.
  assert (Hr1 : Status.REJECTED_BY_TL <> Status.SUBMITTED) by js_distinct.
  assert (Hr2 : Status.REJECTED_BY_VP <> Status.SUBMITTED) by js_distinct.
  assert (Happ : forall s,
            includes [Status.APPROVED; Status.ISSUED; Status.APPROVED_BY_TL] s
            = true ->
            s = Status.APPROVED \/ s = Status.ISSUED
            \/ s = Status.APPROVED_BY_TL).
  { intros s. unfold includes. cbn [existsb].
    rewrite !Bool.orb_true_iff, !bool_decide_eq_true.
    intros [H | [H | [H | H]]]; [left | right; left | right; right |];
      [symmetry; exact H | symmetry; exact H | symmetry; exact H
      | discriminate H]. }
  assert (Hrej : forall s,
            includes [Status.REJECTED_BY_TL; Status.REJECTED_BY_VP] s = true ->
            s = Status.REJECTED_BY_TL \/ s = Status.REJECTED_BY_VP).
  { intros s. unfold includes. cbn [existsb].
    rewrite !Bool.orb_true_iff, !bool_decide_eq_true.
    intros [H | [H | H]]; [left | right |];
      [symmetry; exact H | symmetry; exact H | discriminate H]. }
  unfold teacherStats. split; [| split].
  - rewrite sortRows_perm. apply length_map.
  - intros row Hrow. rewrite sortRows_perm in Hrow.
    apply list_elem_of_In, in_map_iff in Hrow.
    destruct Hrow as (teacher & <- & Hteacher).
    apply list_elem_of_In in Hteacher.
    unfold teamMembers in Hteacher. apply list_elem_of_filter in Hteacher.
    destruct Hteacher as [[Hteam Hrole] Hin].
    split; [| split].
    + cbn [approved rejected pending submitted teacherRow].
      apply filter_classes_le.
      * intros p H1 H2. apply Happ in H1. apply Hrej in H2.
        destruct H1 as [H1 | [H1 | H1]]; destruct H2 as [H2 | H2];
          rewrite H1 in H2;
          [exact (Ha1 H2) | exact (Ha2 H2) | exact (Hi1 H2) | exact (Hi2 H2)
          | exact (Ht1 H2) | exact (Ht2 H2)].
      * intros p H1 H2. apply Happ in H1.
        destruct H1 as [H1 | [H1 | H1]]; rewrite H1 in H2;
          [exact (Ha3 H2) | exact (Hi3 H2) | exact (Ht3 H2)].
      * intros p H1 H2. apply Hrej in H1.
        destruct H1 as [H1 | H1]; rewrite H1 in H2;
          [exact (Hr1 H2) | exact (Hr2 H2)].
    + cbn [submitted teacherRow]. apply length_filter.
    + exists teacher. repeat split; assumption.
  - intros i j rowi rowj. apply descending_lookup, sortRows_descending.
Qed.

(** ** A delegation switched by the admin and stored by the server *)

(** X20: switching the delegation of a team in the admin panel and storing the
    result changes the delegation state only, and reverses what the guard
    answers to a deputy of that team on a plan of that team. *)
Theorem stored_switch_reverses_the_deputy
    (db : Db) (t : Z) (deputy : User) (plan : LessonPlan) :
  t <> 0 ->
  u_role deputy = Role.DEPUTY_TEAM_LEADER ->
  u_teamId deputy = Some t ->
  p_teamId plan = Some t ->
  match put_delegation db
          (handleDelegationChange (delegation db) kind_team (Some t)) with
  | (db', Json code stored) =>
      code = 200 /\ stored = delegation db'
      /\ users db' = users db /\ teams db' = teams db
      /\ schools db' = schools db /\ lessonPlans db' = lessonPlans db
      /\ canApproveTeam deputy plan (delegation db')
         = negb (canApproveTeam deputy plan (delegation db))
  | (_, Message _ _) => False
  end.
Proof.
  intros Ht Hr Hteam Hplan. unfold put_delegation.
  repeat (split; [reflexivity |]).
  cbn [delegation set_delegation].
  assert (Hdeputy : forall dg,
            canApproveTeam deputy plan dg = teamDelegated dg (Some t)).
  { intros dg. unfold canApproveTeam. rewrite Hr, Hteam, Hplan. js_tests.
    reflexivity. }
  rewrite !Hdeputy. unfold teamDelegated at 1.
  rewrite handleDelegationChange_team by exact Ht. reflexivity.
Qed.

Lemma stored_switch_witness :
  canApproveTeam (mockUser 4)
    (mkPlan 1 "" (mockUser 5) 0 Status.SUBMITTED 1 "" "" "" "" None None
            [] [] "THCS-BINHSON")
    (delegation
       (fst (put_delegation (MOCK_DATA 0)
               (handleDelegationChange (delegation (MOCK_DATA 0)) kind_team
                                       (Some 1)))))
  = true.
Proof.
  pose proof (stored_switch_reverses_the_deputy (MOCK_DATA 0) 1 (mockUser 4)
                (mkPlan 1 "" (mockUser 5) 0 Status.SUBMITTED 1 "" "" "" ""
                        None None [] [] "THCS-BINHSON")) as H.
  unfold put_delegation in *. cbn [fst].
  destruct H as (_ & _ & _ & _ & _ & _ & H);
    [discriminate | vm_compute; reflexivity | reflexivity | reflexivity |].
  rewrite H. vm_compute. reflexivity.
Defined.
